(** * Temporal realism and statistical-fidelity engine: a shallow embedding

    The Python sources embedded here are
    - [src/utils/temporal.py]       (class [TemporalGenerator]),
    - [src/generators/custom_fields.py] (class [CustomFieldGenerator]),
    - [src/generators/comments.py]  (the timestamp of a comment),
    - [src/utils/validation.py]     (class [DataValidator]).
    - [src/generators/tasks.py]     (the due date of a task).

    Conventions.
    - A naive [datetime] is the number of microseconds since
      1970-01-01 00:00:00; a [date] is a day ordinal (days since 1970-01-01);
      a [timedelta] is a number of microseconds.
    - Python floats that take part in comparisons and products are rationals
      ([Q]); the KL divergence, which needs a logarithm, is over [R].
    - Every value that Python takes from [random] or [numpy.random] is an
      explicit argument (a field of a record of draws), so each function is a
      pure function of its inputs and of the draws it consumes.
    - A Python exception is the [Raise] alternative of [result].
    - A [while] loop takes a fuel argument; [None] means that the fuel ran
      out before the loop ended. *)

From Stdlib Require Import ZArith QArith Qround Qabs Bool List.
From Stdlib Require Import Ascii String.
From Stdlib Require Import Reals Psatz.
Import ListNotations.

Local Open Scope Z_scope.

(** ** Python values shared by all modules *)

Module Py.

Inductive exn : Type :=
| IndexError
| ValueError
| TypeError
| AttributeError
| NameError.

Inductive result (A : Type) : Type :=
| Ok (a : A)
| Raise (e : exn).

Arguments Ok {A} a.
Arguments Raise {A} e.

Definition bind {A B : Type} (m : result A) (k : A -> result B) : result B :=
  match m with
  | Ok a => k a
  | Raise e => Raise e
  end.

(** [d.get(k, default)] on a dict kept in insertion order. *)
Fixpoint dict_get {A : Type} (d : list (string * A)) (k : string) (default : A) : A :=
  match d with
  | [] => default
  | (k', v) :: rest => if String.eqb k k' then v else dict_get rest k default
  end.

(** [d.get(k)], [None] when the key is absent. *)
Fixpoint dict_find {A : Type} (d : list (string * A)) (k : string) : option A :=
  match d with
  | [] => None
  | (k', v) :: rest => if String.eqb k k' then Some v else dict_find rest k
  end.

(** [k in d]. *)
Definition dict_mem {A : Type} (d : list (string * A)) (k : string) : bool :=
  match dict_find d k with
  | Some _ => true
  | None => false
  end.

(** [max(a, b)] and [min(a, b)] of Python: the first argument wins a tie. *)
Definition qmax (a b : Q) : Q :=
  match Qcompare b a with
  | Gt => b
  | _ => a
  end.

Definition qmin (a b : Q) : Q :=
  match Qcompare b a with
  | Lt => b
  | _ => a
  end.

Definition qlt (a b : Q) : bool :=
  match Qcompare a b with
  | Lt => true
  | _ => false
  end.

Definition qle (a b : Q) : bool :=
  match Qcompare a b with
  | Gt => false
  | _ => true
  end.

(** Rounding to the nearest integer, ties to the even one: what [round(x)]
    does, and what [timedelta] does with a fractional microsecond. *)
Definition round_half_even (q : Q) : Z :=
  let f := Qfloor q in
  match Qcompare (q - inject_Z f) (1 # 2) with
  | Lt => f
  | Gt => f + 1
  | Eq => if Z.even f then f else f + 1
  end.

(** [round(x, ndigits)] for [ndigits = 1], [-1] and [-2]. *)
Definition round_1 (q : Q) : Q := inject_Z (round_half_even (q * 10)) / 10.
Definition round_tens (q : Q) : Z := 10 * round_half_even (q / 10).
Definition round_hundreds (q : Q) : Z := 100 * round_half_even (q / 100).

(** The random source.  A draw is an arbitrary number handed over by the
    generator; each library function maps it into its documented range, so
    every outcome the library can produce is the image of some draw. *)

(** [random.random()]: a float in [[0, 1)]. *)
Definition random (raw : Q) : Q := raw - inject_Z (Qfloor raw).

(** [random.randint(a, b)] for [a <= b]: an integer in [[a, b]]. *)
Definition randint (a b raw : Z) : Z := a + raw mod (b - a + 1).

(** [random.uniform(a, b)]: [a + (b - a) * random()]. *)
Definition uniform (a b raw : Q) : Q := a + (b - a) * random raw.

Definition qsum (l : list Q) : Q := fold_right Qplus 0%Q l.

(** [random.choices(population, weights=weights)[0]]: the number of weights
    must be the number of elements and their total must be positive
    ([ValueError] otherwise); the draw selects the index. *)
Definition choices {A : Type} (population : list A) (weights : list Q) (raw : nat)
  : result A :=
  if negb (Nat.eqb (List.length weights) (List.length population)) then Raise ValueError
  else if negb (qlt 0 (qsum weights)) then Raise ValueError
  else match nth_error population (raw mod List.length population) with
       | Some a => Ok a
       | None => Raise IndexError
       end.

(** [random.choice(seq)]: [IndexError] on an empty sequence. *)
Definition choice {A : Type} (population : list A) (raw : nat) : result A :=
  match nth_error population (raw mod List.length population) with
  | Some a => Ok a
  | None => Raise IndexError
  end.

(** [seq[i]] for [i >= 0]. *)
Definition index {A : Type} (l : list A) (i : nat) : result A :=
  match nth_error l i with
  | Some a => Ok a
  | None => Raise IndexError
  end.

(** [str.lower()] on ASCII letters. *)
Definition lower_ascii (c : ascii) : ascii :=
  let n := nat_of_ascii c in
  if (Nat.leb 65 n && Nat.leb n 90)%bool then ascii_of_nat (n + 32) else c.

Fixpoint lower (s : string) : string :=
  match s with
  | EmptyString => EmptyString
  | String c rest => String (lower_ascii c) (lower rest)
  end.

(** [sub in s] on strings. *)
Fixpoint contains (sub s : string) : bool :=
  if String.prefix sub s then true
  else match s with
       | EmptyString => false
       | String _ rest => contains sub rest
       end.

End Py.

Notation "x <- m ;; k" := (Py.bind m (fun x => k))
  (at level 61, m at next level, right associativity).

(** ** [src/utils/temporal.py] *)

Module Temporal.

Import Py.

Definition datetime := Z.
Definition timedelta := Z.

Definition us_per_second : Z := 1000000.
Definition us_per_minute : Z := 60 * us_per_second.
Definition us_per_hour : Z := 3600 * us_per_second.
Definition us_per_day : Z := 86400 * us_per_second.

Definition timedelta_days (n : Z) : timedelta := n * us_per_day.
Definition timedelta_minutes (n : Z) : timedelta := n * us_per_minute.

(** [timedelta(hours=h)] for a float [h]. *)
Definition timedelta_hours (h : Q) : timedelta :=
  round_half_even (h * inject_Z us_per_hour).

(** [td * x] for a float [x]. *)
Definition timedelta_scale (td : timedelta) (x : Q) : timedelta :=
  round_half_even (inject_Z td * x).

(** [td.days]: the floor of the difference in days. *)
Definition td_days (td : timedelta) : Z := td / us_per_day.

(** [td.total_seconds()]. *)
Definition total_seconds (td : timedelta) : Q := inject_Z td / inject_Z us_per_second.

(** [dt.date()], [d.weekday()] (Monday is 0; 1970-01-01 was a Thursday),
    and the time-of-day fields. *)
Definition date (t : datetime) : Z := t / us_per_day.
Definition weekday (d : Z) : Z := (d + 3) mod 7.
Definition hour (t : datetime) : Z := (t mod us_per_day) / us_per_hour.
Definition microsecond (t : datetime) : Z := t mod us_per_second.

(** [datetime(year, month, day, hour, minute, second)], the day given as its
    ordinal. *)
Definition mk_datetime (d h mi s : Z) : datetime :=
  d * us_per_day + h * us_per_hour + mi * us_per_minute + s * us_per_second.

(** [dt.replace(hour=h, minute=mi, second=s)]: date and microsecond stay. *)
Definition replace_hms (t : datetime) (h mi s : Z) : datetime :=
  mk_datetime (date t) h mi s + microsecond t.

(** The day ordinal of a civil date, to write examples as year-month-day. *)
Definition ymd (y m d : Z) : Z :=
  let y' := if m <=? 2 then y - 1 else y in
  let era := y' / 400 in
  let yoe := y' - era * 400 in
  let mp := if 2 <? m then m - 3 else m + 9 in
  let doy := (153 * mp + 2) / 5 + d - 1 in
  let doe := yoe * 365 + yoe / 4 - yoe / 100 + doy in
  era * 146097 + doe - 719468.

Definition at_time (d h mi s : Z) : datetime := mk_datetime d h mi s.

(** *** Tables of [TemporalGenerator.__init__] *)

Definition work_start_hour : Z := 9.
Definition work_end_hour : Z := 18.

Record time_distribution : Type := {
  weekday_weights : list Q;
  hour_weights : list Q
}.

Definition time_distributions : list (string * time_distribution) :=
  [ ("task_creation"%string,
     {| weekday_weights := [0.05; 0.15; 0.20; 0.20; 0.30; 0.05; 0.05]%Q;
        hour_weights := (repeat 0.01 9 ++ repeat 0.05 4 ++ repeat 0.08 3
                         ++ repeat 0.03 3 ++ repeat 0.01 5)%Q |});
    ("task_completion"%string,
     {| weekday_weights := [0.02; 0.12; 0.18; 0.22; 0.35; 0.08; 0.03]%Q;
        hour_weights := (repeat 0.01 9 ++ repeat 0.03 4 ++ repeat 0.12 2
                         ++ repeat 0.06 3 ++ repeat 0.02 6)%Q |});
    ("meeting_scheduling"%string,
     {| weekday_weights := [0.10; 0.25; 0.30; 0.25; 0.10; 0.0; 0.0]%Q;
        hour_weights := (repeat 0.01 9 ++ repeat 0.08 2 ++ [0.15] ++ repeat 0.08 2
                         ++ repeat 0.05 4 ++ repeat 0.01 6)%Q |});
    ("email_activity"%string,
     {| weekday_weights := [0.05; 0.20; 0.25; 0.25; 0.20; 0.03; 0.02]%Q;
        hour_weights := (repeat 0.02 7 ++ repeat 0.08 2 ++ repeat 0.12 2
                         ++ repeat 0.06 2 ++ repeat 0.04 3 ++ repeat 0.02 8)%Q |}) ].

Record project_pattern : Type := {
  daily_task_creation_std_dev : Q;
  completion_acceleration : Q;
  weekend_pause_factor : Q
}.

Definition sprint_pattern : project_pattern :=
  {| daily_task_creation_std_dev := 2.5; completion_acceleration := 1.3;
     weekend_pause_factor := 0.3 |}.

Definition project_type_patterns : list (string * project_pattern) :=
  [ ("sprint"%string, sprint_pattern);
    ("bug_tracking"%string,
     {| daily_task_creation_std_dev := 4.0; completion_acceleration := 1.1;
        weekend_pause_factor := 0.6 |});
    ("feature_development"%string,
     {| daily_task_creation_std_dev := 3.0; completion_acceleration := 1.2;
        weekend_pause_factor := 0.2 |});
    ("campaign"%string,
     {| daily_task_creation_std_dev := 3.5; completion_acceleration := 1.4;
        weekend_pause_factor := 0.7 |});
    ("research"%string,
     {| daily_task_creation_std_dev := 5.0; completion_acceleration := 1.0;
        weekend_pause_factor := 0.8 |}) ].

(** *** Business calendar *)

Section Calendar.

(** [self.holiday_calendar]: membership of a date in [holidays.US()]. *)
Variable holiday_calendar : Z -> bool.

Definition is_business_day (date_obj : Z) : bool :=
  if 5 <=? weekday date_obj then false
  else negb (holiday_calendar date_obj).

(** The calendar leaves business days arbitrarily far in direction [s]
    ([1] ahead, [-1] behind): what makes the loops below end. *)
Definition business_days_unbounded (s : Z) : Prop :=
  forall d : Z, exists k : nat, is_business_day (d + s * (1 + Z.of_nat k)) = true.

(** [while not self.is_business_day(current_date.date()): current_date += step] *)
Fixpoint skip_to_business_day (fuel : nat) (step : timedelta) (current_date : datetime)
  : option datetime :=
  if is_business_day (date current_date) then Some current_date
  else match fuel with
       | O => None
       | S fuel' => skip_to_business_day fuel' step (current_date + step)
       end.

Definition get_next_business_day (fuel : nat) (start_date : datetime) : option datetime :=
  skip_to_business_day fuel (timedelta_days 1) (start_date + timedelta_days 1).

Definition get_previous_business_day (fuel : nat) (start_date : datetime) : option datetime :=
  skip_to_business_day fuel (- timedelta_days 1) (start_date - timedelta_days 1).

(** The [while remaining_days > 0] loop of [get_business_day_offset]. *)
Fixpoint offset_loop (fuel : nat) (days_to_add : Z) (current_date : datetime)
  (remaining_days : Z) : option datetime :=
  if 0 <? remaining_days then
    match fuel with
    | O => None
    | S fuel' =>
        let current_date := current_date + timedelta_days days_to_add in
        if is_business_day (date current_date)
        then offset_loop fuel' days_to_add current_date (remaining_days - 1)
        else offset_loop fuel' days_to_add current_date remaining_days
    end
  else Some current_date.

Definition get_business_day_offset (fuel : nat) (base_date : datetime) (offset_days : Z)
  : option datetime :=
  if offset_days =? 0 then Some base_date
  else
    let days_to_add := if 0 <? offset_days then 1 else -1 in
    let remaining_days := Z.abs offset_days in
    offset_loop fuel days_to_add base_date remaining_days.

(** *** Time of day *)

Record work_hours_draws : Type := {
  hour_draw : nat;      (* random.choices(hours, weights=normalized_weights) *)
  range_draw : nat;     (* random.choices(range(len(minute_weights)), ...) *)
  minute_draw : Z;      (* random.randint(minute_range[0], minute_range[1]-1) *)
  second_draw : Z       (* random.randint(0, 59) *)
}.

Definition minute_weights : list Q := [0.4; 0.1; 0.1; 0.1; 0.1; 0.1; 0.1]%Q.
Definition minute_ranges : list (Z * Z) := [(0, 1); (1, 15); (15, 30); (30, 45); (45, 60)].

Definition get_random_time_in_work_hours (dr : work_hours_draws) (base_date : datetime)
  (activity_type : string) : result datetime :=
  let dist := dict_get time_distributions activity_type
                (dict_get time_distributions "task_creation"
                   {| weekday_weights := []; hour_weights := [] |}) in
  let hours := map Z.of_nat (seq 0 24) in
  let hour_weights := hour_weights dist in
  let total_weight := qsum hour_weights in
  let normalized_weights :=
    if qlt 0 total_weight then map (fun w => (w / total_weight)%Q) hour_weights
    else repeat (1 / 24)%Q 24 in
  hour <- choices hours normalized_weights (hour_draw dr) ;;
  range_idx <- choices (seq 0 (List.length minute_weights)) minute_weights (range_draw dr) ;;
  minute_range <- index minute_ranges range_idx ;;
  let minute := randint (fst minute_range) (snd minute_range - 1) (minute_draw dr) in
  Ok (mk_datetime (date base_date) hour minute (randint 0 59 (second_draw dr))).

(** *** Task lifecycle *)

Record lifecycle_draws : Type := {
  complete_draw : Q;            (* random.random() in generate_task_lifecycle *)
  base_hours_draw : Q;          (* np.random.lognormal(mean=2.5, sigma=1.0) *)
  reanchor_draw : Q;            (* random.random() when completion passes the due date *)
  completion_time_draws : work_hours_draws;
  weekend_minute_draw : Z;      (* random.randint(0, 59) of the weekend branch *)
  weekend_second_draw : Z;
  hours_until_start_draw : Q;   (* np.random.lognormal(mean=1.5, sigma=0.8) *)
  start_minute_draw : Z;        (* random.randint(0, 59) *)
  start_second_draw : Z
}.

Record lifecycle : Type := {
  created_at : datetime;
  started_at : option datetime;
  completed_at : option datetime;
  cycle_time_days : option Q;
  lead_time_days : option Q
}.

Definition base_rates : list (string * Q) :=
  [ ("engineering"%string, 0.65); ("product"%string, 0.70); ("marketing"%string, 0.75);
    ("sales"%string, 0.60); ("operations"%string, 0.72) ]%Q.

Definition completion_project_adjustments : list (string * Q) :=
  [ ("sprint"%string, 0.15); ("bug_tracking"%string, 0.05);
    ("feature_development"%string, 0.0); ("campaign"%string, 0.10);
    ("research"%string, -0.20) ]%Q.

(* The rates are Python floats; here they are the rationals their literals
   denote, and the sums and products are exact.  The code's binary64 results
   differ from these by rounding in the last place (0.6 - 0.2 times 0.5 times
   0.7 is 0.13999999999999999 there, 0.14 here); the final clamp is exact in
   both. *)
Definition _get_completion_probability (department project_type : string)
  (created_at : datetime) (due_date : option datetime) : Q :=
  let base_rate := dict_get base_rates department 0.68%Q in
  let adjustment := dict_get completion_project_adjustments project_type 0.0%Q in
  let rate := (base_rate + adjustment)%Q in
  let rate :=
    match due_date with
    | Some due_date =>
        let days_until_due := td_days (due_date - created_at) in
        if days_until_due <=? 0 then (rate * 0.5)%Q
        else if days_until_due <=? 3 then (rate * 1.2)%Q
        else if days_until_due <=? 7 then (rate * 1.1)%Q
        else if 30 <? days_until_due then (rate * 0.9)%Q
        else rate
    | None => rate
    end in
  let rate :=
    if weekday (date created_at) =? 4 then (rate * 0.85)%Q
    else if (weekday (date created_at) =? 5) || (weekday (date created_at) =? 6)
         then (rate * 0.7)%Q
         else rate in
  qmax 0.1%Q (qmin 0.95%Q rate).

Definition start_dept_adjustments : list (string * Q) :=
  [ ("engineering"%string, 1.0); ("product"%string, 0.8); ("marketing"%string, 1.2);
    ("sales"%string, 0.7); ("operations"%string, 1.1) ]%Q.

Definition start_project_adjustments : list (string * Q) :=
  [ ("sprint"%string, 0.6); ("bug_tracking"%string, 0.4); ("campaign"%string, 1.5);
    ("research"%string, 2.0) ]%Q.

Definition _generate_started_timestamp (dr : lifecycle_draws)
  (created_at completed_at : datetime) (department project_type : string) : datetime :=
  let hours_until_start := hours_until_start_draw dr in
  let hours_until_start := qmax 0.5%Q (qmin hours_until_start 168%Q) in
  let factor := (dict_get start_dept_adjustments department 1.0
                 * dict_get start_project_adjustments project_type 1.0)%Q in
  let hours_until_start := (hours_until_start * factor)%Q in
  let start_timestamp := created_at + timedelta_hours hours_until_start in
  let max_start_time := completed_at - timedelta_minutes 30 in
  let start_timestamp :=
    if max_start_time <? start_timestamp then max_start_time else start_timestamp in
  let min_start_time := created_at + timedelta_minutes 5 in
  let start_timestamp :=
    if start_timestamp <? min_start_time then min_start_time else start_timestamp in
  if is_business_day (date start_timestamp) then
    replace_hms start_timestamp
      (Z.min (Z.max (hour start_timestamp) work_start_hour) (work_end_hour - 1))
      (randint 0 59 (start_minute_draw dr))
      (randint 0 59 (start_second_draw dr))
  else start_timestamp.

Definition dept_multipliers : list (string * Q) :=
  [ ("engineering"%string, 1.2); ("product"%string, 1.0); ("marketing"%string, 0.8);
    ("sales"%string, 0.6); ("operations"%string, 1.1) ]%Q.

Definition _generate_completion_timestamp (dr : lifecycle_draws)
  (created_at : datetime) (due_date : option datetime) (department project_type : string)
  : result datetime :=
  let project_pattern := dict_get project_type_patterns project_type sprint_pattern in
  let base_hours := base_hours_draw dr in
  let base_hours := qmax 1.0%Q (qmin base_hours 336%Q) in
  let multiplier := dict_get dept_multipliers department 1.0%Q in
  let duration_hours := (base_hours * multiplier)%Q in
  let duration_hours :=
    match due_date with
    | Some due_date =>
        let days_until_due := td_days (due_date - created_at) in
        if 0 <? days_until_due then
          let acceleration :=
            (1.0 + (completion_acceleration project_pattern - 1.0)
                   * (1 - qmin 1.0 (inject_Z days_until_due / 30)))%Q in
          (duration_hours / acceleration)%Q
        else duration_hours
    | None => duration_hours
    end in
  let completion_timestamp := created_at + timedelta_hours duration_hours in
  let completion_timestamp :=
    match due_date with
    | Some due_date =>
        if due_date <? completion_timestamp then
          let max_completion := due_date in
          let min_completion :=
            Z.max (created_at + us_per_hour) (due_date - timedelta_days 3) in
          if min_completion <? max_completion then
            min_completion
            + timedelta_scale (max_completion - min_completion) (random (reanchor_draw dr))
          else completion_timestamp
        else completion_timestamp
    | None => completion_timestamp
    end in
  if is_business_day (date completion_timestamp) then
    get_random_time_in_work_hours (completion_time_draws dr) completion_timestamp
      "task_completion"
  else
    Ok (replace_hms completion_timestamp
          (Z.min (Z.max (hour completion_timestamp) 9) 20)
          (randint 0 59 (weekend_minute_draw dr))
          (randint 0 59 (weekend_second_draw dr))).

Definition generate_task_lifecycle (dr : lifecycle_draws)
  (created_at : datetime) (due_date : option datetime) (department project_type : string)
  : result lifecycle :=
  let completion_probability :=
    _get_completion_probability department project_type created_at due_date in
  if qlt (random (complete_draw dr)) completion_probability then
    completed_at <- _generate_completion_timestamp dr created_at due_date
                      department project_type ;;
    let started_at :=
      _generate_started_timestamp dr created_at completed_at department project_type in
    Ok {| created_at := created_at;
          started_at := Some started_at;
          completed_at := Some completed_at;
          cycle_time_days := Some (total_seconds (completed_at - started_at)%Z / 86400)%Q;
          lead_time_days := Some (total_seconds (completed_at - created_at)%Z / 86400)%Q |}
  else
    Ok {| created_at := created_at;
          started_at := None;
          completed_at := None;
          cycle_time_days := None;
          lead_time_days := None |}.

(** *** Business days of a range *)

(** The [while current_date <= end_date] loop of [get_random_business_date]. *)
Fixpoint business_days_loop (fuel : nat) (current_date end_date : datetime)
  (business_days : list datetime) : option (list datetime) :=
  if current_date <=? end_date then
    match fuel with
    | O => None
    | S fuel' =>
        let business_days :=
          if is_business_day (date current_date) then business_days ++ [current_date]
          else business_days in
        business_days_loop fuel' (current_date + timedelta_days 1) end_date business_days
    end
  else Some business_days.

Definition get_random_business_date (fuel : nat) (choice_draw : nat)
  (start_date end_date : datetime) : option datetime :=
  let swapped := end_date <? start_date in
  let start_date' := if swapped then end_date else start_date in
  let end_date' := if swapped then start_date else end_date in
  match business_days_loop fuel start_date' end_date' [] with
  | None => None
  | Some [] => get_next_business_day fuel start_date'
  | Some business_days =>
      nth_error business_days (choice_draw mod List.length business_days)
  end.

(** The counting loop of [get_simulation_time_range]. *)
Fixpoint count_business_days (fuel : nat) (current end_date : datetime) (business_days : Z)
  : option Z :=
  if current <=? end_date then
    match fuel with
    | O => None
    | S fuel' =>
        let business_days :=
          if is_business_day (date current) then business_days + 1 else business_days in
        count_business_days fuel' (current + timedelta_days 1) end_date business_days
    end
  else Some business_days.

Record time_range : Type := {
  start_date : datetime;
  end_date : datetime;
  total_days : Z;
  business_days : Z;
  weekend_days : Z
}.

(** [parsed] is what the two [datetime.strptime(..., '%Y-%m-%d')] calls give,
    [None] when one of them raises [ValueError]; [now] and [now'] are the two
    readings of [datetime.now()] in the handler. *)
Definition get_simulation_time_range (fuel : nat) (now now' : datetime)
  (parsed : option (datetime * datetime)) : option time_range :=
  let dates :=
    match parsed with
    | Some dates => dates
    | None => (now - timedelta_days 180, now')
    end in
  let swapped := snd dates <? fst dates in
  let start_date := if swapped then snd dates else fst dates in
  let end_date := if swapped then fst dates else snd dates in
  match count_business_days fuel start_date end_date 0 with
  | None => None
  | Some business_days =>
      Some {| start_date := start_date;
              end_date := end_date;
              total_days := td_days (end_date - start_date) + 1;
              business_days := business_days;
              weekend_days := td_days (end_date - start_date) + 1 - business_days |}
  end.

(** *** [generate_realistic_timestamp] *)

Record department_pattern : Type := {
  task_creation_peak : string;
  task_completion_peak : string;
  weekend_activity : Q;
  evening_activity : Q
}.

Definition engineering_pattern : department_pattern :=
  {| task_creation_peak := "morning"; task_completion_peak := "afternoon";
     weekend_activity := 0.15; evening_activity := 0.25 |}.

Definition department_patterns : list (string * department_pattern) :=
  [ ("engineering"%string, engineering_pattern);
    ("product"%string,
     {| task_creation_peak := "midday"; task_completion_peak := "midday";
        weekend_activity := 0.10; evening_activity := 0.20 |});
    ("marketing"%string,
     {| task_creation_peak := "late_morning"; task_completion_peak := "afternoon";
        weekend_activity := 0.20; evening_activity := 0.30 |});
    ("sales"%string,
     {| task_creation_peak := "early_morning"; task_completion_peak := "late_afternoon";
        weekend_activity := 0.12; evening_activity := 0.35 |});
    ("operations"%string,
     {| task_creation_peak := "morning"; task_completion_peak := "morning";
        weekend_activity := 0.08; evening_activity := 0.15 |}) ].

Record timestamp_draws : Type := {
  in_hours_draw : Q;                  (* random.random() < work_hours_probability *)
  in_hours_time_draws : work_hours_draws;
  off_hour_draw : nat;                (* random.choices(range(24), weights=hour_weights) *)
  off_minute_draw : Z;
  off_second_draw : Z;
  weekend_keep_draw : Q;              (* random.random() < weekend_pause_factor *)
  kept_minute_draw : Z;
  kept_second_draw : Z;
  moved_time_draws : work_hours_draws
}.

Definition weekend_hour_weights : list Q :=
  (repeat 0.01 9 ++ repeat 0.08 11 ++ repeat 0.01 4)%Q.

Definition evening_hour_weights : list Q :=
  (repeat 0.01 18 ++ repeat 0.12 5 ++ repeat 0.01 1)%Q.

(** [None]: the fuel of [get_next_business_day] ran out.  [now] stands for
    [datetime.now()], used when [base_date] is [None]. *)
Definition generate_realistic_timestamp (fuel : nat) (dr : timestamp_draws) (now : datetime)
  (activity_type department project_type : string) (base_date : option datetime)
  : option (result datetime) :=
  let base_date := match base_date with Some b => b | None => now end in
  let dept_pattern := dict_get department_patterns department engineering_pattern in
  let work_hours_probability := 0.85%Q in
  let work_hours_probability :=
    if 5 <=? weekday (date base_date)
    then (work_hours_probability * (1 - weekend_activity dept_pattern))%Q
    else if (hour base_date <? work_start_hour) || (work_end_hour <=? hour base_date)
         then (work_hours_probability * (1 - evening_activity dept_pattern))%Q
         else work_hours_probability in
  let first :=
    if qlt (random (in_hours_draw dr)) work_hours_probability then
      get_random_time_in_work_hours (in_hours_time_draws dr) base_date activity_type
    else
      hour <- (if 5 <=? weekday (date base_date)
               then choices (map Z.of_nat (seq 0 24)) weekend_hour_weights (off_hour_draw dr)
               else choices (map Z.of_nat (seq 0 24)) evening_hour_weights (off_hour_draw dr)) ;;
      Ok (mk_datetime (date base_date) hour
            (randint 0 59 (off_minute_draw dr)) (randint 0 59 (off_second_draw dr))) in
  let project_pattern := dict_get project_type_patterns project_type sprint_pattern in
  match first with
  | Raise e => Some (Raise e)
  | Ok timestamp =>
      if 5 <=? weekday (date timestamp) then
        if qlt (random (weekend_keep_draw dr)) (weekend_pause_factor project_pattern) then
          Some (Ok (replace_hms timestamp
                      (Z.min (Z.max (hour timestamp) 9) 20)
                      (randint 0 59 (kept_minute_draw dr))
                      (randint 0 59 (kept_second_draw dr))))
        else
          match get_next_business_day fuel timestamp with
          | None => None
          | Some timestamp =>
              Some (get_random_time_in_work_hours (moved_time_draws dr) timestamp
                      activity_type)
          end
      else Some (Ok timestamp)
  end.

End Calendar.

(** The weights that [get_random_time_in_work_hours] hands to
    [random.choices] for the hour. *)
Definition normalized_weights (dist : time_distribution) : list Q :=
  if qlt 0 (qsum (hour_weights dist))
  then map (fun w => (w / qsum (hour_weights dist))%Q) (hour_weights dist)
  else repeat (1 / 24)%Q 24.

End Temporal.

(** ** [src/generators/custom_fields.py] *)

Module CustomFields.

Import Py.

(** The value of the ['distribution'] key of a number pattern: a kind name
    or a list of weights. *)
Inductive distribution_kind : Type :=
| KindName (name : string)
| KindWeights (weights : list Q).

(** A number pattern: a dict whose keys may be absent. *)
Record number_pattern : Type := {
  np_min : option Q;
  np_max : option Q;
  np_distribution : option distribution_kind;
  np_mean : option Q;
  np_std : option Q
}.

Definition weighted (lo hi : Q) (weights : list Q) : number_pattern :=
  {| np_min := Some lo; np_max := Some hi; np_distribution := Some (KindWeights weights);
     np_mean := None; np_std := None |}.

Definition named (lo hi : Q) (kind : string) (mean std : Q) : number_pattern :=
  {| np_min := Some lo; np_max := Some hi; np_distribution := Some (KindName kind);
     np_mean := Some mean; np_std := Some std |}.

(** [self.field_value_patterns], one table per field type, each keyed by
    department and then (except for text) by field name, in source order. *)
Record patterns_table : Type := {
  text_patterns : list (string * list string);
  number_patterns : list (string * list (string * number_pattern));
  date_patterns : list (string * list (string * (Z * Z)));
  enum_patterns : list (string * list (string * list string));
  boolean_patterns : list (string * list (string * list Q))
}.

Local Open Scope string_scope.
Local Open Scope Q_scope.

Definition field_value_patterns : patterns_table :=
  {| text_patterns :=
       [ ("engineering",
          [ "API endpoint"; "database schema"; "microservice"; "container image";
            "CI/CD pipeline"; "test coverage"; "performance metric"; "security scan";
            "code review"; "documentation update"; "refactoring target"; "tech debt item" ]);
         ("product",
          [ "user story"; "acceptance criteria"; "feature flag"; "A/B test";
            "user persona"; "journey map"; "wireframe"; "prototype"; "user feedback";
            "market research"; "competitive analysis"; "success metric" ]);
         ("marketing",
          [ "campaign name"; "target audience"; "channel strategy"; "creative asset";
            "landing page"; "email template"; "social media post"; "blog article";
            "SEO keyword"; "conversion rate"; "engagement metric"; "brand guideline" ]);
         ("sales",
          [ "deal size"; "sales stage"; "probability"; "close date"; "account tier";
            "territory"; "product line"; "competitive landscape"; "customer pain point";
            "ROI analysis"; "implementation timeline"; "stakeholder map" ]);
         ("operations",
          [ "process step"; "approval workflow"; "budget category"; "resource allocation";
            "compliance requirement"; "risk level"; "vendor contract"; "SLA metric";
            "cost center"; "headcount plan"; "training requirement"; "policy document" ]) ];
     number_patterns :=
       [ ("engineering",
          [ ("story_points", weighted 1 13 [0.1; 0.2; 0.3; 0.2; 0.1; 0.05; 0.05]);
            ("priority", weighted 1 5 [0.05; 0.15; 0.4; 0.3; 0.1]);
            ("risk_level",
             weighted 1 10 [0.1; 0.1; 0.2; 0.2; 0.15; 0.1; 0.05; 0.05; 0.03; 0.02]) ]);
         ("product",
          [ ("ice_score", named 1 100 "normal" 50 20);
            ("effort_level",
             weighted 1 10 [0.05; 0.1; 0.15; 0.2; 0.2; 0.15; 0.1; 0.03; 0.01; 0.01]);
            ("impact_score",
             weighted 1 10 [0.02; 0.03; 0.05; 0.1; 0.2; 0.3; 0.2; 0.07; 0.02; 0.01]) ]);
         ("marketing",
          [ ("budget_usd", named 100 50000 "lognormal" 2500 1.5);
            ("target_ctr", named 0.1 10.0 "normal" 2.5 1.0);
            ("creative_assets",
             weighted 1 20 [0.1; 0.2; 0.3; 0.2; 0.1; 0.05; 0.03; 0.01; 0.005; 0.005]) ]);
         ("sales",
          [ ("deal_size", named 1000 1000000 "lognormal" 50000 2.0);
            ("probability",
             weighted 1 100 [0.05; 0.05; 0.1; 0.15; 0.2; 0.2; 0.15; 0.05; 0.03; 0.02]);
            ("timeline_weeks", named 1 26 "normal" 8 4) ]);
         ("operations",
          [ ("budget_impact", named (-10000) 10000 "normal" 0 3000);
            ("risk_score",
             weighted 1 10 [0.05; 0.05; 0.1; 0.15; 0.2; 0.2; 0.15; 0.07; 0.02; 0.01]);
            ("resource_hours", named 1 160 "normal" 40 30) ]) ];
     date_patterns :=
       [ ("engineering",
          [ ("sprint_start", (-30, 0)%Z); ("sprint_end", (1, 14)%Z);
            ("release_date", (7, 90)%Z) ]);
         ("marketing",
          [ ("campaign_start", (-7, 7)%Z); ("campaign_end", (7, 60)%Z);
            ("content_publish", (1, 30)%Z) ]);
         ("product",
          [ ("research_deadline", (3, 21)%Z); ("design_review", (2, 14)%Z);
            ("launch_date", (30, 180)%Z) ]);
         ("sales",
          [ ("proposal_due", (1, 7)%Z); ("demo_date", (2, 14)%Z);
            ("close_date", (14, 90)%Z) ]);
         ("operations",
          [ ("approval_deadline", (1, 14)%Z); ("implementation_date", (7, 60)%Z);
            ("review_date", (30, 120)%Z) ]) ];
     enum_patterns :=
       [ ("engineering",
          [ ("priority", ["Critical"; "High"; "Medium"; "Low"]);
            ("component",
             ["Frontend"; "Backend"; "Database"; "API"; "Infrastructure"; "Security"]);
            ("bug_severity", ["Blocker"; "Critical"; "Major"; "Minor"; "Trivial"]);
            ("environment", ["Production"; "Staging"; "Development"; "QA"]) ]);
         ("product",
          [ ("impact", ["High"; "Medium"; "Low"]);
            ("effort", ["High"; "Medium"; "Low"]);
            ("strategic_theme",
             ["Growth"; "Engagement"; "Retention"; "Monetization"; "Efficiency"]);
            ("customer_type", ["Enterprise"; "Mid-Market"; "SMB"; "Freemium"]) ]);
         ("marketing",
          [ ("campaign_type",
             ["Product Launch"; "Brand Awareness"; "Lead Generation";
              "Customer Retention"; "Event Promotion"]);
            ("target_audience",
             ["Enterprise"; "Mid-Market"; "SMB"; "Developers"; "End Users"]);
            ("platform", ["Social Media"; "Email"; "Web"; "Print"; "Video"; "Paid Search"]);
            ("content_type",
             ["Blog Post"; "Whitepaper"; "Case Study"; "Video"; "Infographic"; "Webinar"]) ]);
         ("sales",
          [ ("sales_stage",
             ["Prospecting"; "Qualification"; "Proposal"; "Negotiation"; "Closed Won";
              "Closed Lost"]);
            ("account_tier", ["Enterprise"; "Mid-Market"; "SMB"; "Strategic Partner"]);
            ("deal_type", ["New Business"; "Expansion"; "Renewal"; "Cross-sell"; "Up-sell"]);
            ("probability", ["10%"; "25%"; "50%"; "75%"; "90%"]) ]);
         ("operations",
          [ ("priority", ["Critical"; "High"; "Medium"; "Low"]);
            ("risk_level", ["High"; "Medium"; "Low"]);
            ("deadline_type", ["Hard Deadline"; "Soft Deadline"; "Milestone"; "Nice to Have"]);
            ("resource_type", ["People"; "Budget"; "Time"; "Tools"; "External Services"]) ]) ];
     boolean_patterns :=
       [ ("engineering",
          [ ("tech_debt", [0.3; 0.7]); ("security_review", [0.2; 0.8]);
            ("performance_critical", [0.4; 0.6]); ("customer_facing", [0.5; 0.5]) ]);
         ("product",
          [ ("customer_request", [0.6; 0.4]); ("regulatory_requirement", [0.15; 0.85]);
            ("competitive_gap", [0.25; 0.75]); ("revenue_impact", [0.45; 0.55]) ]);
         ("marketing",
          [ ("approved", [0.8; 0.2]); ("published", [0.7; 0.3]);
            ("requires_legal_review", [0.2; 0.8]); ("a_b_test", [0.3; 0.7]) ]);
         ("sales",
          [ ("executive_sponsor", [0.4; 0.6]); ("competitive_deal", [0.35; 0.65]);
            ("renewal", [0.25; 0.75]); ("requires_discount", [0.3; 0.7]) ]);
         ("operations",
          [ ("compliance_required", [0.25; 0.75]); ("budget_approved", [0.6; 0.4]);
            ("stakeholder_alignment", [0.55; 0.45]); ("vendor_involved", [0.35; 0.65]) ]) ]
  |}.

(** A field definition: the keys the generator reads.  [enum_options] is the
    list that [json.loads] yields, when the stored text is a JSON list. *)
Record field_definition : Type := {
  field_type : string;
  name : string;
  enum_options : option (list string)
}.

(** What [_get_field_value_distribution] returns. *)
Inductive distribution : Type :=
| DEnum (options : list string)
| DNumber (pattern : number_pattern)
| DDate (offset_days : Z * Z)
| DBoolean (weights : list Q)
| DText (values : list string).

(** The lookup that the enum, number, date and boolean branches share: the
    entry named [field_name]; else the first entry, in dict order, whose key
    occurs in [field_name]; else the fallback. *)
Definition lookup_pattern {A : Type} (dept_patterns : list (string * A))
  (field_name : string) (fallback : A) : A :=
  match dict_find dept_patterns field_name with
  | Some pattern => pattern
  | None =>
      match find (fun entry => contains (fst entry) field_name) dept_patterns with
      | Some (_, pattern) => pattern
      | None => fallback
      end
  end.

Definition generic_enum : list string := ["High"; "Medium"; "Low"].
Definition generic_number : number_pattern :=
  {| np_min := Some 1; np_max := Some 100; np_distribution := Some (KindName "uniform");
     np_mean := None; np_std := None |}.
Definition generic_date : Z * Z := (0, 30)%Z.
Definition generic_boolean : list Q := [0.5; 0.5].
Definition generic_text : list string := ["value1"; "value2"; "value3"].

Definition _get_field_value_distribution (table : patterns_table)
  (fd : field_definition) (department project_type : string) : option distribution :=
  let field_type := field_type fd in
  let field_name := lower (name fd) in
  if String.eqb field_type "enum" then
    Some (DEnum (lookup_pattern (dict_get (enum_patterns table) department [])
                   field_name generic_enum))
  else if String.eqb field_type "number" then
    Some (DNumber (lookup_pattern (dict_get (number_patterns table) department [])
                     field_name generic_number))
  else if String.eqb field_type "date" then
    Some (DDate (lookup_pattern (dict_get (date_patterns table) department [])
                   field_name generic_date))
  else if String.eqb field_type "boolean" then
    Some (DBoolean (lookup_pattern (dict_get (boolean_patterns table) department [])
                      field_name generic_boolean))
  else if String.eqb field_type "text" then
    match dict_get (text_patterns table) department [] with
    | [] => Some (DText generic_text)
    | dept_patterns => Some (DText dept_patterns)
    end
  else None.

(** The draws of one call of [_generate_field_value]. *)
Record field_draws : Type := {
  choice_draw : nat;          (* random.choice / random.choices *)
  uniform_draw : Q;           (* random.uniform / random.random *)
  standard_normal_draw : Q;   (* the standard normal deviate behind np.random.normal *)
  lognormal_draw : Q;         (* np.random.lognormal(mean, std) *)
  randint_draw : Z            (* random.randint *)
}.

(** [np.random.normal(loc, scale)]: [loc + scale * z], [ValueError] when
    [scale < 0]. *)
Definition np_normal (loc scale z : Q) : result Q :=
  if qlt scale 0 then Raise ValueError else Ok (loc + scale * z).

Definition np_lognormal (mean sigma draw : Q) : result Q :=
  if qlt sigma 0 then Raise ValueError else Ok draw.

Definition get {A : Type} (o : option A) (default : A) : A :=
  match o with
  | Some a => a
  | None => default
  end.

(** [range(lo, hi + 1)] for integers given as numbers; [TypeError] when a
    bound is not an integer. *)
Definition int_range (lo hi : Q) : result (list Z) :=
  if (Pos.eqb (Qden (Qred lo)) 1 && Pos.eqb (Qden (Qred hi)) 1)%bool then
    Ok (map (fun i => (Qnum (Qred lo) + Z.of_nat i)%Z)
            (seq 0 (Z.to_nat (Qnum (Qred hi) + 1 - Qnum (Qred lo)))))
  else Raise TypeError.

Inductive field_value : Type :=
| VNone
| VNumber (q : Q)
| VString (s : string)
| VBool (b : bool)
| VDate (day : Z).

(** The [field_type == 'number'] branch of [_generate_field_value]. *)
Definition generate_number (dr : field_draws) (distribution : number_pattern) : result Q :=
  let dist_type := get (np_distribution distribution) (KindName "uniform") in
  match dist_type with
  | KindName kind =>
      if String.eqb kind "uniform" then
        let min_val := get (np_min distribution) 1 in
        let max_val := get (np_max distribution) 100 in
        Ok (uniform min_val max_val (uniform_draw dr))
      else if String.eqb kind "normal" then
        let mean := get (np_mean distribution) 50 in
        let std := get (np_std distribution) 15 in
        let min_val := get (np_min distribution) 0 in
        let max_val := get (np_max distribution) 100 in
        value <- np_normal mean std (standard_normal_draw dr) ;;
        let value := qmax min_val (qmin max_val value) in
        if qlt 1000 max_val then Ok (inject_Z (round_hundreds value))
        else if qlt 100 max_val then Ok (inject_Z (round_tens value))
        else Ok (round_1 value)
      else if String.eqb kind "lognormal" then
        let mean := get (np_mean distribution) 3.0 in
        let std := get (np_std distribution) 1.0 in
        let min_val := get (np_min distribution) 1 in
        let max_val := get (np_max distribution) 1000 in
        value <- np_lognormal mean std (lognormal_draw dr) ;;
        let value := qmax min_val (qmin max_val value) in
        Ok (inject_Z (round_half_even value))
      else
        Ok (inject_Z (randint 1 100 (randint_draw dr)))
  | KindWeights weights =>
      values <- int_range (get (np_min distribution) 1) (get (np_max distribution) 10) ;;
      v <- choices values weights (choice_draw dr) ;;
      Ok (inject_Z v)
  end.

Definition _generate_field_value (table : patterns_table) (dr : field_draws)
  (fd : field_definition) (department project_type : string)
  (task_created_at : Temporal.datetime) : result field_value :=
  match _get_field_value_distribution table fd department project_type with
  | None => Ok VNone
  | Some (DEnum []) | Some (DBoolean []) | Some (DText []) => Ok VNone
  | Some (DEnum options) =>
      match enum_options fd with
      | Some parsed => v <- choice parsed (choice_draw dr) ;; Ok (VString v)
      | None => v <- choice options (choice_draw dr) ;; Ok (VString v)
      end
  | Some (DNumber pattern) =>
      v <- generate_number dr pattern ;; Ok (VNumber v)
  | Some (DDate (offset_min, offset_max)) =>
      (* the result is the day of [value_date], which [strftime] prints.  The
         name [get_business_day_offset] is bound nowhere in the module (it is
         a method of [TemporalGenerator], not a function of [temporal.py]),
         so the call under [random.random() < 0.85] raises [NameError] *)
      if (offset_max <? offset_min)%Z then Raise ValueError
      else
        let offset_days := randint offset_min offset_max (randint_draw dr) in
        let value_date := (task_created_at + Temporal.timedelta_days offset_days)%Z in
        if qlt (random (uniform_draw dr)) 0.85 then Raise NameError
        else Ok (VDate (Temporal.date value_date))
  | Some (DBoolean weights) =>
      if Nat.eqb (List.length weights) 2 then
        v <- choices [true; false] weights (choice_draw dr) ;; Ok (VBool v)
      else Ok (VBool (qlt (random (uniform_draw dr)) 0.5))
  | Some (DText values) =>
      v <- choice values (choice_draw dr) ;; Ok (VString v)
  end.

(** *** [_determine_field_completion] *)

(** [self.field_usage_patterns], by department and project type. *)
Definition field_usage_patterns : list (string * list (string * list string)) :=
  [
    ("engineering",
        [
          ("sprint",
           [ "priority"; "story_points"; "component"; "sprint"; "bug_severity"; "tech_debt" ]);
          ("bug_tracking",
           [ "bug_severity"; "environment"; "priority"; "reporter"; "repro_steps" ]);
          ("feature_development",
           [ "component"; "priority"; "story_points"; "customer_request"; "technical_complexity" ]);
          ("tech_debt",
           [ "priority"; "impact"; "effort"; "component"; "tech_debt" ]);
          ("research",
           [ "priority"; "impact"; "resource_hours"; "deliverable"; "research_type" ]) ]);
    ("product",
        [
          ("roadmap_planning",
           [ "strategic_theme"; "impact"; "effort"; "ice_score"; "quarter"; "resource_allocation" ]);
          ("user_research",
           [ "research_type"; "participants"; "duration_days"; "deliverable"; "customer_type" ]);
          ("feature_specification",
           [ "customer_request"; "impact"; "effort"; "success_metrics"; "dependencies" ]);
          ("competitive_analysis",
           [ "competitor"; "feature_gap"; "priority"; "market_impact"; "timeline" ]);
          ("metrics_tracking",
           [ "metric_name"; "current_value"; "target_value"; "time_period"; "owner" ]) ]);
    ("marketing",
        [
          ("campaign",
           [ "campaign_type"; "target_audience"; "budget_usd"; "platform"; "start_date";
             "end_date"; "kpi_target" ]);
          ("content_calendar",
           [ "content_type"; "target_audience"; "publish_date"; "author"; "approval_status";
             "platform" ]);
          ("brand_strategy",
           [ "brand_guideline"; "target_audience"; "messaging"; "visual_identity"; "tone_of_voice" ]);
          ("product_launch",
           [ "launch_date"; "target_audience"; "channels"; "budget_usd"; "success_metrics";
             "stakeholders" ]);
          ("seo_optimization",
           [ "keyword"; "current_ranking"; "target_ranking"; "content_type";
             "implementation_effort" ]) ]);
    ("sales",
        [
          ("lead_generation",
           [ "source"; "industry"; "company_size"; "lead_score"; "assigned_rep"; "follow_up_date" ]);
          ("sales_pipeline",
           [ "deal_size"; "probability"; "close_date"; "sales_stage"; "account_tier";
             "competitive_landscape" ]);
          ("customer_success",
           [ "health_score"; "renewal_date"; "expansion_opportunity"; "csat_score";
             "account_manager"; "critical_issues" ]);
          ("renewal_tracking",
           [ "renewal_date"; "current_contract_value"; "expansion_potential"; "risk_factors";
             "stakeholder_map"; "success_plan" ]);
          ("territory_planning",
           [ "territory"; "quota"; "current_pipeline"; "target_accounts"; "growth_strategy";
             "resource_allocation" ]) ]);
    ("operations",
        [
          ("process_improvement",
           [ "process_name"; "current_efficiency"; "target_efficiency"; "implementation_effort";
             "risk_level"; "stakeholders" ]);
          ("budget_planning",
           [ "budget_category"; "current_spend"; "planned_spend"; "variance"; "approval_status";
             "owner" ]);
          ("resource_allocation",
           [ "resource_type"; "current_allocation"; "planned_allocation"; "utilization_rate";
             "priority"; "timeline" ]);
          ("compliance_tracking",
           [ "compliance_requirement"; "due_date"; "status"; "risk_level"; "owner";
             "audit_frequency" ]);
          ("vendor_management",
           [ "vendor_name"; "contract_value"; "renewal_date"; "service_level";
             "performance_rating"; "relationship_owner" ]) ]) ].

(** [self.field_completion_rates]. *)
Record completion_rates : Type := {
  required_fields : Q;
  important_fields : Q;
  optional_fields : Q
}.

Definition field_completion_rates : completion_rates :=
  {| required_fields := 0.95; important_fields := 0.80; optional_fields := 0.45 |}.

Definition required_keywords : list string :=
  ["priority"; "due"; "deadline"; "required"; "critical"; "mandatory"].

Definition important_keywords : list string :=
  ["impact"; "effort"; "score"; "value"; "target"; "budget"; "cost"].

(** [raw] is the draw behind [random.random()]. *)
Definition _determine_field_completion (usage : list (string * list (string * list string)))
  (raw : Q) (fd : field_definition) (department project_type : string) : bool :=
  let field_name := lower (name fd) in
  let dept_patterns := dict_get usage department [] in
  let project_patterns := dict_get dept_patterns project_type [] in
  let completion_rate :=
    if existsb (fun important => contains important field_name) required_keywords
    then required_fields field_completion_rates
    else if existsb (fun important => contains important field_name) important_keywords
         then important_fields field_completion_rates
         else optional_fields field_completion_rates in
  let completion_rate :=
    if (existsb (String.eqb field_name) project_patterns
        || existsb (fun pattern => contains field_name pattern) project_patterns)%bool
    then completion_rate * 1.2
    else completion_rate in
  qlt (random raw) (qmin 1.0 completion_rate).

End CustomFields.

(** ** [src/generators/comments.py]: the timestamp of a comment *)

Module Comments.

Import Py.

Record timing_config : Type := {
  mean : Q;
  std : Q;
  min : Q;
  max : Q
}.

Local Open Scope Q_scope.

Definition comment_timing_patterns : list (string * timing_config) :=
  [ ("first_comment"%string, {| mean := 4.5; std := 3.0; min := 0.5; max := 24.0 |});
    ("subsequent_comments"%string, {| mean := 8.0; std := 6.0; min := 1.0; max := 48.0 |});
    ("completion_comments"%string, {| mean := 2.0; std := 1.5; min := 0.5; max := 12.0 |}) ].

(** The [for _ in range(10): ... break ... else: offset_hours = mean_hours]
    loop of [_get_realistic_comment_timestamp]; [draws i] is the standard
    normal deviate of attempt [i]. *)
Fixpoint offset_attempts (attempts : nat) (cfg : timing_config) (draws : nat -> Q)
  (i : nat) : Q :=
  match attempts with
  | O => mean cfg
  | S attempts' =>
      let offset_hours := mean cfg + std cfg * draws i in
      if (qle (min cfg) offset_hours && qle offset_hours (max cfg))%bool
      then offset_hours
      else offset_attempts attempts' cfg draws (S i)
  end.

Definition offset_hours (cfg : timing_config) (draws : nat -> Q) : Q :=
  offset_attempts 10 cfg draws 0.

(** *** [_get_realistic_comment_timestamp] *)

(** [dt.second], and [dt.replace(hour=h, minute=mi)]: the date, the second
    and the microsecond stay. *)
Definition second (t : Temporal.datetime) : Z :=
  ((t mod Temporal.us_per_minute) / Temporal.us_per_second)%Z.

Definition replace_hour_minute (t : Temporal.datetime) (h mi : Z) : Temporal.datetime :=
  Temporal.replace_hms t h mi (second t).

Record comment_draws : Type := {
  offset_draws : nat -> Q;      (* the deviates behind np.random.normal, per attempt *)
  business_hours_draw : Q;      (* random.random() < 0.85 *)
  minute_draw : Z;              (* random.randint(0, 59) *)
  weekend_draw : Q              (* random.random() < 0.8, drawn on a weekend only *)
}.

(** The module imports [TemporalGenerator] only: the name
    [get_business_day_offset] that the last branch calls is bound nowhere,
    so reaching the call raises [NameError]. *)
Inductive outcome : Type :=
| Returned (comment_timestamp : Temporal.datetime)
| NameError.

Definition no_timing : timing_config := {| mean := 0; std := 0; min := 0; max := 0 |}.

(** [now] is [datetime.now()].  The three keys looked up are in the table. *)
Definition _get_realistic_comment_timestamp (dr : comment_draws) (now : Temporal.datetime)
  (task_created_at : Temporal.datetime) (task_completed_at : option Temporal.datetime)
  (comment_sequence total_comments : Z) : outcome :=
  let current_time := now in
  let is_last :=
    ((comment_sequence =? total_comments - 1)%Z
     && match task_completed_at with Some _ => true | None => false end)%bool in
  let timing_config :=
    if (comment_sequence =? 0)%Z then dict_get comment_timing_patterns "first_comment" no_timing
    else if is_last then dict_get comment_timing_patterns "completion_comments" no_timing
    else dict_get comment_timing_patterns "subsequent_comments" no_timing in
  let offset_hours := offset_hours timing_config (offset_draws dr) in
  let base_and_offset :=
    if (comment_sequence =? 0)%Z then (task_created_at, offset_hours)
    else
      match task_completed_at with
      | Some completed =>
          if (comment_sequence =? total_comments - 1)%Z
          then (completed, - Qabs offset_hours)
          else ((task_created_at
                 + Temporal.timedelta_hours (inject_Z comment_sequence * mean timing_config))%Z,
                offset_hours)
      | None =>
          ((task_created_at
            + Temporal.timedelta_hours (inject_Z comment_sequence * mean timing_config))%Z,
           offset_hours)
      end in
  let comment_timestamp :=
    (fst base_and_offset + Temporal.timedelta_hours (snd base_and_offset))%Z in
  let min_timestamp := (task_created_at + Temporal.timedelta_minutes 30)%Z in
  let max_timestamp :=
    match task_completed_at with Some completed => completed | None => current_time end in
  let comment_timestamp :=
    if (comment_timestamp <? min_timestamp)%Z then min_timestamp else comment_timestamp in
  let comment_timestamp :=
    if (max_timestamp <? comment_timestamp)%Z then max_timestamp else comment_timestamp in
  let comment_timestamp :=
    if qlt (random (business_hours_draw dr)) 0.85 then
      if (Temporal.hour comment_timestamp <? 9)%Z
      then replace_hour_minute comment_timestamp 9 (randint 0 59 (minute_draw dr))
      else if (18 <? Temporal.hour comment_timestamp)%Z
           then replace_hour_minute comment_timestamp 18 (randint 0 59 (minute_draw dr))
           else comment_timestamp
    else comment_timestamp in
  if ((5 <=? Temporal.weekday (Temporal.date comment_timestamp))%Z
      && qlt (random (weekend_draw dr)) 0.8)%bool
  then NameError
  else Returned comment_timestamp.

End Comments.

(** ** [src/utils/validation.py] *)

Module Validation.

Import Py.

(** The ['status'] of a validation result. *)
Inductive status : Type :=
| success
| failure
| error.

Definition is_failure (s : status) : bool :=
  match s with
  | failure => true
  | _ => false
  end.

(** A row of [tasks t JOIN projects p ON t.project_id = p.id], with the
    columns that the distribution queries read. *)
Record task_row : Type := {
  row_department : string;
  row_project_type : string;
  row_completed : bool;
  (* julianday(t.due_date) - julianday(t.created_at); None when due_date IS NULL *)
  row_due_in_days : option Q
}.

(** A connection gives the joined rows, or is faulty: then every query
    raises [sqlite3.Error]. *)
Inductive connection : Type :=
| Healthy (rows : list task_row)
| Faulty.

Definition segment : Type := string * string.

Definition segment_eqb (a b : segment) : bool :=
  String.eqb (fst a) (fst b) && String.eqb (snd a) (snd b).

Definition segment_of (r : task_row) : segment := (row_department r, row_project_type r).

(** [GROUP BY]: the distinct keys, in order of first appearance, and the
    number of rows of a key. *)
Fixpoint distinct_by {K : Type} (eqb : K -> K -> bool) (keys : list K) : list K :=
  match keys with
  | [] => []
  | k :: rest => k :: filter (fun k' => negb (eqb k k')) (distinct_by eqb rest)
  end.

Definition count_by {K : Type} (eqb : K -> K -> bool) (k : K) (keys : list K) : nat :=
  List.length (filter (eqb k) keys).

(** A dict keyed by a value with a Boolean equality, in insertion order. *)
Fixpoint assoc_find {K A : Type} (eqb : K -> K -> bool) (d : list (K * A)) (k : K)
  : option A :=
  match d with
  | [] => None
  | (k', v) :: rest => if eqb k k' then Some v else assoc_find eqb rest k
  end.

Fixpoint assoc_set {K A : Type} (eqb : K -> K -> bool) (d : list (K * A)) (k : K) (v : A)
  : list (K * A) :=
  match d with
  | [] => [(k, v)]
  | (k', v') :: rest =>
      if eqb k k' then (k', v) :: rest else (k', v') :: assoc_set eqb rest k v
  end.

(** *** The queries of [_validate_distributions] *)

Record completion_rate_row : Type := {
  cr_department : string;
  cr_project_type : string;
  cr_total_tasks : nat;
  cr_completed_tasks : nat;
  cr_completion_rate : Q
}.

(** [SELECT p.department, p.project_type, COUNT(t.id), SUM(completed), rate
     ... GROUP BY p.department, p.project_type HAVING COUNT(t.id) >= 10] *)
Definition completion_rates_query (rows : list task_row) : list completion_rate_row :=
  filter (fun g => Nat.leb 10 (cr_total_tasks g))
    (map (fun key =>
            let group := filter (fun r => segment_eqb key (segment_of r)) rows in
            let total := List.length group in
            let completed := List.length (filter row_completed group) in
            {| cr_department := fst key;
               cr_project_type := snd key;
               cr_total_tasks := total;
               cr_completed_tasks := completed;
               cr_completion_rate :=
                 (inject_Z (Z.of_nat completed) / inject_Z (Z.of_nat total))%Q |})
         (distinct_by segment_eqb (map segment_of rows))).

Definition due_date_bucket (days : Q) : string :=
  if qle days 1 then "0-1_days"
  else if qle days 3 then "2-3_days"
  else if qle days 7 then "4-7_days"
  else if qle days 14 then "8-14_days"
  else "15+_days".

Definition bucket_key_eqb (a b : segment * string) : bool :=
  segment_eqb (fst a) (fst b) && String.eqb (snd a) (snd b).

(** [SELECT p.department, p.project_type, due_date_bucket, COUNT( * )
     ... WHERE t.due_date IS NOT NULL
     GROUP BY p.department, p.project_type, due_date_bucket]: no [HAVING]. *)
Definition due_date_query (rows : list task_row) : list (segment * string * nat) :=
  let keyed :=
    flat_map (fun r =>
                match row_due_in_days r with
                | Some days => [(segment_of r, due_date_bucket days)]
                | None => []
                end) rows in
  map (fun k => (k, count_by bucket_key_eqb k keyed)) (distinct_by bucket_key_eqb keyed).

(** *** Configuration of [DataValidator.__init__] *)

Record validator : Type := {
  distribution_similarity_threshold : R;
  completion_rate_thresholds : list (string * (Q * Q));
  default_completion_rate_threshold : Q * Q
}.

Definition default_validator : validator :=
  {| distribution_similarity_threshold := 0.05%R;
     completion_rate_thresholds :=
       [ ("sprint"%string, (0.65, 0.90)); ("bug_tracking"%string, (0.55, 0.75));
         ("feature_development"%string, (0.45, 0.70)); ("research"%string, (0.25, 0.50));
         ("campaign"%string, (0.60, 0.85)) ]%Q;
     default_completion_rate_threshold := (0.45, 0.75)%Q |}.

Definition due_date_distributions : list (string * list (string * R)) :=
  [ ("sprint_tasks"%string,
     [ ("0-1_days"%string, 0.15); ("2-3_days"%string, 0.25); ("4-7_days"%string, 0.30);
       ("8-14_days"%string, 0.20); ("15+_days"%string, 0.10) ]);
    ("campaign_tasks"%string,
     [ ("0-1_days"%string, 0.05); ("2-3_days"%string, 0.10); ("4-7_days"%string, 0.25);
       ("8-14_days"%string, 0.35); ("15+_days"%string, 0.25) ]) ]%R.

(** *** [_validate_completion_rates] *)

Record completion_rate_result : Type := {
  crr_department : string;
  crr_project_type : string;
  crr_completion_rate : Q;
  crr_min_acceptable : Q;
  crr_max_acceptable : Q;
  crr_status : status;
  crr_sample_size : nat
}.

Record completion_rates_report : Type := {
  completion_status : status;
  completion_details : list completion_rate_result
}.

Definition _validate_completion_rates (v : validator)
  (completion_rates : list completion_rate_row) : completion_rates_report :=
  let results :=
    map (fun row =>
           let thresholds :=
             dict_get (completion_rate_thresholds v) (cr_project_type row)
               (default_completion_rate_threshold v) in
           let min_acceptable := fst thresholds in
           let max_acceptable := snd thresholds in
           let rate := cr_completion_rate row in
           {| crr_department := cr_department row;
              crr_project_type := cr_project_type row;
              crr_completion_rate := rate;
              crr_min_acceptable := min_acceptable;
              crr_max_acceptable := max_acceptable;
              crr_status :=
                if (qlt rate min_acceptable || qlt max_acceptable rate)%bool
                then failure else success;
              crr_sample_size := cr_total_tasks row |})
        completion_rates in
  let failures := List.length (filter (fun r => is_failure (crr_status r)) results) in
  {| completion_status := if Nat.ltb 0 failures then failure else success;
     completion_details := results |}.

(** *** [_calculate_kl_divergence] *)

Local Open Scope R_scope.

Definition epsilon : R := 1e-10.

Definition rsum (l : list R) : R := fold_right Rplus 0 l.

(** [set(dist1.keys()) | set(dist2.keys())], each bucket once. *)
Definition all_buckets_of (dist1 dist2 : list (string * R)) : list string :=
  distinct_by String.eqb (map fst dist1 ++ map fst dist2).

Definition _calculate_kl_divergence (dist1 dist2 : list (string * R)) : R :=
  let all_buckets := all_buckets_of dist1 dist2 in
  let smoothed_dist1 := map (fun bucket => (bucket, dict_get dist1 bucket 0 + epsilon))
                            all_buckets in
  let smoothed_dist2 := map (fun bucket => (bucket, dict_get dist2 bucket 0 + epsilon))
                            all_buckets in
  let sum1 := rsum (map snd smoothed_dist1) in
  let sum2 := rsum (map snd smoothed_dist2) in
  let normalized_dist1 := map (fun kv => (fst kv, snd kv / sum1)) smoothed_dist1 in
  let normalized_dist2 := map (fun kv => (fst kv, snd kv / sum2)) smoothed_dist2 in
  fold_left (fun kl_div bucket =>
               let p := dict_get normalized_dist1 bucket 0 in
               let q := dict_get normalized_dist2 bucket 0 in
               kl_div + p * ln (p / q))
            all_buckets 0.

(** *** [_validate_due_date_distributions] *)

Record due_date_result : Type := {
  ddr_department : string;
  ddr_project_type : string;
  ddr_kl_divergence : R;
  ddr_status : status;
  ddr_sample_size : nat
}.

Record due_date_report : Type := {
  due_date_status : status;
  due_date_details : list due_date_result
}.

(** The first loop: [grouped_data[key][bucket] = count]. *)
Definition group_buckets (due_date_data : list (segment * string * nat))
  : list (segment * list (string * nat)) :=
  fold_left (fun grouped_data row =>
               let key := fst (fst row) in
               let bucket := snd (fst row) in
               let count := snd row in
               let bucket_counts :=
                 match assoc_find segment_eqb grouped_data key with
                 | Some bc => bc
                 | None => []
                 end in
               assoc_set segment_eqb grouped_data key
                 (assoc_set String.eqb bucket_counts bucket count))
            due_date_data [].

(** The body of the second loop; [None] is [continue]. *)
Definition validate_segment (v : validator) (key : segment)
  (bucket_counts : list (string * nat)) : option due_date_result :=
  let total_tasks := fold_right Nat.add 0%nat (map snd bucket_counts) in
  let benchmark_key :=
    if contains "sprint" (lower (snd key)) then "sprint_tasks"%string
    else "campaign_tasks"%string in
  match dict_get due_date_distributions benchmark_key [] with
  | [] => None
  | benchmark_dist =>
      let observed_dist :=
        map (fun bc => (fst bc, INR (snd bc) / INR total_tasks)) bucket_counts in
      let kl_divergence := _calculate_kl_divergence observed_dist benchmark_dist in
      Some {| ddr_department := fst key;
              ddr_project_type := snd key;
              ddr_kl_divergence := kl_divergence;
              ddr_status :=
                if Rle_dec kl_divergence (distribution_similarity_threshold v)
                then success else failure;
              ddr_sample_size := total_tasks |}
  end.

Definition _validate_due_date_distributions (v : validator)
  (due_date_data : list (segment * string * nat)) : due_date_report :=
  let grouped_data := group_buckets due_date_data in
  let results :=
    flat_map (fun entry =>
                match validate_segment v (fst entry) (snd entry) with
                | Some r => [r]
                | None => []
                end) grouped_data in
  let failures := List.length (filter (fun r => is_failure (ddr_status r)) results) in
  {| due_date_status := if Nat.ltb 0 failures then failure else success;
     due_date_details := results |}.

(** *** [_validate_distributions] and [validate_database_integrity] *)

Record distribution_report : Type := {
  distribution_status : status;
  completion_rates : option completion_rates_report;
  due_date_report_of : option due_date_report;
  distribution_failed : list string
}.

Record integrity_report : Type := {
  categories : list (string * status);
  overall_status : status;
  failed_categories : list string
}.

Section Validator.

(** [_validate_assignment_patterns] and [_validate_day_of_week_patterns] are
    called by [_validate_distributions] and defined nowhere in the
    repository; they are parameters here, giving the ['status'] of what they
    return, or raising. *)
Variable _validate_assignment_patterns : list task_row -> result (option status).
Variable _validate_day_of_week_patterns : list task_row -> result (option status).

(** The other five validators run their own queries and give a status;
    each catches [sqlite3.Error] and reports [error]. *)
Variable _validate_schema : connection -> status.
Variable _validate_temporal_consistency : connection -> status.
Variable _validate_referential_integrity : connection -> status.
Variable _validate_business_rules : connection -> status.
Variable _validate_data_quality : connection -> status.

Definition failed_of (results : list (string * option status)) : list string :=
  map fst (filter (fun entry =>
                     match snd entry with
                     | Some failure => true
                     | _ => false
                     end) results).

Definition _validate_distributions (v : validator) (conn : connection)
  : result distribution_report :=
  match conn with
  | Faulty =>
      Ok {| distribution_status := error;
            completion_rates := None;
            due_date_report_of := None;
            distribution_failed := [] |}
  | Healthy rows =>
      let completion := _validate_completion_rates v (completion_rates_query rows) in
      let due_dates := _validate_due_date_distributions v (due_date_query rows) in
      assignment <- _validate_assignment_patterns rows ;;
      day_of_week <- _validate_day_of_week_patterns rows ;;
      let validation_results :=
        [ ("completion_rates"%string, Some (completion_status completion));
          ("due_date_distributions"%string, Some (due_date_status due_dates));
          ("assignment_patterns"%string, assignment);
          ("day_of_week_patterns"%string, day_of_week) ] in
      let failed_validations := failed_of validation_results in
      Ok {| distribution_status :=
              match failed_validations with
              | [] => success
              | _ => failure
              end;
            completion_rates := Some completion;
            due_date_report_of := Some due_dates;
            distribution_failed := failed_validations |}
  end.

Definition validate_database_integrity (v : validator) (conn : connection)
  : result integrity_report :=
  let schema := _validate_schema conn in
  let temporal := _validate_temporal_consistency conn in
  let referential := _validate_referential_integrity conn in
  distribution <- _validate_distributions v conn ;;
  let business := _validate_business_rules conn in
  let quality := _validate_data_quality conn in
  let results :=
    [ ("schema_validation"%string, schema);
      ("temporal_consistency"%string, temporal);
      ("referential_integrity"%string, referential);
      ("distribution_validation"%string, distribution_status distribution);
      ("business_rules"%string, business);
      ("data_quality"%string, quality) ] in
  let failed_categories :=
    map fst (filter (fun entry => is_failure (snd entry)) results) in
  Ok {| categories := results;
        overall_status :=
          match failed_categories with
          | [] => success
          | _ => failure
          end;
        failed_categories := failed_categories |}.

End Validator.

(** *** [suggest_fixes] *)

(** The check mark U+2705 that opens the message, in UTF-8. *)
Definition check_mark : string :=
  String (ascii_of_nat 226) (String (ascii_of_nat 156) (String (ascii_of_nat 133) "")).

(** The [if category == ... elif ...] chain: no branch for the schema
    category. *)
Definition category_fixes (category : string) : list string :=
  if String.eqb category "temporal_consistency" then
    [ "Run temporal consistency repair script to fix date violations";
      "Check task completion logic to ensure completed_at >= created_at";
      "Validate project timeline logic to ensure start_date <= end_date" ]%string
  else if String.eqb category "referential_integrity" then
    [ "Run foreign key repair to fix orphaned records";
      "Check data generation logic for proper relationship handling";
      "Validate that all foreign keys reference existing primary keys" ]%string
  else if String.eqb category "distribution_validation" then
    [ "Adjust task completion rate generation logic";
      "Review due date distribution algorithms";
      "Calibrate assignment patterns to match industry benchmarks" ]%string
  else if String.eqb category "business_rules" then
    [ "Ensure all projects have at least one section";
      "Add recent activity to inactive active projects";
      "Assign high priority tasks to team members" ]%string
  else if String.eqb category "data_quality" then
    [ "Fill missing required fields with default values";
      "Remove duplicate email addresses from users table";
      "Fix team name duplicates within organizations" ]%string
  else [].

(** [validation_results] is what [validate_database_integrity] returns: the
    categories in insertion order, then ['overall_status'] and
    ['failed_categories'], which the loop skips. *)
Definition suggest_fixes (validation_results : integrity_report)
  : list (string * list string) :=
  match overall_status validation_results with
  | success =>
      [ ("all"%string,
         [ (check_mark ++ " No fixes needed - all validations passed!")%string ]) ]
  | _ =>
      let fixes :=
        map (fun entry => (fst entry, category_fixes (fst entry)))
            (filter (fun entry => is_failure (snd entry)) (categories validation_results)) in
      match fixes with
      | [] =>
          [ ("general"%string,
             [ "Review data generation pipeline for logical errors";
               "Check configuration settings for validation thresholds";
               "Validate input data sources for quality issues" ]%string) ]
      | _ => fixes
      end
  end.

(** What the first loop of [_validate_due_date_distributions] keeps for each
    segment: a list of buckets that is not empty, with the counts of the
    query. *)
Definition counted (bucket_counts : list (string * nat)) : Prop :=
  bucket_counts <> [] /\ Forall (fun bc => (1 <= snd bc)%nat) bucket_counts.

End Validation.

(** ** [src/generators/tasks.py]: the due date of a task *)

Module Tasks.

Import Py.

(** [int(x)] on a float: truncation towards zero. *)
Definition int (x : Q) : Z := if qlt x 0 then Qceiling x else Qfloor x.

(** [self.due_date_distributions]: [(min_days, max_days, probability)], the
    bucket of the tasks without a due date as [(None, None, probability)]. *)
Definition bucket (min_days max_days : Z) (probability : Q) : option Z * option Z * Q :=
  (Some min_days, Some max_days, probability).

Definition no_due_date (probability : Q) : option Z * option Z * Q :=
  (None, None, probability).

Definition due_date_distributions : list (string * list (option Z * option Z * Q)) :=
  [ ("sprint"%string,
     [ bucket 1 3 0.4; bucket 4 7 0.35; bucket 8 14 0.15;
       bucket 15 30 0.08; no_due_date 0.02 ]);
    ("bug_tracking"%string,
     [ bucket 0 1 0.2; bucket 2 3 0.3; bucket 4 7 0.25;
       bucket 8 14 0.15; bucket 15 30 0.08; no_due_date 0.02 ]);
    ("feature_development"%string,
     [ bucket 1 7 0.1; bucket 8 14 0.25; bucket 15 30 0.35;
       bucket 31 60 0.2; bucket 61 90 0.08; no_due_date 0.02 ]);
    ("campaign"%string,
     [ bucket 1 7 0.05; bucket 8 14 0.15; bucket 15 30 0.4;
       bucket 31 60 0.25; bucket 61 90 0.1; no_due_date 0.05 ]);
    ("default"%string,
     [ bucket 1 7 0.25; bucket 8 14 0.25; bucket 15 30 0.2;
       bucket 31 60 0.15; bucket 61 90 0.1; no_due_date 0.05 ]) ].

Definition _get_due_date_distribution (project_type : string)
  : list (option Z * option Z * Q) :=
  dict_get due_date_distributions project_type
    (dict_get due_date_distributions "default" []).

Definition section_urgency : list (string * Q) :=
  [ ("Backlog"%string, 1.5); ("Ready"%string, 1.2); ("In Progress"%string, 1.0);
    ("In Review"%string, 0.8); ("Done"%string, 0.5); ("To Do"%string, 1.2);
    ("Blocked"%string, 2.0); ("Urgent"%string, 0.5); ("Critical"%string, 0.3) ]%Q.

Record due_date_draws : Type := {
  bucket_draw : nat;         (* random.choices(range(len(buckets)), weights=probabilities) *)
  days_draw : Z;             (* random.randint(min_days, max_days) *)
  business_day_draw : Q;     (* random.random() < 0.85 *)
  horizon_draw : Z;          (* random.randint(30, max_future_days) *)
  overdue_draw : Q;          (* random.random() < overdue_chance *)
  overdue_days_draw : Z      (* random.randint(1, max_overdue_days) *)
}.

(** The outer [option] is [None] when the fuel of [get_business_day_offset]
    runs out; the inner one is the [Optional[datetime]] that is returned. *)
Definition _generate_realistic_due_date (holiday_calendar : Z -> bool) (fuel : nat)
  (dr : due_date_draws) (project_type : string) (created_date : Temporal.datetime)
  (section_name : string) (current_date : Temporal.datetime)
  : option (result (option Temporal.datetime)) :=
  let distribution := _get_due_date_distribution project_type in
  let buckets := map fst distribution in
  let probabilities := map snd distribution in
  match
    (bucket_index <- choices (seq 0 (List.length buckets)) probabilities (bucket_draw dr) ;;
     index buckets bucket_index)
  with
  | Raise e => Some (Raise e)
  | Ok (None, None) => Some (Ok None)
  | Ok (None, Some _) | Ok (Some _, None) => Some (Raise TypeError)
  | Ok (Some min_days, Some max_days) =>
      let urgency_factor := dict_get section_urgency section_name 1.0%Q in
      let min_days := Z.max 0 (int (inject_Z min_days * urgency_factor)) in
      let max_days := Z.max 0 (int (inject_Z max_days * urgency_factor)) in
      let min_days := Z.max 0 min_days in
      let max_days := Z.max (min_days + 1) max_days in
      let days_offset := randint min_days max_days (days_draw dr) in
      let due_date := (created_date + Temporal.timedelta_days days_offset)%Z in
      let moved :=
        if qlt (random (business_day_draw dr)) 0.85
        then Temporal.get_business_day_offset holiday_calendar fuel due_date 0
        else Some due_date in
      match moved with
      | None => None
      | Some due_date =>
          let max_future_days := 180%Z in
          let due_date :=
            if (current_date + Temporal.timedelta_days max_future_days <? due_date)%Z
            then (current_date
                  + Temporal.timedelta_days (randint 30 max_future_days (horizon_draw dr)))%Z
            else due_date in
          let overdue_chance :=
            if (contains "Done" section_name || contains "Complete" section_name)%bool
            then 0.05%Q else 0.1%Q in
          let due_date :=
            if (qlt (random (overdue_draw dr)) overdue_chance
                && (due_date <? current_date)%Z)%bool
            then
              let max_overdue_days := 30%Z in
              if (max_overdue_days <? Temporal.td_days (current_date - due_date))%Z
              then (current_date
                    - Temporal.timedelta_days
                        (randint 1 max_overdue_days (overdue_days_draw dr)))%Z
              else due_date
            else due_date in
          Some (Ok (Some due_date))
      end
  end.

End Tasks.

(** ** Vocabulary of the statements

    Two definitions follow the words of the specification, to be compared
    with the code: the completion probability ([completion_probability]) and
    the resolution order ([resolved]).  The others name parts of the source
    functions that the statements mention. *)

Module Reference.

Import Py Temporal CustomFields.

(** The completion probability in the words of the specification: department
    base rate plus project-type adjustment, times a due-date multiplier,
    times a weekday multiplier, clamped to [[0.10, 0.95]]. *)
Definition clamp (lo hi x : Q) : Q :=
  if qlt x lo then lo else if qlt hi x then hi else x.

Definition due_date_multiplier (days_until_due : option Z) : Q :=
  match days_until_due with
  | None => 1
  | Some d =>
      if d <=? 0 then 0.5          (* already overdue at creation *)
      else if d <=? 3 then 1.2     (* due within 3 days *)
      else if d <=? 7 then 1.1     (* due within 7 days *)
      else if 30 <? d then 0.9     (* due beyond 30 days *)
      else 1
  end%Q.

Definition weekday_multiplier (wd : Z) : Q :=
  (if wd =? 4 then 0.85                        (* Friday *)
   else if (wd =? 5) || (wd =? 6) then 0.7     (* weekend *)
   else 1)%Q.

Definition completion_probability (department project_type : string)
  (created_at : datetime) (due_date : option datetime) : Q :=
  clamp 0.10 0.95
    ((dict_get base_rates department 0.68
      + dict_get completion_project_adjustments project_type 0.0)
     * due_date_multiplier (option_map (fun d => td_days (d - created_at)%Z) due_date)
     * weekday_multiplier (weekday (date created_at)))%Q.

(** Resolution in the words of the specification: the exact entry; else the
    first entry, in table order, whose key occurs in the field name; else the
    default. *)
Inductive resolved {A : Type} (d : list (string * A)) (field_name : string) (fallback : A)
  : A -> Prop :=
| resolved_exact (p : A) :
    dict_find d field_name = Some p -> resolved d field_name fallback p
| resolved_substring (before after : list (string * A)) (category : string) (p : A) :
    dict_find d field_name = None ->
    d = before ++ (category, p) :: after ->
    contains category field_name = true ->
    Forall (fun entry => contains (fst entry) field_name = false) before ->
    resolved d field_name fallback p
| resolved_default :
    dict_find d field_name = None ->
    Forall (fun entry => contains (fst entry) field_name = false) d ->
    resolved d field_name fallback fallback.


(** Attempt [i] of the comment-offset sampler, and whether it passes the
    bound check. *)
Definition attempt (cfg : Comments.timing_config) (draws : nat -> Q) (i : nat) : Q :=
  (Comments.mean cfg + Comments.std cfg * draws i)%Q.

Definition accepted (cfg : Comments.timing_config) (draws : nat -> Q) (i : nat) : bool :=
  qle (Comments.min cfg) (attempt cfg draws i) && qle (attempt cfg draws i) (Comments.max cfg).

(** The rounding of the normal kind in [_generate_field_value]: to hundreds
    when the upper bound exceeds 1000, to tens when it exceeds 100, to one
    decimal otherwise. *)
Definition rounded_for (max_val value : Q) : Q :=
  if qlt 1000 max_val then inject_Z (round_hundreds value)
  else if qlt 100 max_val then inject_Z (round_tens value)
  else round_1 value.

(** The benchmark that [validate_segment] selects for a segment, and the
    observed distribution it computes from the bucket counts. *)
Definition benchmark_for (key : Validation.segment) : list (string * R) :=
  dict_get Validation.due_date_distributions
    (if contains "sprint" (lower (snd key)) then "sprint_tasks"%string
     else "campaign_tasks"%string) [].

Definition observed_of (bucket_counts : list (string * nat)) : list (string * R) :=
  map (fun bc =>
         (fst bc, (INR (snd bc) / INR (fold_right Nat.add 0%nat (map snd bucket_counts)))%R))
      bucket_counts.

End Reference.

(** ** Sample draws used by the examples below *)

Module Samples.

Import Py Temporal.

(** A calendar whose only holiday is New Year's Day 2026 (a Thursday). *)
Definition new_year_2026 (d : Z) : bool := d =? ymd 2026 1 1.

(** A short task whose completion hour is drawn as 9 o'clock. *)
Definition early_completion_draws : lifecycle_draws :=
  {| complete_draw := 0;
     base_hours_draw := 1 # 2;
     reanchor_draw := 0;
     completion_time_draws :=
       {| hour_draw := 9; range_draw := 0; minute_draw := 0; second_draw := 0 |};
     weekend_minute_draw := 0;
     weekend_second_draw := 0;
     hours_until_start_draw := 1;
     start_minute_draw := 0;
     start_second_draw := 0 |}.

(** A ten-hour task completed at 14:20:30. *)
Definition afternoon_draws : lifecycle_draws :=
  {| complete_draw := 1 # 4;
     base_hours_draw := 10;
     reanchor_draw := 1 # 2;
     completion_time_draws :=
       {| hour_draw := 14; range_draw := 2; minute_draw := 20; second_draw := 30 |};
     weekend_minute_draw := 0;
     weekend_second_draw := 0;
     hours_until_start_draw := 1;
     start_minute_draw := 12;
     start_second_draw := 5 |}.

(** Custom-field patterns and draws. *)
Definition triangular_pattern : CustomFields.number_pattern :=
  CustomFields.named 200 300 "triangular" 250 10.

Definition off_centre_pattern : CustomFields.number_pattern :=
  CustomFields.named 60 70 "normal" 50 1.

Definition low_draws : CustomFields.field_draws :=
  {| CustomFields.choice_draw := 0;
     CustomFields.uniform_draw := 0;
     CustomFields.standard_normal_draw := - (37 # 30);
     CustomFields.lognormal_draw := 1;
     CustomFields.randint_draw := 41 |}.

Definition centre_draws : CustomFields.field_draws :=
  {| CustomFields.choice_draw := 0;
     CustomFields.uniform_draw := 0;
     CustomFields.standard_normal_draw := 0;
     CustomFields.lognormal_draw := 1;
     CustomFields.randint_draw := 0 |}.

Definition high_draws : CustomFields.field_draws :=
  {| CustomFields.choice_draw := 0;
     CustomFields.uniform_draw := 0;
     CustomFields.standard_normal_draw := 3;
     CustomFields.lognormal_draw := 1;
     CustomFields.randint_draw := 0 |}.

Definition resource_hours_field : CustomFields.field_definition :=
  {| CustomFields.field_type := "number";
     CustomFields.name := "Resource_Hours";
     CustomFields.enum_options := None |}.

Definition bug_priority_field : CustomFields.field_definition :=
  {| CustomFields.field_type := "number";
     CustomFields.name := "Bug_Priority";
     CustomFields.enum_options := None |}.

Definition priority_pattern : CustomFields.number_pattern :=
  CustomFields.weighted 1 5 [0.05; 0.15; 0.4; 0.3; 0.1]%Q.

Definition bug_priority_pattern : CustomFields.number_pattern :=
  CustomFields.weighted 1 3 [0.2; 0.5; 0.3]%Q.

(** A table whose engineering numbers hold a [priority] entry and, after it,
    a [bug_priority] entry. *)
Definition two_entry_table : CustomFields.patterns_table :=
  {| CustomFields.text_patterns := [];
     CustomFields.number_patterns :=
       [ ("engineering"%string,
          [ ("priority"%string, priority_pattern);
            ("bug_priority"%string, bug_priority_pattern) ]) ];
     CustomFields.date_patterns := [];
     CustomFields.enum_patterns := [];
     CustomFields.boolean_patterns := [] |}.

Definition ice_score_pattern : CustomFields.number_pattern :=
  CustomFields.named 1 100 "normal" 50 20.

Definition first_comment : Comments.timing_config :=
  {| Comments.mean := 4.5; Comments.std := 3.0; Comments.min := 0.5; Comments.max := 24.0 |}.

(** Every attempt ten standard deviations above the mean. *)
Definition far_draws (i : nat) : Q := 10.

(** One engineering sprint task, due half a day after its creation. *)
Definition lone_row : Validation.task_row :=
  {| Validation.row_department := "engineering";
     Validation.row_project_type := "sprint";
     Validation.row_completed := false;
     Validation.row_due_in_days := Some (1 # 2)%Q |}.

(** A hundred tasks spread over the buckets as the sprint benchmark is. *)
Definition benchmark_counts : list (string * nat) :=
  [ ("0-1_days"%string, 15%nat); ("2-3_days"%string, 25%nat); ("4-7_days"%string, 30%nat);
    ("8-14_days"%string, 20%nat); ("15+_days"%string, 10%nat) ].

(** Validators that find nothing wrong. *)
Definition passes (conn : Validation.connection) : Validation.status := Validation.success.
Definition passes_rows (rows : list Validation.task_row)
  : Py.result (option Validation.status) := Py.Ok (Some Validation.success).

(** Draws for a timestamp kept on its weekend day, and for a task that is
    not completed. *)
Definition weekend_timestamp_draws : Temporal.timestamp_draws :=
  {| Temporal.in_hours_draw := 99 # 100;
     Temporal.in_hours_time_draws :=
       {| hour_draw := 9; range_draw := 0; minute_draw := 0; second_draw := 0 |};
     Temporal.off_hour_draw := 22;
     Temporal.off_minute_draw := 10;
     Temporal.off_second_draw := 20;
     Temporal.weekend_keep_draw := 0;
     Temporal.kept_minute_draw := 30;
     Temporal.kept_second_draw := 40;
     Temporal.moved_time_draws :=
       {| hour_draw := 9; range_draw := 0; minute_draw := 0; second_draw := 0 |} |}.

Definition never_completed_draws : lifecycle_draws :=
  {| complete_draw := 97 # 100;
     base_hours_draw := 10;
     reanchor_draw := 0;
     completion_time_draws :=
       {| hour_draw := 9; range_draw := 0; minute_draw := 0; second_draw := 0 |};
     weekend_minute_draw := 0;
     weekend_second_draw := 0;
     hours_until_start_draw := 1;
     start_minute_draw := 0;
     start_second_draw := 0 |}.

(** A validator that reports a failure. *)
Definition fails (conn : Validation.connection) : Validation.status := Validation.failure.

End Samples.

(* ------------------------------------------------------------------ *)

(** * Properties *)

(** ** Business calendar *)

Section CalendarFacts.

Import Py Temporal.

Variable holiday_calendar : Z -> bool.

Local Abbreviation business t := (is_business_day holiday_calendar (date t)).
Local Abbreviation loop := (offset_loop holiday_calendar).
Local Abbreviation skip := (skip_to_business_day holiday_calendar).

Lemma date_add_days (t : datetime) (n : Z) :
  date (t + timedelta_days n) = date t + n.
Proof.
  unfold date, timedelta_days.
  rewrite Z.div_add by (unfold us_per_day, us_per_second; lia).
  reflexivity.
Qed.

Lemma date_sub_day (t : datetime) :
  date (t - timedelta_days 1) = date t - 1.
Proof.
  replace (t - timedelta_days 1) with (t + timedelta_days (-1))
    by (unfold timedelta_days; lia).
  rewrite date_add_days. lia.
Qed.

Lemma add_sub_days (t : datetime) (n : Z) :
  t + timedelta_days n + timedelta_days (- n) = t.
Proof. unfold timedelta_days. lia. Qed.

(** One iteration of the loop body. *)
Lemma loop_step (fuel : nat) (s : Z) (c : datetime) (r : Z) :
  0 < r ->
  loop (S fuel) s c r =
    if business (c + timedelta_days s)
    then loop fuel s (c + timedelta_days s) (r - 1)
    else loop fuel s (c + timedelta_days s) r.
Proof.
  intros Hr. simpl.
  destruct (0 <? r) eqn:E; [reflexivity | apply Z.ltb_ge in E; lia].
Qed.

Lemma loop_done (fuel : nat) (s : Z) (c : datetime) (r : Z) :
  r <= 0 -> loop fuel s c r = Some c.
Proof.
  intros Hr. destruct fuel; simpl;
    (destruct (0 <? r) eqn:E; [apply Z.ltb_lt in E; lia | reflexivity]).
Qed.

(** More fuel does not change a result. *)
Lemma loop_fuel_mono (fuel : nat) :
  forall (extra : nat) (s : Z) (c : datetime) (r : Z) (e : datetime),
    loop fuel s c r = Some e -> loop (fuel + extra) s c r = Some e.
Proof.
  induction fuel as [|fuel IH]; intros extra s c r e H.
  - destruct (Z_lt_le_dec 0 r) as [Hr|Hr].
    + simpl in H. apply Z.ltb_lt in Hr. rewrite Hr in H. discriminate.
    + rewrite loop_done in H by assumption. rewrite loop_done by assumption. exact H.
  - destruct (Z_lt_le_dec 0 r) as [Hr|Hr].
    + change (S fuel + extra)%nat with (S (fuel + extra)).
      rewrite loop_step in * by assumption.
      destruct (business (c + timedelta_days s)); apply IH; exact H.
    + rewrite loop_done in H by assumption. rewrite loop_done by assumption. exact H.
Qed.

Lemma loop_deterministic (f1 f2 : nat) (s : Z) (c : datetime) (r : Z) (e1 e2 : datetime) :
  loop f1 s c r = Some e1 -> loop f2 s c r = Some e2 -> e1 = e2.
Proof.
  intros H1 H2.
  apply (loop_fuel_mono f1 f2) in H1. apply (loop_fuel_mono f2 f1) in H2.
  rewrite Nat.add_comm in H2. congruence.
Qed.

(** A loop that counted at least one day stops on a business day. *)
Lemma loop_sound (fuel : nat) :
  forall (s : Z) (c : datetime) (r : Z) (e : datetime),
    0 < r -> loop fuel s c r = Some e -> business e = true.
Proof.
  induction fuel as [|fuel IH]; intros s c r e Hr H.
  - simpl in H. apply Z.ltb_lt in Hr. rewrite Hr in H. discriminate.
  - rewrite loop_step in H by assumption.
    destruct (business (c + timedelta_days s)) eqn:B.
    + destruct (Z_lt_le_dec 0 (r - 1)) as [Hr'|Hr'].
      * eapply IH; eassumption.
      * rewrite loop_done in H by assumption. injection H as <-. exact B.
    + eapply IH; eassumption.
Qed.

(** Walking in direction [s], a business day [k + 1] days away is reached and
    counted. *)
Lemma loop_reach (k : nat) :
  forall (s : Z) (c : datetime) (r : Z),
    0 < r ->
    is_business_day holiday_calendar (date c + s * (1 + Z.of_nat k)) = true ->
    exists (fuel : nat) (c' : datetime),
      forall fuel', loop (fuel + fuel') s c r = loop fuel' s c' (r - 1).
Proof.
  induction k as [|k IH]; intros s c r Hr Hk.
  - exists 1%nat, (c + timedelta_days s). intros fuel'.
    change (1 + fuel')%nat with (S fuel'). rewrite loop_step by assumption.
    rewrite date_add_days.
    replace (date c + s * (1 + Z.of_nat 0)) with (date c + s) in Hk by lia.
    rewrite Hk. reflexivity.
  - destruct (business (c + timedelta_days s)) eqn:B.
    + exists 1%nat, (c + timedelta_days s). intros fuel'.
      change (1 + fuel')%nat with (S fuel'). rewrite loop_step by assumption.
      rewrite B. reflexivity.
    + destruct (IH s (c + timedelta_days s) r Hr) as (fuel & c' & Hc').
      { rewrite date_add_days.
        replace (date c + s + s * (1 + Z.of_nat k))
          with (date c + s * (1 + Z.of_nat (S k))) by lia.
        exact Hk. }
      exists (S fuel), c'. intros fuel'.
      change (S fuel + fuel')%nat with (S (fuel + fuel')).
      rewrite loop_step by assumption. rewrite B. apply Hc'.
Qed.

Lemma loop_total (s : Z) (Hs : business_days_unbounded holiday_calendar s) (n : nat) :
  forall (c : datetime) (r : Z),
    r <= Z.of_nat n -> exists fuel e, loop fuel s c r = Some e.
Proof.
  induction n as [|n IH]; intros c r Hr.
  - exists 0%nat, c. apply loop_done. lia.
  - destruct (Z_lt_le_dec 0 r) as [Hpos|Hneg].
    + destruct (Hs (date c)) as [k Hk].
      destruct (loop_reach k s c r Hpos Hk) as (fuel & c' & Hc').
      destruct (IH c' (r - 1)) as (fuel' & e & He); [lia|].
      exists (fuel + fuel')%nat, e. rewrite Hc'. exact He.
    + exists 0%nat, c. apply loop_done. exact Hneg.
Qed.

Lemma skip_sound (fuel : nat) :
  forall (s : timedelta) (c e : datetime),
    skip fuel s c = Some e -> business e = true.
Proof.
  induction fuel as [|fuel IH]; intros s c e H; simpl in H;
    destruct (business c) eqn:B; try discriminate.
  - injection H as <-. exact B.
  - injection H as <-. exact B.
  - eapply IH; eassumption.
Qed.

Lemma skip_total (k : nat) :
  forall (s : Z) (c : datetime),
    is_business_day holiday_calendar (date c + s * Z.of_nat k) = true ->
    exists fuel e, skip fuel (timedelta_days s) c = Some e.
Proof.
  induction k as [|k IH]; intros s c Hk.
  - exists 0%nat, c. simpl. replace (date c + s * Z.of_nat 0) with (date c) in Hk by lia.
    rewrite Hk. reflexivity.
  - destruct (business c) eqn:B.
    + exists 0%nat, c. simpl. rewrite B. reflexivity.
    + destruct (IH s (c + timedelta_days s)) as (fuel & e & He).
      { rewrite date_add_days.
        replace (date c + s + s * Z.of_nat k) with (date c + s * Z.of_nat (S k)) by lia.
        exact Hk. }
      exists (S fuel), e. simpl. rewrite B. exact He.
Qed.

(** Going back one day undoes one forward step of the count: if the walk
    back from [x] with [j] days left (one more when [x] itself is not a
    business day) ends in [t], so does the walk back from the day after [x]
    with [j + 1] days left. *)
Lemma back_one (x t : datetime) (j : Z) :
  0 <= j ->
  (exists fuel, loop fuel (-1) x (j + if business x then 0 else 1) = Some t) ->
  exists fuel, loop fuel (-1) (x + timedelta_days 1) (j + 1) = Some t.
Proof.
  intros Hj [fuel H]. exists (S fuel).
  rewrite loop_step by lia.
  rewrite add_sub_days.
  destruct (business x).
  - replace (j + 1 - 1) with (j + 0) by lia. exact H.
  - exact H.
Qed.

Lemma forward_then_back (fuel : nat) :
  forall (x e t : datetime) (r j : Z),
    0 <= r -> 0 <= j ->
    loop fuel 1 x r = Some e ->
    (exists fuel', loop fuel' (-1) x (j + if business x then 0 else 1) = Some t) ->
    exists fuel', loop fuel' (-1) e (j + r + if business e then 0 else 1) = Some t.
Proof.
  induction fuel as [|fuel IH]; intros x e t r j Hr Hj Hfwd Hback.
  - destruct (Z_lt_le_dec 0 r) as [Hpos|Hneg].
    + simpl in Hfwd. apply Z.ltb_lt in Hpos. rewrite Hpos in Hfwd. discriminate.
    + rewrite loop_done in Hfwd by assumption. injection Hfwd as <-.
      replace (j + r) with j by lia. exact Hback.
  - destruct (Z_lt_le_dec 0 r) as [Hpos|Hneg].
    + rewrite loop_step in Hfwd by assumption.
      pose proof (back_one x t j Hj Hback) as Hnext.
      destruct (business (x + timedelta_days 1)) eqn:B.
      * replace (j + r) with ((j + 1) + (r - 1)) by lia.
        apply (IH (x + timedelta_days 1)); try lia; try assumption.
        rewrite B. replace (j + 1 + 0) with (j + 1) by lia. exact Hnext.
      * replace (j + r) with ((j + 0) + r) by lia.
        apply (IH (x + timedelta_days 1)); try lia; try assumption.
        rewrite B. replace (j + 0 + 1) with (j + 1) by lia. exact Hnext.
    + rewrite loop_done in Hfwd by assumption. injection Hfwd as <-.
      replace (j + r) with j by lia. exact Hback.
Qed.

End CalendarFacts.

Import Py Temporal Samples.

Lemma monday_is_business_day (d : Z) :
  weekday d = 0 -> is_business_day new_year_2026 d = true.
Proof.
  intros Hw. unfold is_business_day. rewrite Hw. simpl.
  unfold new_year_2026. destruct (d =? ymd 2026 1 1) eqn:E; [|reflexivity].
  apply Z.eqb_eq in E. subst d. vm_compute in Hw. discriminate.
Qed.

Lemma new_year_2026_ahead : business_days_unbounded new_year_2026 1.
Proof.
  intros d. exists (Z.to_nat ((- (d + 4)) mod 7)).
  apply monday_is_business_day. unfold weekday.
  pose proof (Z.mod_pos_bound (- (d + 4)) 7 ltac:(lia)) as Hb.
  rewrite Z2Nat.id by lia.
  pose proof (Z.div_mod (- (d + 4)) 7 ltac:(lia)) as Hd.
  replace (d + 1 * (1 + (- (d + 4)) mod 7) + 3)
    with (0 + (- ((- (d + 4)) / 7)) * 7) by lia.
  rewrite Z.mod_add by lia. reflexivity.
Qed.

Lemma new_year_2026_behind : business_days_unbounded new_year_2026 (-1).
Proof.
  intros d. exists (Z.to_nat ((d + 2) mod 7)).
  apply monday_is_business_day. unfold weekday.
  pose proof (Z.mod_pos_bound (d + 2) 7 ltac:(lia)) as Hb.
  rewrite Z2Nat.id by lia.
  pose proof (Z.div_mod (d + 2) 7 ltac:(lia)) as Hd.
  replace (d + -1 * (1 + (d + 2) mod 7) + 3)
    with (0 + ((d + 2) / 7) * 7) by lia.
  rewrite Z.mod_add by lia. reflexivity.
Qed.

(** C10. With a holiday calendar that leaves business days arbitrarily far
    ahead and behind, [get_business_day_offset base n] with [n <> 0] returns,
    and what it returns is a business day, whatever [base] is; with [n = 0]
    it returns [base] itself, business day or not; [get_next_business_day]
    and [get_previous_business_day] return, and return business days. *)
Theorem offset_returns_business_day (holiday_calendar : Z -> bool)
  (Hahead : business_days_unbounded holiday_calendar 1)
  (Hbehind : business_days_unbounded holiday_calendar (-1)) :
  (forall (base : datetime) (n : Z), n <> 0 ->
     (exists fuel r, get_business_day_offset holiday_calendar fuel base n = Some r) /\
     (forall fuel r, get_business_day_offset holiday_calendar fuel base n = Some r ->
                     is_business_day holiday_calendar (date r) = true)) /\
  (forall (fuel : nat) (base : datetime),
     get_business_day_offset holiday_calendar fuel base 0 = Some base) /\
  (forall start : datetime,
     (exists fuel r, get_next_business_day holiday_calendar fuel start = Some r) /\
     (forall fuel r, get_next_business_day holiday_calendar fuel start = Some r ->
                     is_business_day holiday_calendar (date r) = true)) /\
  (forall start : datetime,
     (exists fuel r, get_previous_business_day holiday_calendar fuel start = Some r) /\
     (forall fuel r, get_previous_business_day holiday_calendar fuel start = Some r ->
                     is_business_day holiday_calendar (date r) = true)).
Proof.
  repeat split.
  - unfold get_business_day_offset.
    destruct (n =? 0) eqn:E; [apply Z.eqb_eq in E; contradiction|].
    destruct (0 <? n).
    + apply (loop_total _ 1 Hahead (Z.to_nat (Z.abs n))). lia.
    + apply (loop_total _ (-1) Hbehind (Z.to_nat (Z.abs n))). lia.
  - intros fuel r. unfold get_business_day_offset.
    destruct (n =? 0) eqn:E; [apply Z.eqb_eq in E; contradiction|].
    apply loop_sound. lia.
  - destruct (Hahead (date start)) as [k Hk].
    unfold get_next_business_day.
    apply (skip_total _ k 1). rewrite date_add_days.
    replace (date start + 1 + 1 * Z.of_nat k) with (date start + 1 * (1 + Z.of_nat k)) by lia.
    exact Hk.
  - intros fuel r. apply skip_sound.
  - destruct (Hbehind (date start)) as [k Hk].
    unfold get_previous_business_day.
    replace (- timedelta_days 1) with (timedelta_days (-1)) by reflexivity.
    apply (skip_total _ k (-1)). rewrite date_sub_day.
    replace (date start - 1 + -1 * Z.of_nat k)
      with (date start + -1 * (1 + Z.of_nat k)) by lia.
    exact Hk.
  - intros fuel r. apply skip_sound.
Qed.

(** Saturday 2026-01-03, 10:30, is not a business day; one business day on
    is Monday the 5th, offset 0 leaves the Saturday as it is. *)
Lemma offset_returns_business_day_witness :
  let saturday := at_time (ymd 2026 1 3) 10 30 0 in
  is_business_day new_year_2026 (date saturday) = false /\
  get_business_day_offset new_year_2026 5 saturday 0 = Some saturday /\
  get_business_day_offset new_year_2026 5 saturday 1
    = Some (at_time (ymd 2026 1 5) 10 30 0) /\
  is_business_day new_year_2026 (date (at_time (ymd 2026 1 5) 10 30 0)) = true.
Proof.
  pose proof (offset_returns_business_day new_year_2026
                new_year_2026_ahead new_year_2026_behind) as (Hoff & Hzero & _ & _).
  intros saturday.
  split; [reflexivity|].
  split; [apply Hzero|].
  split; [reflexivity|].
  apply (proj2 (Hoff saturday 1 ltac:(lia)) 5%nat). reflexivity.
Defined.

(** C6, as the code has it.  From a base whose date is a business day, [n]
    business days on and then [n] business days back is the base again; the
    forward call returns as soon as business days lie arbitrarily far ahead,
    and the result does not depend on the fuel. *)
Theorem round_trip_from_business_day (holiday_calendar : Z -> bool)
  (Hahead : business_days_unbounded holiday_calendar 1)
  (d : datetime) (n : Z) :
  is_business_day holiday_calendar (date d) = true ->
  0 <= n ->
  (exists fuel e,
     get_business_day_offset holiday_calendar fuel d n = Some e /\
     get_business_day_offset holiday_calendar fuel e (- n) = Some d) /\
  (forall fuel1 fuel2 e r,
     get_business_day_offset holiday_calendar fuel1 d n = Some e ->
     get_business_day_offset holiday_calendar fuel2 e (- n) = Some r ->
     r = d).
Proof.
  intros Hd Hn.
  assert (Hback : forall fuel1 e,
             get_business_day_offset holiday_calendar fuel1 d n = Some e ->
             exists fuel2, get_business_day_offset holiday_calendar fuel2 e (- n) = Some d).
  { intros fuel1 e Hfwd. unfold get_business_day_offset in *.
    destruct (n =? 0) eqn:E.
    - apply Z.eqb_eq in E. subst n. simpl. injection Hfwd as <-. exists 0%nat. reflexivity.
    - apply Z.eqb_neq in E.
      assert (Hpos : 0 < n) by lia.
      destruct (- n =? 0) eqn:E'; [apply Z.eqb_eq in E'; lia|].
      destruct (0 <? n) eqn:P; [|apply Z.ltb_ge in P; lia].
      destruct (0 <? - n) eqn:P'; [apply Z.ltb_lt in P'; lia|].
      rewrite Z.abs_opp. rewrite Z.abs_eq in * by lia.
      pose proof (loop_sound _ _ _ _ _ _ Hpos Hfwd) as He.
      destruct (forward_then_back holiday_calendar fuel1 d e d n 0) as [fuel2 H2];
        try lia; try assumption.
      + exists 0%nat. rewrite Hd. apply loop_done. lia.
      + rewrite He in H2. exists fuel2.
        replace (0 + n + 0) with n in H2 by lia. exact H2. }
  split.
  - assert (Hfwd : exists fuel e, get_business_day_offset holiday_calendar fuel d n = Some e).
    { unfold get_business_day_offset.
      destruct (n =? 0) eqn:E; [exists 0%nat, d; reflexivity|].
      apply Z.eqb_neq in E.
      destruct (0 <? n) eqn:P; [|apply Z.ltb_ge in P; lia].
      apply (loop_total _ 1 Hahead (Z.to_nat (Z.abs n))). lia. }
    destruct Hfwd as (fuel1 & e & Hfwd).
    destruct (Hback fuel1 e Hfwd) as [fuel2 Hb].
    exists (fuel1 + fuel2)%nat, e. unfold get_business_day_offset in *.
    destruct (n =? 0) eqn:E.
    + apply Z.eqb_eq in E. subst n. simpl in *. split; congruence.
    + destruct (- n =? 0) eqn:E'; [apply Z.eqb_eq in E'; apply Z.eqb_neq in E; lia|].
      split.
      * apply loop_fuel_mono. exact Hfwd.
      * rewrite Nat.add_comm. apply loop_fuel_mono. exact Hb.
  - intros fuel1 fuel2 e r Hfwd Hr.
    destruct (Hback fuel1 e Hfwd) as [fuel3 Hb].
    unfold get_business_day_offset in *.
    destruct (- n =? 0); [congruence|].
    eapply loop_deterministic; eassumption.
Qed.

Lemma round_trip_from_business_day_witness :
  let friday := at_time (ymd 2026 1 2) 10 30 0 in
  is_business_day new_year_2026 (date friday) = true /\
  exists fuel e,
    get_business_day_offset new_year_2026 fuel friday 3 = Some e /\
    get_business_day_offset new_year_2026 fuel e (- 3) = Some friday.
Proof.
  intros friday. split; [reflexivity|].
  apply (round_trip_from_business_day new_year_2026 new_year_2026_ahead friday 3).
  - reflexivity.
  - lia.
Defined.

(** C6, as stated, fails from a base that is not a business day, with no
    holiday anywhere: from Saturday 2026-01-03 one business day on is Monday
    the 5th, and one business day back from there is Friday the 2nd. *)
Lemma round_trip_fails_from_a_weekend :
  let no_holiday := fun _ : Z => false in
  let saturday := at_time (ymd 2026 1 3) 10 30 0 in
  get_business_day_offset no_holiday 5 saturday 1 = Some (at_time (ymd 2026 1 5) 10 30 0) /\
  get_business_day_offset no_holiday 5 (at_time (ymd 2026 1 5) 10 30 0) (- 1)
    = Some (at_time (ymd 2026 1 2) 10 30 0) /\
  at_time (ymd 2026 1 2) 10 30 0 <> saturday.
Proof.
  repeat split. discriminate.
Qed.

(** ** Completion probability *)

Section Rationals.

Local Open Scope Q_scope.

Lemma qmax_cases (a b : Q) : (b <= a /\ qmax a b = a) \/ (a < b /\ qmax a b = b).
Proof.
  unfold qmax. destruct (Qcompare_spec b a) as [H|H|H].
  - left. split; [rewrite H; apply Qle_refl | reflexivity].
  - left. split; [apply Qlt_le_weak; exact H | reflexivity].
  - right. split; [exact H | reflexivity].
Qed.

Lemma qmin_cases (a b : Q) : (a <= b /\ qmin a b = a) \/ (b < a /\ qmin a b = b).
Proof.
  unfold qmin. destruct (Qcompare_spec b a) as [H|H|H].
  - left. split; [rewrite H; apply Qle_refl | reflexivity].
  - right. split; [exact H | reflexivity].
  - left. split; [apply Qlt_le_weak; exact H | reflexivity].
Qed.

Lemma qlt_cases (a b : Q) : (a < b /\ qlt a b = true) \/ (b <= a /\ qlt a b = false).
Proof.
  unfold qlt. destruct (Qcompare_spec a b) as [H|H|H].
  - right. split; [rewrite H; apply Qle_refl | reflexivity].
  - left. split; [exact H | reflexivity].
  - right. split; [apply Qlt_le_weak; exact H | reflexivity].
Qed.

Lemma qmax_lower (a b : Q) : a <= qmax a b /\ b <= qmax a b.
Proof. destruct (qmax_cases a b) as [[H ->]|[H ->]]; split; lra. Qed.

Lemma qmin_upper (a b : Q) : qmin a b <= a /\ qmin a b <= b.
Proof. destruct (qmin_cases a b) as [[H ->]|[H ->]]; split; lra. Qed.

Lemma clamp_python (x y : Q) :
  x == y -> qmax 0.1 (qmin 0.95 x) == Reference.clamp 0.10 0.95 y.
Proof.
  intros Hxy. unfold Reference.clamp.
  destruct (qlt_cases y 0.10) as [[H1 ->]|[H1 ->]];
    [|destruct (qlt_cases 0.95 y) as [[H2 ->]|[H2 ->]]];
    destruct (qmin_cases 0.95 x) as [[Hm ->]|[Hm ->]];
    match goal with
    | |- qmax ?a ?b == _ => destruct (qmax_cases a b) as [[HM ->]|[HM ->]]
    end; lra.
Qed.

End Rationals.

(** Case analysis on every [qmin] and [qmax] of the goal, innermost first. *)
Ltac min_max_cases :=
  repeat match goal with
         | |- context [qmin ?a ?b] =>
             lazymatch b with
             | context [qmin _ _] => fail
             | context [qmax _ _] => fail
             | _ => destruct (qmin_cases a b) as [[? ->]|[? ->]]
             end
         | |- context [qmax ?a ?b] =>
             lazymatch b with
             | context [qmin _ _] => fail
             | context [qmax _ _] => fail
             | _ => destruct (qmax_cases a b) as [[? ->]|[? ->]]
             end
         end.

(** What holds of every entry of a dict and of the default holds of whatever
    [get] returns. *)
Lemma dict_get_Forall {A : Type} (P : A -> Prop) (d : list (string * A)) (k : string)
  (default : A) :
  Forall (fun kv => P (snd kv)) d -> P default -> P (dict_get d k default).
Proof.
  intros Hd Hdef. induction Hd as [|[k' v] rest Hv _ IH]; simpl.
  - exact Hdef.
  - destruct (String.eqb k k'); [exact Hv | exact IH].
Qed.

Lemma base_rate_bounds (department : string) :
  (0.60 <= dict_get base_rates department 0.68 <= 0.75)%Q.
Proof.
  apply (dict_get_Forall (fun q => (0.60 <= q <= 0.75)%Q)); [|lra].
  unfold base_rates. repeat constructor; simpl; lra.
Qed.

Lemma project_adjustment_bounds (project_type : string) :
  (-0.20 <= dict_get completion_project_adjustments project_type 0.0 <= 0.15)%Q.
Proof.
  apply (dict_get_Forall (fun q => (-0.20 <= q <= 0.15)%Q)); [|lra].
  unfold completion_project_adjustments. repeat constructor; simpl; lra.
Qed.

Lemma td_days_negative (a b : datetime) : date a < date b -> td_days (a - b) < 0.
Proof.
  unfold date, td_days, us_per_day, us_per_second. intros H.
  apply Z.div_lt_upper_bound; [lia|].
  assert (a < b); [|lia].
  destruct (Z_lt_le_dec a b) as [Hlt|Hge]; [exact Hlt|].
  apply (Z.div_le_mono b a (86400 * 1000000)) in Hge; lia.
Qed.

(** C5, as the code has it.  [_get_completion_probability] is the base rate
    plus the project-type adjustment, times the due-date multiplier (0.5
    overdue, 1.2 within 3 days, 1.1 within 7 days, 0.9 beyond 30 days), times
    the weekday multiplier (0.85 Friday, 0.7 weekend), clamped to
    [[0.10, 0.95]]; and an item created on 2026-01-02 and due on 2026-01-01
    gets exactly half the probability of the same item with no due-date
    multiplier (no due date, or due 8 to 30 days after creation). *)
Theorem completion_probability_factors :
  (forall department project_type created_at due_date,
     (_get_completion_probability department project_type created_at due_date ==
      Reference.completion_probability department project_type created_at due_date)%Q) /\
  (forall department project_type created_at due_date other,
     date created_at = ymd 2026 1 2 ->
     date due_date = ymd 2026 1 1 ->
     other = None \/
       (exists d, other = Some d /\ 7 < td_days (d - created_at) <= 30) ->
     (_get_completion_probability department project_type created_at (Some due_date) ==
      (1 # 2) * _get_completion_probability department project_type created_at other)%Q).
Proof.
  split.
  - intros department project_type created_at due_date.
    unfold _get_completion_probability, Reference.completion_probability.
    set (b := dict_get base_rates department 0.68%Q).
    set (a := dict_get completion_project_adjustments project_type 0.0%Q).
    cbv zeta. apply clamp_python.
    unfold Reference.weekday_multiplier, Reference.due_date_multiplier.
    destruct due_date as [due|]; simpl option_map; cbv beta;
      repeat match goal with
             | |- context [if ?c then _ else _] => destruct c
             end; ring.
  - intros department project_type created_at due_date other Hc Hd Hother.
    pose proof (base_rate_bounds department) as Hb.
    pose proof (project_adjustment_bounds project_type) as Ha.
    assert (Hdays : (td_days (due_date - created_at) <=? 0) = true).
    { apply Z.leb_le. apply Z.lt_le_incl. apply td_days_negative.
      rewrite Hc, Hd. reflexivity. }
    assert (Hfri : (weekday (date created_at) =? 4) = true).
    { rewrite Hc. reflexivity. }
    unfold _get_completion_probability.
    set (b := dict_get base_rates department 0.68%Q) in *.
    set (a := dict_get completion_project_adjustments project_type 0.0%Q) in *.
    cbv zeta. rewrite Hdays, Hfri.
    assert (Hhalf :
              (qmax 0.1 (qmin 0.95 ((b + a) * 0.5 * 0.85)) ==
               (1 # 2) * qmax 0.1 (qmin 0.95 ((b + a) * 0.85)))%Q).
    { destruct (qmin_cases 0.95 ((b + a) * 0.5 * 0.85)) as [[H1 ->]|[H1 ->]];
        destruct (qmin_cases 0.95 ((b + a) * 0.85)) as [[H2 ->]|[H2 ->]];
        repeat match goal with
               | |- context [qmax ?x ?y] =>
                   destruct (qmax_cases x y) as [[? ->]|[? ->]]
               end; lra. }
    destruct Hother as [->|(d & -> & Hlo & Hhi)].
    + exact Hhalf.
    + destruct (td_days (d - created_at) <=? 0) eqn:E0; [apply Z.leb_le in E0; lia|].
      destruct (td_days (d - created_at) <=? 3) eqn:E3; [apply Z.leb_le in E3; lia|].
      destruct (td_days (d - created_at) <=? 7) eqn:E7; [apply Z.leb_le in E7; lia|].
      destruct (30 <? td_days (d - created_at)) eqn:E30; [apply Z.ltb_lt in E30; lia|].
      exact Hhalf.
Qed.

Lemma completion_probability_factors_witness :
  let created_at := at_time (ymd 2026 1 2) 9 30 0 in
  let due_date := at_time (ymd 2026 1 1) 17 0 0 in
  (_get_completion_probability "engineering" "sprint" created_at (Some due_date) ==
   (1 # 2) * _get_completion_probability "engineering" "sprint" created_at None)%Q /\
  (_get_completion_probability "engineering" "sprint" created_at None == 0.68)%Q.
Proof.
  intros created_at due_date. split.
  - apply (proj2 completion_probability_factors); [reflexivity | reflexivity | left; reflexivity].
  - reflexivity.
Defined.

(** C5, as stated, fails: the item to compare with need only be "not
    overdue", and a due date within 3 days or beyond 30 days carries a
    multiplier of its own.  For the engineering sprint item created on Friday
    2026-01-02 at 9:30, the overdue one (due 2026-01-01) gets 0.34; the same
    item due two days later, 2026-01-04, gets 0.816, and due on 2026-02-11,
    0.612: 0.34 is half of neither. *)
Lemma halving_fails_against_a_near_due_date :
  let created_at := at_time (ymd 2026 1 2) 9 30 0 in
  (_get_completion_probability "engineering" "sprint" created_at
     (Some (at_time (ymd 2026 1 1) 17 0 0)) == 0.34)%Q /\
  td_days (at_time (ymd 2026 1 4) 17 0 0 - created_at) = 2 /\
  (_get_completion_probability "engineering" "sprint" created_at
     (Some (at_time (ymd 2026 1 4) 17 0 0)) == 0.816)%Q /\
  td_days (at_time (ymd 2026 2 11) 17 0 0 - created_at) = 40 /\
  (_get_completion_probability "engineering" "sprint" created_at
     (Some (at_time (ymd 2026 2 11) 17 0 0)) == 0.612)%Q /\
  ~ (0.34 == (1 # 2) * 0.816)%Q /\
  ~ (0.34 == (1 # 2) * 0.612)%Q.
Proof.
  cbv zeta. repeat split; try reflexivity; discriminate.
Qed.

(** ** Task lifecycle *)

Lemma random_range (raw : Q) : (0 <= random raw < 1)%Q.
Proof.
  unfold random. pose proof (Qfloor_le raw) as H1. pose proof (Qlt_floor raw) as H2.
  rewrite inject_Z_plus in H2. change (inject_Z 1) with 1%Q in H2. split; lra.
Qed.

Lemma randint_range (a b raw : Z) : a <= b -> a <= randint a b raw <= b.
Proof.
  intros H. unfold randint.
  pose proof (Z.mod_pos_bound raw (b - a + 1) ltac:(lia)). lia.
Qed.

Lemma round_half_even_lower (n : Z) (q : Q) :
  (inject_Z n <= q)%Q -> n <= round_half_even q.
Proof.
  intros H. apply Qfloor_resp_le in H. rewrite Qfloor_Z in H.
  unfold round_half_even.
  destruct (Qcompare _ _); [destruct (Z.even _)| |]; lia.
Qed.

Lemma round_half_even_upper (n : Z) (q : Q) :
  (q <= inject_Z n)%Q -> round_half_even q <= n.
Proof.
  intros H. pose proof (Qfloor_le q) as Hf.
  assert (Hfn : Qfloor q <= n).
  { rewrite Zle_Qle. lra. }
  unfold round_half_even.
  destruct (Qcompare_spec (q - inject_Z (Qfloor q)) (1 # 2)) as [E|E|E].
  - destruct (Z.even _); [exact Hfn|].
    assert (inject_Z (Qfloor q) < inject_Z n)%Q by lra.
    rewrite <- Zlt_Qlt in H0. lia.
  - exact Hfn.
  - assert (inject_Z (Qfloor q) < inject_Z n)%Q by lra.
    rewrite <- Zlt_Qlt in H0. lia.
Qed.

Lemma date_mk_datetime (d h mi s us : Z) :
  0 <= h <= 23 -> 0 <= mi <= 59 -> 0 <= s <= 59 -> 0 <= us < us_per_second ->
  date (mk_datetime d h mi s + us) = d.
Proof.
  intros Hh Hm Hs Hus. unfold date, mk_datetime, us_per_day, us_per_hour, us_per_minute, us_per_second in *.
  symmetry. apply Z.div_unique with (r := h * (3600 * 1000000) + mi * (60 * 1000000) + s * 1000000 + us); lia.
Qed.

Lemma date_mono (a b : datetime) : a <= b -> date a <= date b.
Proof. intros H. unfold date. apply Z.div_le_mono; [reflexivity | exact H]. Qed.

Lemma choices_In {A} (pop : list A) (w : list Q) (raw : nat) (a : A) :
  choices pop w raw = Ok a -> In a pop.
Proof.
  unfold choices. destruct (negb _); [discriminate|]. destruct (negb _); [discriminate|].
  destruct (nth_error pop _) eqn:E; [|discriminate].
  intros H. injection H as <-. eapply nth_error_In; eassumption.
Qed.

Lemma index_In {A} (l : list A) (i : nat) (a : A) : index l i = Ok a -> In a l.
Proof.
  unfold index. destruct (nth_error l i) eqn:E; [|discriminate].
  intros H. injection H as <-. eapply nth_error_In; eassumption.
Qed.

Lemma work_hours_date (dr : work_hours_draws) (base : datetime) (act : string) (t : datetime) :
  get_random_time_in_work_hours dr base act = Ok t -> date t = date base.
Proof.
  unfold get_random_time_in_work_hours.
  destruct (choices (map Z.of_nat (seq 0 24)) _ _) as [h|] eqn:Eh; [|discriminate].
  cbn [bind].
  destruct (choices (seq 0 (List.length minute_weights)) _ _) as [ri|] eqn:Er; [|discriminate].
  cbn [bind].
  destruct (index minute_ranges ri) as [[lo hi]|] eqn:Ei; [|discriminate].
  cbn [bind fst snd]. intros H. injection H as <-.
  apply choices_In in Eh. apply in_map_iff in Eh. destruct Eh as (n & <- & Hn).
  apply in_seq in Hn.
  apply index_In in Ei.
  assert (Hr : 0 <= lo <= hi - 1 /\ hi - 1 <= 59).
  { unfold minute_ranges in Ei. simpl in Ei.
    repeat (destruct Ei as [Ei|Ei]; [injection Ei as <- <-; lia|]). contradiction. }
  pose proof (randint_range lo (hi - 1) (minute_draw dr) ltac:(lia)).
  pose proof (randint_range 0 59 (second_draw dr) ltac:(lia)).
  rewrite <- (Z.add_0_r (mk_datetime _ _ _ _)).
  apply date_mk_datetime; first [exact H0 | unfold us_per_second; lia].
Qed.

Lemma date_replace_hms (t : datetime) (h mi s : Z) :
  0 <= h <= 23 -> 0 <= mi <= 59 -> 0 <= s <= 59 -> date (replace_hms t h mi s) = date t.
Proof.
  intros. unfold replace_hms. apply date_mk_datetime; try assumption.
  unfold microsecond. apply Z.mod_pos_bound. reflexivity.
Qed.

Lemma hour_range (t : datetime) : 0 <= hour t <= 23.
Proof.
  unfold hour, us_per_day, us_per_hour, us_per_second.
  pose proof (Z.mod_pos_bound t (86400 * 1000000) ltac:(lia)) as Hm.
  split.
  - apply Z.div_pos; lia.
  - assert (t mod (86400 * 1000000) / (3600 * 1000000) < 24); [|lia].
    apply Z.div_lt_upper_bound; lia.
Qed.

Lemma acceleration_bounds (project_type : string) :
  (1 <= completion_acceleration
          (dict_get project_type_patterns project_type sprint_pattern) <= 1.4)%Q.
Proof.
  apply (dict_get_Forall (fun p => (1 <= completion_acceleration p <= 1.4)%Q)).
  - unfold project_type_patterns. repeat constructor; simpl; lra.
  - simpl; lra.
Qed.

Lemma dept_multiplier_bounds (department : string) :
  (0.6 <= dict_get dept_multipliers department 1.0 <= 1.2)%Q.
Proof.
  apply (dict_get_Forall (fun m => (0.6 <= m <= 1.2)%Q)).
  - unfold dept_multipliers. repeat constructor; simpl; lra.
  - lra.
Qed.

Lemma five_minutes_of_hours (h : Q) :
  (1 # 12 <= h)%Q -> timedelta_minutes 5 <= timedelta_hours h.
Proof.
  intros H. unfold timedelta_hours. apply round_half_even_lower.
  change (inject_Z (timedelta_minutes 5)) with (300000000 # 1)%Q.
  change (inject_Z us_per_hour) with (3600000000 # 1)%Q. lra.
Qed.

Lemma duration_at_least_five_minutes (draw : Q) (department project_type : string)
  (days_until_due : Z) :
  let base_hours := qmax 1.0%Q (qmin draw 336%Q) in
  let duration_hours := (base_hours * dict_get dept_multipliers department 1.0)%Q in
  let acceleration :=
    (1.0 + (completion_acceleration
              (dict_get project_type_patterns project_type sprint_pattern) - 1.0)
           * (1 - qmin 1.0 (inject_Z days_until_due / 30)))%Q in
  (1 # 12 <= duration_hours)%Q /\
  (0 < days_until_due -> (1 # 12 <= duration_hours / acceleration)%Q).
Proof.
  intros base_hours duration_hours acceleration.
  pose proof (dept_multiplier_bounds department) as Hm.
  pose proof (acceleration_bounds project_type) as Ha.
  pose proof (proj1 (qmax_lower 1.0 (qmin draw 336))) as Hb.
  fold base_hours in Hb.
  assert (Hd : (0.6 <= duration_hours)%Q).
  { unfold duration_hours. nra. }
  split; [lra|].
  intros Hdays.
  assert (Hx : (0 < inject_Z days_until_due / 30)%Q).
  { apply Qlt_shift_div_l; [lra|]. rewrite Qmult_0_l.
    change 0%Q with (inject_Z 0). rewrite <- Zlt_Qlt. exact Hdays. }
  assert (Ht : (0 <= 1 - qmin 1.0 (inject_Z days_until_due / 30) <= 1)%Q).
  { destruct (qmin_cases 1.0 (inject_Z days_until_due / 30)) as [[? ->]|[? ->]]; lra. }
  assert (Hacc : (1 <= acceleration <= 1.4)%Q).
  { unfold acceleration. nra. }
  assert (Hinv : (acceleration * / acceleration == 1)%Q).
  { apply Qmult_inv_r. lra. }
  unfold Qdiv. nra.
Qed.

Lemma timedelta_scale_range (td : timedelta) (raw : Q) :
  0 <= td -> 0 <= timedelta_scale td (random raw) <= td.
Proof.
  intros Htd. pose proof (random_range raw) as Hu.
  assert (Hq : (0 <= inject_Z td)%Q).
  { change 0%Q with (inject_Z 0). rewrite <- Zle_Qle. exact Htd. }
  unfold timedelta_scale. split.
  - apply round_half_even_lower. change (inject_Z 0) with 0%Q. nra.
  - apply round_half_even_upper. nra.
Qed.

Lemma completion_timestamp_date (holiday_calendar : Z -> bool) (dr : lifecycle_draws)
  (created_at : datetime) (due_date : option datetime) (department project_type : string)
  (c : datetime) :
  _generate_completion_timestamp holiday_calendar dr created_at due_date
    department project_type = Ok c ->
  exists raw : datetime,
    date c = date raw /\
    created_at + timedelta_minutes 5 <= raw /\
    (forall d, due_date = Some d -> created_at + us_per_hour < d -> raw <= d).
Proof.
  unfold _generate_completion_timestamp. cbv zeta.
  match goal with
  | |- (if is_business_day _ (date ?r) then _ else _) = _ -> _ => set (raw := r)
  end.
  intros H. exists raw. split; [|].
  - destruct (is_business_day holiday_calendar (date raw)).
    + eapply work_hours_date; eassumption.
    + injection H as <-.
      pose proof (hour_range raw).
      apply date_replace_hms;
        [lia | exact (randint_range 0 59 _ ltac:(lia)) | exact (randint_range 0 59 _ ltac:(lia))].
  - clear H.
    destruct (duration_at_least_five_minutes (base_hours_draw dr) department project_type
                (match due_date with Some d => td_days (d - created_at) | None => 0 end))
      as [Hplain Haccel].
    cbv zeta in Hplain, Haccel.
    destruct due_date as [due|].
    + set (raw0 := created_at + timedelta_hours _) in raw.
      assert (H0 : created_at + timedelta_minutes 5 <= raw0).
      { unfold raw0. apply Z.add_le_mono_l. apply five_minutes_of_hours.
        destruct (0 <? td_days (due - created_at)) eqn:E.
        - apply Haccel. apply Z.ltb_lt. exact E.
        - exact Hplain. }
      subst raw.
      destruct (due <? raw0) eqn:Elate.
      * set (min_c := Z.max (created_at + us_per_hour) (due - timedelta_days 3)).
        destruct (min_c <? due) eqn:Emin.
        -- apply Z.ltb_lt in Emin.
           pose proof (timedelta_scale_range (due - min_c) (reanchor_draw dr) ltac:(lia)) as Hs.
           assert (created_at + us_per_hour <= min_c) by (unfold min_c; lia).
           split.
           ++ unfold timedelta_minutes, us_per_hour, us_per_minute, us_per_second in *. lia.
           ++ intros d Hd _. injection Hd as <-. lia.
        -- apply Z.ltb_ge in Emin. split; [exact H0|].
           intros d Hd Hgap. injection Hd as <-.
           assert (min_c < due); [|lia].
           unfold min_c, timedelta_days, us_per_day, us_per_second. lia.
      * apply Z.ltb_ge in Elate. split; [exact H0|].
        intros d Hd _. injection Hd as <-. exact Elate.
    + subst raw. split.
      * apply Z.add_le_mono_l. apply five_minutes_of_hours. exact Hplain.
      * intros d Hd. discriminate.
Qed.

Lemma started_timestamp_date (holiday_calendar : Z -> bool) (dr : lifecycle_draws)
  (created_at completed_at : datetime) (department project_type : string) :
  exists s0 : datetime,
    date (_generate_started_timestamp holiday_calendar dr created_at completed_at
            department project_type) = date s0 /\
    created_at + timedelta_minutes 5 <= s0 /\
    s0 <= Z.max (completed_at - timedelta_minutes 30) (created_at + timedelta_minutes 5).
Proof.
  unfold _generate_started_timestamp. cbv zeta.
  match goal with
  | |- exists _, date (if is_business_day _ (date ?r) then _ else _) = _ /\ _ => set (s0 := r)
  end.
  exists s0. split; [|].
  - destruct (is_business_day holiday_calendar (date s0)); [|reflexivity].
    pose proof (hour_range s0).
    apply date_replace_hms;
      [unfold work_start_hour, work_end_hour; lia
      | exact (randint_range 0 59 _ ltac:(lia)) | exact (randint_range 0 59 _ ltac:(lia))].
  - subst s0.
    repeat match goal with
           | |- context [?a <? ?b] => destruct (Z.ltb_spec a b)
           end; lia.
Qed.

(** What the redraw of the time of day leaves standing.  A returned record
    with [completed_at] set has [started_at] set; the calendar dates are in
    order, created, started, completed; [cycle_time_days] and
    [lead_time_days] are the differences completed minus started and
    completed minus created in days; and when the due date is more than an
    hour after creation, the completion date is not after the due date's. *)
Lemma lifecycle_dates_and_metrics (holiday_calendar : Z -> bool) (dr : lifecycle_draws)
  (created : datetime) (due_date : option datetime) (department project_type : string)
  (r : lifecycle) (c : datetime) :
  generate_task_lifecycle holiday_calendar dr created due_date department project_type = Ok r ->
  completed_at r = Some c ->
  exists s : datetime,
    started_at r = Some s /\
    created_at r = created /\
    date created <= date s <= date c /\
    (exists ct, cycle_time_days r = Some ct /\
                (ct == inject_Z (c - s) / inject_Z us_per_day)%Q) /\
    (exists lt, lead_time_days r = Some lt /\
                (lt == inject_Z (c - created) / inject_Z us_per_day)%Q) /\
    (forall d, due_date = Some d -> created + us_per_hour < d -> date c <= date d).
Proof.
  unfold generate_task_lifecycle. cbv zeta.
  destruct (qlt _ _); [|intros H; injection H as <-; discriminate].
  destruct (_generate_completion_timestamp _ _ _ _ _ _) as [c0|] eqn:Ec; [|discriminate].
  cbn [bind]. intros H Hc. injection H as <-. cbn in Hc. injection Hc as ->.
  destruct (completion_timestamp_date _ _ _ _ _ _ _ Ec) as (raw & Hraw & Hlo & Hdue).
  destruct (started_timestamp_date holiday_calendar dr created c department project_type)
    as (s0 & Hs & Hs_lo & Hs_hi).
  eexists. split; [reflexivity|]. split; [reflexivity|].
  split; [|split; [|split]].
  - rewrite Hs, Hraw. split.
    + apply date_mono. unfold timedelta_minutes, us_per_minute, us_per_second in *. lia.
    + destruct (Z.max_spec (c - timedelta_minutes 30) (created + timedelta_minutes 5))
        as [[_ E]|[_ E]]; rewrite E in Hs_hi.
      * apply date_mono. lia.
      * rewrite <- Hraw. apply date_mono.
        unfold timedelta_minutes, us_per_minute, us_per_second in *. lia.
  - eexists. split; [reflexivity|]. unfold total_seconds.
    change (inject_Z us_per_day) with (86400000000 # 1)%Q.
    change (inject_Z us_per_second) with (1000000 # 1)%Q. field.
  - eexists. split; [reflexivity|]. unfold total_seconds.
    change (inject_Z us_per_day) with (86400000000 # 1)%Q.
    change (inject_Z us_per_second) with (1000000 # 1)%Q. field.
  - intros d Hd Hgap. rewrite Hraw. apply date_mono. apply (Hdue d Hd Hgap).
Qed.

Lemma lifecycle_dates_and_metrics_witness :
  let created := at_time (ymd 2026 1 2) 9 30 0 in
  let due := at_time (ymd 2026 1 15) 17 0 0 in
  exists r s c,
    generate_task_lifecycle new_year_2026 afternoon_draws created (Some due)
      "engineering" "sprint" = Ok r /\
    started_at r = Some s /\ completed_at r = Some c /\
    date created <= date s <= date c /\ date c <= date due.
Proof.
  intros created due.
  pose (c := at_time (ymd 2026 1 2) 14 20 30).
  pose (r := {| created_at := created;
                started_at := Some (at_time (ymd 2026 1 2) 10 12 5);
                completed_at := Some c;
                cycle_time_days := Some (14905000000 # 86400000000)%Q;
                lead_time_days := Some (17430000000 # 86400000000)%Q |}).
  assert (Hrun : generate_task_lifecycle new_year_2026 afternoon_draws created (Some due)
                   "engineering" "sprint" = Ok r) by (vm_compute; reflexivity).
  destruct (lifecycle_dates_and_metrics _ _ _ _ _ _ r c Hrun eq_refl)
    as (s & Hs & _ & Hdates & _ & _ & Hdue).
  exists r, s, c. repeat split; try assumption; try apply Hdates.
  apply (Hdue due eq_refl). reflexivity.
Defined.

(** C1, on the code.  Both timestamps are first put in order
    ("Ensure completion is after creation", "Ensure start timestamp is before
    completion", "sometime between created and completed") and then have
    their time of day replaced, on the same date.  For a task created on
    Friday 2026-01-02 at 17:30 whose completion lands on the same day, the
    completion hour is drawn anew, here 9 o'clock, and the start is set to
    17:00:00: the record returned has completed before started and started
    before created, and a negative cycle time and lead time. *)
Theorem lifecycle_order_fails :
  let created := at_time (ymd 2026 1 2) 17 30 0 in
  generate_task_lifecycle new_year_2026 early_completion_draws created None
    "engineering" "sprint"
  = Ok {| created_at := created;
          started_at := Some (at_time (ymd 2026 1 2) 17 0 0);
          completed_at := Some (at_time (ymd 2026 1 2) 9 0 0);
          cycle_time_days := Some (-28800000000 # 86400000000)%Q;
          lead_time_days := Some (-30600000000 # 86400000000)%Q |} /\
  at_time (ymd 2026 1 2) 17 0 0 < created /\
  at_time (ymd 2026 1 2) 9 0 0 < at_time (ymd 2026 1 2) 17 0 0.
Proof.
  repeat split.
Qed.


(** ** Custom fields: resolution of a field's distribution *)

Import CustomFields Reference.

Lemma find_first {A : Type} (f : A -> bool) (l : list A) :
  match find f l with
  | Some x => exists before after,
      l = before ++ x :: after /\ f x = true /\ Forall (fun y => f y = false) before
  | None => Forall (fun y => f y = false) l
  end.
Proof.
  induction l as [|a l IH]; simpl.
  - constructor.
  - destruct (f a) eqn:E.
    + exists [], l. repeat split; [exact E | constructor].
    + destruct (find f l) as [x|].
      * destruct IH as (before & after & -> & Hx & Hb).
        exists (a :: before), after. repeat split; [exact Hx | constructor; assumption].
      * constructor; assumption.
Qed.

Lemma lookup_pattern_resolved {A : Type} (d : list (string * A)) (field_name : string)
  (fallback : A) :
  resolved d field_name fallback (lookup_pattern d field_name fallback).
Proof.
  unfold lookup_pattern.
  destruct (dict_find d field_name) as [p|] eqn:E.
  - apply resolved_exact. exact E.
  - pose proof (find_first (fun entry : string * A => contains (fst entry) field_name) d) as H.
    destruct (find _ d) as [[c p]|].
    + destruct H as (before & after & Hd & Hc & Hb).
      eapply resolved_substring; eauto.
    + apply resolved_default; assumption.
Qed.

Lemma lookup_pattern_exact {A : Type} (d : list (string * A)) (field_name : string)
  (fallback p : A) :
  dict_find d field_name = Some p -> lookup_pattern d field_name fallback = p.
Proof. intros H. unfold lookup_pattern. rewrite H. reflexivity. Qed.

(** C4.  For the five field types the resolution returns a distribution,
    whatever the table, department and field name; for enum, number, date and
    boolean it is the exact entry, else the first entry whose key occurs in
    the field name, else the default of the field type; for text it is the
    department's list, or the default list; and a field named "bug_priority"
    resolves to the exact "bug_priority" entry when a "priority" entry exists
    as well. *)
Theorem resolution_prefers_exact_and_never_fails :
  (forall table fd department project_type,
     In (field_type fd) ["enum"; "number"; "date"; "boolean"; "text"]%string ->
     _get_field_value_distribution table fd department project_type <> None) /\
  (forall table fd department project_type,
     let field_name := lower (name fd) in
     (field_type fd = "enum"%string ->
      exists p, _get_field_value_distribution table fd department project_type = Some (DEnum p)
                /\ resolved (dict_get (enum_patterns table) department []) field_name
                     generic_enum p) /\
     (field_type fd = "number"%string ->
      exists p, _get_field_value_distribution table fd department project_type = Some (DNumber p)
                /\ resolved (dict_get (number_patterns table) department []) field_name
                     generic_number p) /\
     (field_type fd = "date"%string ->
      exists p, _get_field_value_distribution table fd department project_type = Some (DDate p)
                /\ resolved (dict_get (date_patterns table) department []) field_name
                     generic_date p) /\
     (field_type fd = "boolean"%string ->
      exists p, _get_field_value_distribution table fd department project_type = Some (DBoolean p)
                /\ resolved (dict_get (boolean_patterns table) department []) field_name
                     generic_boolean p) /\
     (field_type fd = "text"%string ->
      exists l, _get_field_value_distribution table fd department project_type = Some (DText l)
                /\ l <> []
                /\ (dict_get (text_patterns table) department [] <> [] ->
                    l = dict_get (text_patterns table) department []))) /\
  (forall table fd department project_type,
     lower (name fd) = "bug_priority"%string ->
     (forall exact sub,
        field_type fd = "enum"%string ->
        dict_find (dict_get (enum_patterns table) department []) "bug_priority" = Some exact ->
        dict_find (dict_get (enum_patterns table) department []) "priority" = Some sub ->
        _get_field_value_distribution table fd department project_type = Some (DEnum exact)) /\
     (forall exact sub,
        field_type fd = "number"%string ->
        dict_find (dict_get (number_patterns table) department []) "bug_priority" = Some exact ->
        dict_find (dict_get (number_patterns table) department []) "priority" = Some sub ->
        _get_field_value_distribution table fd department project_type = Some (DNumber exact)) /\
     (forall exact sub,
        field_type fd = "date"%string ->
        dict_find (dict_get (date_patterns table) department []) "bug_priority" = Some exact ->
        dict_find (dict_get (date_patterns table) department []) "priority" = Some sub ->
        _get_field_value_distribution table fd department project_type = Some (DDate exact)) /\
     (forall exact sub,
        field_type fd = "boolean"%string ->
        dict_find (dict_get (boolean_patterns table) department []) "bug_priority" = Some exact ->
        dict_find (dict_get (boolean_patterns table) department []) "priority" = Some sub ->
        _get_field_value_distribution table fd department project_type = Some (DBoolean exact))).
Proof.
  split; [|split].
  - intros table fd department project_type Hin.
    unfold _get_field_value_distribution.
    simpl in Hin.
    destruct Hin as [<-|[<-|[<-|[<-|[<-|[]]]]]]; simpl; try discriminate.
    destruct (dict_get (text_patterns table) department []); discriminate.
  - intros table fd department project_type field_name.
    unfold _get_field_value_distribution. fold field_name.
    repeat split; intros ->; simpl.
    + eexists. split; [reflexivity | apply lookup_pattern_resolved].
    + eexists. split; [reflexivity | apply lookup_pattern_resolved].
    + eexists. split; [reflexivity | apply lookup_pattern_resolved].
    + eexists. split; [reflexivity | apply lookup_pattern_resolved].
    + destruct (dict_get (text_patterns table) department []) as [|v vs] eqn:E.
      * eexists. split; [reflexivity|]. split; [discriminate | intros H; contradiction].
      * eexists. split; [reflexivity|]. split; [discriminate | reflexivity].
  - intros table fd department project_type Hname.
    unfold _get_field_value_distribution. rewrite Hname.
    repeat split; intros exact sub -> Hexact _; simpl;
      rewrite (lookup_pattern_exact _ _ _ _ Hexact); reflexivity.
Qed.

Lemma resolution_prefers_exact_and_never_fails_witness :
  _get_field_value_distribution two_entry_table bug_priority_field
    "engineering" "bug_tracking" = Some (DNumber bug_priority_pattern) /\
  bug_priority_pattern <> priority_pattern.
Proof.
  split.
  - destruct resolution_prefers_exact_and_never_fails as (_ & _ & Hexact).
    destruct (Hexact two_entry_table bug_priority_field "engineering"%string
                "bug_tracking"%string eq_refl) as (_ & Hnumber & _).
    apply (Hnumber bug_priority_pattern priority_pattern); reflexivity.
  - discriminate.
Defined.

(** ** Custom fields: numeric values *)

Lemma uniform_range (a b raw : Q) : (a <= b -> a <= uniform a b raw <= b)%Q.
Proof.
  intros H. unfold uniform. pose proof (random_range raw). nra.
Qed.

Lemma clamp_range (lo hi x : Q) : (lo <= hi -> lo <= qmax lo (qmin hi x) <= hi)%Q.
Proof. intros. min_max_cases; lra. Qed.

Lemma clamp_below (lo hi x : Q) : (lo <= hi -> x <= lo -> qmax lo (qmin hi x) == lo)%Q.
Proof. intros. min_max_cases; lra. Qed.

Lemma clamp_above (lo hi x : Q) : (lo <= hi -> hi <= x -> qmax lo (qmin hi x) == hi)%Q.
Proof. intros. min_max_cases; lra. Qed.

Lemma round_half_even_between (a b : Z) (q : Q) :
  (inject_Z a <= q <= inject_Z b)%Q -> a <= round_half_even q <= b.
Proof.
  intros [H1 H2]. split; [apply round_half_even_lower | apply round_half_even_upper]; assumption.
Qed.

Lemma round_1_between (a b : Z) (q : Q) :
  (inject_Z a / 10 <= q <= inject_Z b / 10)%Q ->
  (inject_Z a / 10 <= round_1 q <= inject_Z b / 10)%Q.
Proof.
  intros H. unfold round_1. unfold Qdiv in *.
  change (/ 10)%Q with (1 # 10)%Q in *.
  assert (Hq : (inject_Z a <= q * 10 <= inject_Z b)%Q) by (split; lra).
  apply round_half_even_between in Hq.
  destruct Hq as [Ha Hb]. rewrite Zle_Qle in Ha, Hb.
  split; lra.
Qed.

Lemma integer_of_den_1 (q : Q) : Qden (Qred q) = 1%positive -> (q == inject_Z (Qnum (Qred q)))%Q.
Proof.
  intros H. rewrite <- (Qred_correct q) at 1.
  destruct (Qred q) as [n d]. simpl in *. subst d. reflexivity.
Qed.

Lemma int_range_bounds (lo hi : Q) (values : list Z) (v : Z) :
  int_range lo hi = Ok values -> In v values -> (lo <= inject_Z v <= hi)%Q.
Proof.
  unfold int_range.
  destruct (Pos.eqb (Qden (Qred lo)) 1) eqn:El; [|discriminate].
  destruct (Pos.eqb (Qden (Qred hi)) 1) eqn:Eh; [|discriminate].
  simpl. intros H Hin. injection H as <-.
  apply Pos.eqb_eq in El, Eh.
  rewrite (integer_of_den_1 lo El), (integer_of_den_1 hi Eh).
  apply in_map_iff in Hin. destruct Hin as (i & <- & Hi). apply in_seq in Hi.
  rewrite <- !Zle_Qle. lia.
Qed.

(** C3, as the code has it.  A number drawn for the uniform or unspecified
    kind is a uniform draw over [[min, max]] and lies within it; so does the
    value of the weighted-list kind, of the lognormal kind when the bounds are
    integers, and of the normal kind when the upper bound is at most 100 and
    the bounds are multiples of one tenth; a kind name that is none of
    uniform, normal and lognormal gives an integer between 1 and 100,
    whatever [min] and [max] are. *)
Theorem number_value_bounds (dr : field_draws) (p : number_pattern) :
  let kind := get (np_distribution p) (KindName "uniform") in
  (kind = KindName "uniform" ->
   let lo := get (np_min p) 1%Q in
   let hi := get (np_max p) 100%Q in
   generate_number dr p = Ok (uniform lo hi (uniform_draw dr)) /\
   ((lo <= hi)%Q -> (lo <= uniform lo hi (uniform_draw dr) <= hi)%Q)) /\
  (forall weights v,
     kind = KindWeights weights -> generate_number dr p = Ok v ->
     (get (np_min p) 1 <= v <= get (np_max p) 10)%Q) /\
  (forall (a b : Z) v,
     kind = KindName "lognormal" -> generate_number dr p = Ok v ->
     (get (np_min p) 1 == inject_Z a)%Q -> (get (np_max p) 1000 == inject_Z b)%Q -> a <= b ->
     (get (np_min p) 1 <= v <= get (np_max p) 1000)%Q) /\
  (forall (a b : Z) v,
     kind = KindName "normal" -> generate_number dr p = Ok v ->
     (get (np_max p) 100 <= 100)%Q ->
     (get (np_min p) 0 == inject_Z a / 10)%Q -> (get (np_max p) 100 == inject_Z b / 10)%Q ->
     a <= b ->
     (get (np_min p) 0 <= v <= get (np_max p) 100)%Q) /\
  (forall name,
     kind = KindName name ->
     name <> "uniform"%string -> name <> "normal"%string -> name <> "lognormal"%string ->
     generate_number dr p = Ok (inject_Z (randint 1 100 (randint_draw dr))) /\
     1 <= randint 1 100 (randint_draw dr) <= 100).
Proof.
  intros kind. unfold generate_number. fold kind.
  split; [|split; [|split; [|split]]].
  - intros ->. simpl. split; [reflexivity | apply uniform_range].
  - intros weights v ->.
    destruct (int_range _ _) as [values|] eqn:Er; [|discriminate]. cbn [bind].
    destruct (choices values weights _) as [z|] eqn:Ec; [|discriminate]. cbn [bind].
    intros H. injection H as <-.
    eapply int_range_bounds; [eassumption | eapply choices_In; eassumption].
  - intros a b v -> H Ha Hb Hab. simpl in H.
    destruct (np_lognormal _ _ _) as [x|]; [|discriminate]. cbn [bind] in H.
    injection H as <-.
    set (lo := get (np_min p) 1%Q) in *. set (hi := get (np_max p) 1000%Q) in *.
    assert (Hle : (lo <= hi)%Q) by (rewrite Zle_Qle in Hab; lra).
    pose proof (clamp_range lo hi x Hle) as Hc.
    assert (Hc' : (inject_Z a <= qmax lo (qmin hi x) <= inject_Z b)%Q) by lra.
    apply round_half_even_between in Hc'.
    destruct Hc' as [H1 H2]. rewrite Zle_Qle in H1, H2. lra.
  - intros a b v -> H Hmax Ha Hb Hab. simpl in H.
    destruct (np_normal _ _ _) as [x|]; [|discriminate]. cbn [bind] in H.
    set (lo := get (np_min p) 0%Q) in *. set (hi := get (np_max p) 100%Q) in *.
    destruct (qlt_cases 1000 hi) as [[? E]|[? E]]; rewrite E in H; [lra|].
    destruct (qlt_cases 100 hi) as [[? E']|[? E']]; rewrite E' in H; [lra|].
    injection H as <-.
    assert (Hle : (lo <= hi)%Q).
    { rewrite Ha, Hb. unfold Qdiv. change (/ 10)%Q with (1 # 10)%Q.
      rewrite Zle_Qle in Hab. lra. }
    pose proof (clamp_range lo hi x Hle) as Hc.
    assert (Hc' : (inject_Z a / 10 <= qmax lo (qmin hi x) <= inject_Z b / 10)%Q) by lra.
    apply round_1_between in Hc'. lra.
  - intros name -> Hu Hn Hl. simpl.
    apply String.eqb_neq in Hu, Hn, Hl. rewrite Hu, Hn, Hl.
    split; [reflexivity | exact (randint_range 1 100 (randint_draw dr) ltac:(lia))].
Qed.


Lemma number_value_bounds_witness :
  exists v, generate_number high_draws ice_score_pattern = Ok v /\ (1 <= v <= 100)%Q.
Proof.
  exists 100.0%Q. split; [reflexivity|].
  destruct (number_value_bounds high_draws ice_score_pattern) as (_ & _ & _ & Hnormal & _).
  apply (Hnormal 10 1000 100.0%Q); try reflexivity; discriminate.
Defined.

(** C3, as stated, fails for an unknown kind: with bounds 200 and 300 the
    value is 42; and the normal kind with an upper bound above 100 rounds the
    clamped value to tens, so the "resource_hours" field of operations, bounds
    1 and 160, gets 0 from a draw of 3. *)
Lemma number_value_out_of_bounds :
  generate_number low_draws triangular_pattern = Ok 42%Q /\
  (42 < get (np_min triangular_pattern) 1)%Q /\
  _get_field_value_distribution field_value_patterns resource_hours_field
    "operations" "research" = Some (DNumber (named 1 160 "normal" 40 30)) /\
  _generate_field_value field_value_patterns low_draws resource_hours_field
    "operations" "research" 0 = Ok (VNumber 0) /\
  (0 < 1)%Q.
Proof.
  repeat split.
Qed.

(** ** Bounded sampling *)

Section CommentOffsets.

Variable cfg : Comments.timing_config.
Variable draws : nat -> Q.

Local Abbreviation attempt := (Reference.attempt cfg draws).
Local Abbreviation accepted := (Reference.accepted cfg draws).

Lemma offset_attempts_accept (n : nat) :
  forall i k : nat,
    (k < n)%nat -> accepted (i + k) = true ->
    (forall j, (j < k)%nat -> accepted (i + j) = false) ->
    Comments.offset_attempts n cfg draws i = attempt (i + k).
Proof.
  induction n as [|n IH]; intros i k Hk Hacc Hrej; [lia|].
  simpl. destruct k as [|k].
  - rewrite Nat.add_0_r in *. unfold Reference.accepted, Reference.attempt in Hacc. rewrite Hacc. reflexivity.
  - pose proof (Hrej 0%nat ltac:(lia)) as H0. rewrite Nat.add_0_r in H0.
    unfold Reference.accepted, Reference.attempt in H0. rewrite H0.
    replace (i + S k)%nat with (S i + k)%nat in * by lia.
    apply IH; [lia | exact Hacc |].
    intros j Hj. replace (S i + j)%nat with (i + S j)%nat by lia. apply Hrej. lia.
Qed.

Lemma offset_attempts_exhausted (n : nat) :
  forall i : nat,
    (forall j, (j < n)%nat -> accepted (i + j) = false) ->
    Comments.offset_attempts n cfg draws i = Comments.mean cfg.
Proof.
  induction n as [|n IH]; intros i Hrej; [reflexivity|].
  simpl. pose proof (Hrej 0%nat ltac:(lia)) as H0. rewrite Nat.add_0_r in H0.
  unfold Reference.accepted, Reference.attempt in H0. rewrite H0.
  apply IH. intros j Hj. replace (S i + j)%nat with (i + S j)%nat by lia. apply Hrej. lia.
Qed.

End CommentOffsets.

(** C2, as the code has it.  The comment-offset sampler returns the first of
    its ten attempts that passes the bound check, and the mean when all ten
    fail.  The normal and lognormal kinds of a number field draw once, clamp
    the draw to [[min, max]] and round the clamped value; nothing is retried.
    For the normal kind with an upper bound of at most 100 and bounds that
    are multiples of one tenth, and for the lognormal kind with integer
    bounds, the value returned for a draw outside the window is the boundary
    on its side. *)
Theorem bounded_sampling_policies :
  (forall (cfg : Comments.timing_config) (draws : nat -> Q),
     (forall k, (k < 10)%nat -> accepted cfg draws k = true ->
                (forall j, (j < k)%nat -> accepted cfg draws j = false) ->
                Comments.offset_hours cfg draws = attempt cfg draws k) /\
     ((forall j, (j < 10)%nat -> accepted cfg draws j = false) ->
      Comments.offset_hours cfg draws = Comments.mean cfg)) /\
  (forall (dr : field_draws) (p : number_pattern),
     np_distribution p = Some (KindName "normal") ->
     (0 <= get (np_std p) 15)%Q ->
     let lo := get (np_min p) 0%Q in
     let hi := get (np_max p) 100%Q in
     let draw := (get (np_mean p) 50 + get (np_std p) 15 * standard_normal_draw dr)%Q in
     let clamped := qmax lo (qmin hi draw) in
     generate_number dr p = Ok (rounded_for hi clamped) /\
     ((lo <= hi)%Q -> (draw <= lo)%Q -> (clamped == lo)%Q) /\
     ((lo <= hi)%Q -> (hi <= draw)%Q -> (clamped == hi)%Q) /\
     (forall a b : Z,
        (hi <= 100)%Q -> (lo == inject_Z a / 10)%Q -> (hi == inject_Z b / 10)%Q -> a <= b ->
        exists v, generate_number dr p = Ok v /\
                  ((draw <= lo)%Q -> (v == lo)%Q) /\
                  ((hi <= draw)%Q -> (v == hi)%Q))) /\
  (forall (dr : field_draws) (p : number_pattern),
     np_distribution p = Some (KindName "lognormal") ->
     (0 <= get (np_std p) 1.0)%Q ->
     let lo := get (np_min p) 1%Q in
     let hi := get (np_max p) 1000%Q in
     let draw := lognormal_draw dr in
     let clamped := qmax lo (qmin hi draw) in
     generate_number dr p = Ok (inject_Z (round_half_even clamped)) /\
     ((lo <= hi)%Q -> (draw <= lo)%Q -> (clamped == lo)%Q) /\
     ((lo <= hi)%Q -> (hi <= draw)%Q -> (clamped == hi)%Q) /\
     (forall a b : Z,
        (lo == inject_Z a)%Q -> (hi == inject_Z b)%Q -> a <= b ->
        exists v, generate_number dr p = Ok v /\
                  ((draw <= lo)%Q -> (v == lo)%Q) /\
                  ((hi <= draw)%Q -> (v == hi)%Q))).
Proof.
  split; [|split].
  - intros cfg draws. split.
    + intros k Hk Hacc Hrej. unfold Comments.offset_hours.
      apply (offset_attempts_accept cfg draws 10 0 k Hk Hacc Hrej).
    + intros Hrej. unfold Comments.offset_hours.
      apply (offset_attempts_exhausted cfg draws 10 0 Hrej).
  - intros dr p Hkind Hstd lo hi draw clamped.
    assert (Hrun : generate_number dr p = Ok (rounded_for hi clamped)).
    { unfold generate_number. rewrite Hkind. simpl.
      unfold np_normal.
      destruct (qlt_cases (get (np_std p) 15%Q) 0%Q) as [[? E]|[? E]]; [lra|]. rewrite E.
      cbn [bind]. unfold rounded_for. fold lo hi draw. fold clamped.
      destruct (qlt 1000 hi); [reflexivity|]. destruct (qlt 100 hi); reflexivity. }
    split; [exact Hrun|]. split; [apply clamp_below|]. split; [apply clamp_above|].
    intros a b Hmax Ha Hb Hab.
    assert (Hle : (lo <= hi)%Q).
    { rewrite Ha, Hb. unfold Qdiv. change (/ 10)%Q with (1 # 10)%Q.
      rewrite Zle_Qle in Hab. lra. }
    exists (rounded_for hi clamped). split; [exact Hrun|].
    unfold rounded_for.
    destruct (qlt_cases 1000 hi) as [[? ->]|[_ ->]]; [lra|].
    destruct (qlt_cases 100 hi) as [[? ->]|[_ ->]]; [lra|].
    split.
    + intros Hdraw. pose proof (clamp_below lo hi draw Hle Hdraw) as Hc. fold clamped in Hc.
      assert (Hc' : (inject_Z a / 10 <= clamped <= inject_Z a / 10)%Q) by (split; lra).
      apply round_1_between in Hc'. lra.
    + intros Hdraw. pose proof (clamp_above lo hi draw Hle Hdraw) as Hc. fold clamped in Hc.
      assert (Hc' : (inject_Z b / 10 <= clamped <= inject_Z b / 10)%Q) by (split; lra).
      apply round_1_between in Hc'. lra.
  - intros dr p Hkind Hstd lo hi draw clamped.
    assert (Hrun : generate_number dr p = Ok (inject_Z (round_half_even clamped))).
    { unfold generate_number. rewrite Hkind. simpl.
      unfold np_lognormal.
      destruct (qlt_cases (get (np_std p) 1.0%Q) 0%Q) as [[? E]|[? E]]; [lra|]. rewrite E.
      reflexivity. }
    split; [exact Hrun|]. split; [apply clamp_below|]. split; [apply clamp_above|].
    intros a b Ha Hb Hab.
    assert (Hle : (lo <= hi)%Q) by (rewrite Zle_Qle in Hab; lra).
    exists (inject_Z (round_half_even clamped)). split; [exact Hrun|].
    split.
    + intros Hdraw. pose proof (clamp_below lo hi draw Hle Hdraw) as Hc. fold clamped in Hc.
      assert (Hc' : (inject_Z a <= clamped <= inject_Z a)%Q) by (split; lra).
      apply round_half_even_between in Hc'.
      replace (round_half_even clamped) with a by lia. lra.
    + intros Hdraw. pose proof (clamp_above lo hi draw Hle Hdraw) as Hc. fold clamped in Hc.
      assert (Hc' : (inject_Z b <= clamped <= inject_Z b)%Q) by (split; lra).
      apply round_half_even_between in Hc'.
      replace (round_half_even clamped) with b by lia. lra.
Qed.

Lemma bounded_sampling_policies_witness :
  Comments.offset_hours first_comment far_draws = 4.5%Q /\
  generate_number centre_draws off_centre_pattern = Ok (rounded_for 70 60) /\
  exists v, generate_number centre_draws off_centre_pattern = Ok v /\ (v == 60)%Q.
Proof.
  destruct bounded_sampling_policies as (Hcomments & Hnormal & _).
  split; [|split].
  - apply (proj2 (Hcomments first_comment far_draws)). intros j _. reflexivity.
  - apply (Hnormal centre_draws off_centre_pattern); [reflexivity | discriminate].
  - destruct (Hnormal centre_draws off_centre_pattern eq_refl ltac:(discriminate))
      as (_ & _ & _ & Hbound).
    destruct (Hbound 600 700 ltac:(discriminate) ltac:(reflexivity) ltac:(reflexivity)
                ltac:(lia)) as (v & Hv & Hlow & _).
    exists v. split; [exact Hv|]. apply Hlow. discriminate.
Defined.

(** C2, as stated, fails for a number field: with mean 50, standard
    deviation 1 and the window from 60 to 70, a draw at the mean is not
    retried and the value is the lower bound 60, not the mean. *)
Lemma clamped_not_mean :
  np_mean off_centre_pattern = Some 50%Q /\
  generate_number centre_draws off_centre_pattern = Ok 60.0%Q /\
  ~ (60.0 == 50)%Q.
Proof.
  repeat split. discriminate.
Qed.

(** ** Validation: divergence, sample size, verdict *)

Import Validation.

Local Open Scope R_scope.

Lemma kl_term_zero (x : R) : x * ln (x / x) = 0.
Proof.
  destruct (Req_dec x 0) as [->|Hx].
  - apply Rmult_0_l.
  - unfold Rdiv. rewrite Rinv_r by exact Hx. rewrite ln_1. apply Rmult_0_r.
Qed.

Lemma fold_left_zero_terms (term : string -> R) (l : list string) :
  forall acc : R,
    (forall b, In b l -> term b = 0) ->
    fold_left (fun kl_div bucket => kl_div + term bucket) l acc = acc.
Proof.
  induction l as [|b l IH]; intros acc H; simpl.
  - reflexivity.
  - rewrite IH by (intros b' Hb'; apply H; right; exact Hb').
    rewrite (H b) by (left; reflexivity). lra.
Qed.

Lemma kl_of_equal_maps (dist1 dist2 : list (string * R)) :
  (forall bucket, dict_get dist1 bucket 0 = dict_get dist2 bucket 0) ->
  _calculate_kl_divergence dist1 dist2 = 0.
Proof.
  intros Hsame. unfold _calculate_kl_divergence. cbv zeta.
  set (all_buckets := all_buckets_of dist1 dist2).
  assert (Hs : map (fun bucket => (bucket, dict_get dist2 bucket 0 + epsilon)) all_buckets
               = map (fun bucket => (bucket, dict_get dist1 bucket 0 + epsilon)) all_buckets).
  { apply map_ext. intros b. rewrite Hsame. reflexivity. }
  rewrite Hs.
  apply (fold_left_zero_terms (fun bucket => _ * ln (_ / _))).
  intros b _. apply kl_term_zero.
Qed.

Lemma ln_lower (z : R) : 0 < z -> 1 - / z <= ln z.
Proof.
  intros Hz. pose proof (exp_ineq1_le (ln (/ z))) as H.
  rewrite exp_ln in H by (apply Rinv_0_lt_compat; exact Hz).
  rewrite ln_Rinv in H by exact Hz. lra.
Qed.

Lemma ln_at_least_1 (z : R) : 3 <= z -> 1 <= ln z.
Proof.
  intros Hz. pose proof exp_le_3 as H3.
  destruct (Rle_lt_or_eq_dec _ _ (Rle_trans _ _ _ H3 Hz)) as [Hlt|Heq].
  - apply Rlt_le. rewrite <- (ln_exp 1) at 1. apply ln_increasing; [apply exp_pos | exact Hlt].
  - rewrite <- Heq. rewrite ln_exp. lra.
Qed.

Lemma lone_segment_divergence :
  _calculate_kl_divergence [("0-1_days"%string, INR 1 / INR 1)]
    (dict_get due_date_distributions "sprint_tasks" []) > 0.05.
Proof.
  cbn. unfold epsilon.
  match goal with
  | |- 0 + ?c1 * ln ?a1 + ?c2 * ln ?a2 + ?c3 * ln ?a3 + ?c4 * ln ?a4 + ?c5 * ln ?a5 > _ =>
      pose proof (ln_at_least_1 a1 ltac:(lra)) as H1;
      pose proof (ln_lower a2 ltac:(lra)) as H2;
      pose proof (ln_lower a3 ltac:(lra)) as H3;
      pose proof (ln_lower a4 ltac:(lra)) as H4;
      pose proof (ln_lower a5 ltac:(lra)) as H5;
      generalize dependent (ln a1); generalize dependent (ln a2);
      generalize dependent (ln a3); generalize dependent (ln a4);
      generalize dependent (ln a5)
  end.
  intros. lra.
Qed.

(** C7.  When the observed and the benchmark distribution give every bucket
    the same probability, the divergence computed after smoothing with
    [epsilon] and renormalising is 0, and with a threshold that is not
    negative the segment's status is [success]. *)
Theorem identical_distributions_pass :
  (forall dist1 dist2 : list (string * R),
     (forall bucket, dict_get dist1 bucket 0 = dict_get dist2 bucket 0) ->
     _calculate_kl_divergence dist1 dist2 = 0) /\
  (forall (v : validator) (key : segment) (bucket_counts : list (string * nat)),
     0 <= distribution_similarity_threshold v ->
     (forall bucket,
        dict_get (observed_of bucket_counts) bucket 0 = dict_get (benchmark_for key) bucket 0) ->
     exists r, validate_segment v key bucket_counts = Some r /\
               ddr_kl_divergence r = 0 /\ ddr_status r = success).
Proof.
  split; [exact kl_of_equal_maps|].
  intros v key bucket_counts Hthr Hsame.
  pose proof (kl_of_equal_maps _ _ Hsame) as Hkl.
  unfold validate_segment, benchmark_for, observed_of in *. cbv zeta.
  destruct (contains "sprint" (lower (snd key))).
  - cbn [dict_get due_date_distributions String.eqb Ascii.eqb Bool.eqb] in *.
    eexists. split; [reflexivity|]. cbn [ddr_kl_divergence ddr_status].
    split; [exact Hkl|]. rewrite Hkl.
    destruct (Rle_dec 0 (distribution_similarity_threshold v)); [reflexivity | contradiction].
  - cbn [dict_get due_date_distributions String.eqb Ascii.eqb Bool.eqb] in *.
    eexists. split; [reflexivity|]. cbn [ddr_kl_divergence ddr_status].
    split; [exact Hkl|]. rewrite Hkl.
    destruct (Rle_dec 0 (distribution_similarity_threshold v)); [reflexivity | contradiction].
Qed.

Lemma benchmark_counts_match (bucket : string) :
  dict_get (observed_of benchmark_counts) bucket 0
  = dict_get (benchmark_for ("engineering"%string, "sprint"%string)) bucket 0.
Proof.
  change (benchmark_for ("engineering"%string, "sprint"%string))
    with [ ("0-1_days"%string, 0.15); ("2-3_days"%string, 0.25); ("4-7_days"%string, 0.30);
           ("8-14_days"%string, 0.20); ("15+_days"%string, 0.10) ].
  change (observed_of benchmark_counts)
    with [ ("0-1_days"%string, INR 15 / INR 100); ("2-3_days"%string, INR 25 / INR 100);
           ("4-7_days"%string, INR 30 / INR 100); ("8-14_days"%string, INR 20 / INR 100);
           ("15+_days"%string, INR 10 / INR 100) ].
  cbn [dict_get].
  rewrite !INR_IZR_INZ.
  repeat match goal with
         | |- context [String.eqb bucket ?k] => destruct (String.eqb bucket k)
         end; try reflexivity; cbn [Z.of_nat Pos.of_succ_nat Pos.succ]; lra.
Qed.

Lemma identical_distributions_pass_witness :
  exists r, validate_segment default_validator ("engineering"%string, "sprint"%string)
              benchmark_counts = Some r /\
            ddr_kl_divergence r = 0 /\ ddr_status r = success.
Proof.
  apply (proj2 identical_distributions_pass).
  - unfold default_validator. cbn. lra.
  - exact benchmark_counts_match.
Defined.

(** The completion-rate query keeps the segments of at least ten tasks, so
    every completion-rate result has a sample of at least ten. *)
Lemma completion_rates_skip_small_segments (v : validator) (rows : list task_row)
  (r : completion_rate_result) :
  In r (completion_details (_validate_completion_rates v (completion_rates_query rows))) ->
  (10 <= crr_sample_size r)%nat.
Proof.
  intros Hin. unfold _validate_completion_rates in Hin. cbn [completion_details] in Hin.
  apply in_map_iff in Hin. destruct Hin as (row & <- & Hrow). cbn [crr_sample_size].
  unfold completion_rates_query in Hrow. apply filter_In in Hrow.
  destruct Hrow as [_ Hten]. apply Nat.leb_le in Hten. exact Hten.
Qed.

(** C8, on the code.  The due-date query has no minimum sample size: a
    segment of one task, due within a day, is evaluated against the sprint
    benchmark, its divergence exceeds the threshold 0.05, and it is reported
    with status [failure] and sample size 1.  The completion-rate query
    drops the same segment; with helpers that pass, the distribution
    category fails because of the due-date check alone. *)
Theorem small_segment_is_not_skipped :
  exists (r : due_date_result) (d : distribution_report),
    due_date_details
      (_validate_due_date_distributions default_validator (due_date_query [lone_row])) = [r] /\
    ddr_sample_size r = 1%nat /\
    ddr_status r = failure /\
    due_date_status
      (_validate_due_date_distributions default_validator (due_date_query [lone_row]))
    = failure /\
    completion_rates_query [lone_row] = [] /\
    _validate_distributions passes_rows passes_rows default_validator (Healthy [lone_row])
    = Ok d /\
    distribution_status d = failure /\
    distribution_failed d = ["due_date_distributions"%string].
Proof.
  assert (Hmain :
    exists r : due_date_result,
      due_date_details
        (_validate_due_date_distributions default_validator (due_date_query [lone_row])) = [r] /\
      ddr_sample_size r = 1%nat /\
      ddr_status r = failure /\
      due_date_status
        (_validate_due_date_distributions default_validator (due_date_query [lone_row]))
      = failure).
  2: { destruct Hmain as (r & H1 & H2 & H3 & H4).
       exists r. eexists. repeat (split; [eassumption|]).
       split; [reflexivity|].
       unfold _validate_distributions, passes_rows. cbn [bind].
       rewrite H4.
       change (completion_rates_query [lone_row]) with (@nil completion_rate_row).
       cbn. repeat split. }
  set (kl := _calculate_kl_divergence [("0-1_days"%string, INR 1 / INR 1)]
               (dict_get due_date_distributions "sprint_tasks" [])).
  assert (Hkl : kl > 0.05) by apply lone_segment_divergence.
  exists {| ddr_department := "engineering";
            ddr_project_type := "sprint";
            ddr_kl_divergence := kl;
            ddr_status := if Rle_dec kl 0.05 then success else failure;
            ddr_sample_size := 1 |}.
  assert (Hdetails :
            due_date_details
              (_validate_due_date_distributions default_validator (due_date_query [lone_row]))
            = [ {| ddr_department := "engineering";
                   ddr_project_type := "sprint";
                   ddr_kl_divergence := kl;
                   ddr_status := if Rle_dec kl 0.05 then success else failure;
                   ddr_sample_size := 1 |} ]) by reflexivity.
  split; [exact Hdetails|]. split; [reflexivity|].
  assert (Hstatus : (if Rle_dec kl 0.05 then success else failure) = failure).
  { destruct (Rle_dec kl 0.05) as [Hle|_]; [lra | reflexivity]. }
  split; [exact Hstatus|].
  unfold _validate_due_date_distributions in *. cbn [due_date_details due_date_status] in *.
  rewrite Hdetails. cbn [filter ddr_status]. rewrite Hstatus. reflexivity.
Qed.


Section Verdict.

Variable assignment day_of_week : list task_row -> result (option status).
Variable schema temporal referential business quality : connection -> status.

Local Abbreviation validate :=
  (validate_database_integrity assignment day_of_week schema temporal referential
     business quality).


End Verdict.


Local Close Scope R_scope.

(* ------------------------------------------------------------------ *)

(** * Further properties of the embedded code *)

Local Open Scope Z_scope.

(** ** Time of day *)

Lemma choices_ok {A : Type} (pop : list A) (w : list Q) (raw : nat) :
  List.length w = List.length pop -> qlt 0 (qsum w) = true -> pop <> [] ->
  exists a, choices pop w raw = Ok a /\ nth_error pop (raw mod List.length pop) = Some a.
Proof.
  intros Hlen Hsum Hne. unfold choices.
  rewrite Hlen, Nat.eqb_refl, Hsum. simpl.
  destruct (nth_error pop (raw mod List.length pop)) as [a|] eqn:E.
  - exists a. split; reflexivity.
  - apply nth_error_None in E.
    assert (List.length pop <> 0)%nat by (destruct pop; [contradiction | discriminate]).
    pose proof (Nat.mod_upper_bound raw (List.length pop) H). lia.
Qed.

Lemma nth_error_seq (start len i : nat) :
  (i < len)%nat -> nth_error (seq start len) i = Some (start + i)%nat.
Proof.
  revert start i. induction len as [|len IH]; intros start i Hi; [lia|].
  destruct i as [|i]; simpl.
  - f_equal. lia.
  - rewrite IH by lia. f_equal. lia.
Qed.

Lemma every_activity_has_24_hour_weights (activity_type : string) :
  let dist := dict_get time_distributions activity_type
                (dict_get time_distributions "task_creation"
                   {| weekday_weights := []; hour_weights := [] |}) in
  List.length (normalized_weights dist) = 24%nat /\
  qlt 0 (qsum (normalized_weights dist)) = true.
Proof.
  apply (dict_get_Forall
           (fun dist => List.length (normalized_weights dist) = 24%nat /\
                        qlt 0 (qsum (normalized_weights dist)) = true)).
  - unfold time_distributions. repeat constructor.
  - split; reflexivity.
Qed.

Lemma hour_mk_datetime (d h mi s us : Z) :
  0 <= h <= 23 -> 0 <= mi <= 59 -> 0 <= s <= 59 -> 0 <= us < us_per_second ->
  hour (mk_datetime d h mi s + us) = h.
Proof.
  intros Hh Hm Hs Hus.
  unfold hour, mk_datetime, us_per_day, us_per_hour, us_per_minute, us_per_second in *.
  assert (Hmod : (d * (86400 * 1000000) + h * (3600 * 1000000) + mi * (60 * 1000000)
                  + s * 1000000 + us) mod (86400 * 1000000)
                 = h * (3600 * 1000000) + mi * (60 * 1000000) + s * 1000000 + us).
  { symmetry. apply Z.mod_unique with (q := d); lia. }
  rewrite Hmod. symmetry.
  apply Z.div_unique with (r := mi * (60 * 1000000) + s * 1000000 + us); lia.
Qed.

Lemma microsecond_mk_datetime (d h mi s : Z) : microsecond (mk_datetime d h mi s) = 0.
Proof.
  unfold microsecond, mk_datetime, us_per_day, us_per_hour, us_per_minute, us_per_second.
  symmetry. apply Z.mod_unique with (q := d * 86400 + h * 3600 + mi * 60 + s); lia.
Qed.

(** [get_random_time_in_work_hours] up to the choice of the minute range:
    the hour is drawn, and the index of the range is the draw modulo 7. *)
Lemma work_hours_run (dr : work_hours_draws) (base_date : datetime) (activity_type : string) :
  exists h,
    0 <= h <= 23 /\
    get_random_time_in_work_hours dr base_date activity_type
    = (minute_range <- index minute_ranges (range_draw dr mod 7) ;;
       Ok (mk_datetime (date base_date) h
             (randint (fst minute_range) (snd minute_range - 1) (minute_draw dr))
             (randint 0 59 (second_draw dr)))).
Proof.
  pose proof (every_activity_has_24_hour_weights activity_type) as [Hlen Hsum].
  cbv zeta in Hlen, Hsum. unfold normalized_weights in Hlen, Hsum.
  unfold get_random_time_in_work_hours. cbv zeta.
  match type of Hlen with
  | List.length ?w = _ =>
      destruct (choices_ok (map Z.of_nat (seq 0 24)) w (hour_draw dr) Hlen Hsum
                  ltac:(discriminate)) as (h & Hh & Hnth)
  end.
  rewrite Hh. cbn [bind].
  apply nth_error_In in Hnth. apply in_map_iff in Hnth. destruct Hnth as (n & <- & Hn).
  apply in_seq in Hn.
  destruct (choices_ok (seq 0 (List.length minute_weights)) minute_weights (range_draw dr)
              eq_refl eq_refl ltac:(discriminate)) as (ri & Hri & Hnth).
  rewrite Hri. cbn [bind].
  assert (Hidx : ri = (range_draw dr mod 7)%nat).
  { change (List.length (seq 0 (List.length minute_weights))) with 7%nat in Hnth.
    change (List.length minute_weights) with 7%nat in Hnth.
    rewrite nth_error_seq in Hnth by (apply Nat.mod_upper_bound; discriminate).
    injection Hnth as <-. reflexivity. }
  subst ri. exists (Z.of_nat n). split; [lia | reflexivity].
Qed.

(** The minute ranges: five of them, each within the minutes of an hour. *)
Lemma minute_range_cases (i : nat) :
  ((i < 5)%nat ->
   exists lo hi, index minute_ranges i = Ok (lo, hi) /\ 0 <= lo <= hi - 1 /\ hi - 1 <= 59) /\
  ((5 <= i)%nat -> index minute_ranges i = Raise IndexError).
Proof.
  unfold index. split.
  - intros Hlt. destruct (nth_error minute_ranges i) as [[lo hi]|] eqn:E.
    + exists lo, hi. split; [reflexivity|].
      apply nth_error_In in E. unfold minute_ranges in E. simpl in E.
      repeat (destruct E as [E|E]; [injection E as <- <-; lia|]). contradiction.
    + apply nth_error_None in E. change (List.length minute_ranges) with 5%nat in E. lia.
  - intros Hge. destruct (nth_error minute_ranges i) as [p|] eqn:E; [|reflexivity].
    assert (i < List.length minute_ranges)%nat by (apply nth_error_Some; congruence).
    change (List.length minute_ranges) with 5%nat in H. lia.
Qed.

Lemma work_hours_ok (dr : work_hours_draws) (base_date : datetime) (activity_type : string)
  (t : datetime) :
  get_random_time_in_work_hours dr base_date activity_type = Ok t ->
  date t = date base_date /\ 0 <= hour t <= 23 /\ microsecond t = 0.
Proof.
  destruct (work_hours_run dr base_date activity_type) as (h & Hh & ->).
  destruct (minute_range_cases (range_draw dr mod 7)) as [Hok Hraise].
  destruct (Nat.lt_ge_cases (range_draw dr mod 7) 5) as [Hlt|Hge].
  - destruct (Hok Hlt) as (lo & hi & -> & Hr). cbn [bind fst snd].
    intros H. injection H as <-.
    pose proof (randint_range lo (hi - 1) (minute_draw dr) ltac:(lia)) as Hmin.
    pose proof (randint_range 0 59 (second_draw dr) ltac:(lia)) as Hsec.
    split; [|split].
    + rewrite <- (Z.add_0_r (mk_datetime _ _ _ _)).
      apply date_mk_datetime; first [exact Hsec | unfold us_per_second; lia].
    + rewrite <- (Z.add_0_r (mk_datetime _ _ _ _)).
      rewrite hour_mk_datetime; first [exact Hsec | unfold us_per_second; lia].
    + apply microsecond_mk_datetime.
  - rewrite (Hraise Hge). cbn [bind]. intros H. discriminate H.
Qed.

Lemma work_hours_raise (dr : work_hours_draws) (base_date : datetime)
  (activity_type : string) (e : exn) :
  get_random_time_in_work_hours dr base_date activity_type = Raise e ->
  e = IndexError /\ (5 <= range_draw dr mod 7)%nat.
Proof.
  destruct (work_hours_run dr base_date activity_type) as (h & Hh & ->).
  destruct (minute_range_cases (range_draw dr mod 7)) as [Hok Hraise].
  destruct (Nat.lt_ge_cases (range_draw dr mod 7) 5) as [Hlt|Hge].
  - destruct (Hok Hlt) as (lo & hi & -> & _). cbn [bind]. intros H. discriminate H.
  - rewrite (Hraise Hge). cbn [bind]. intros H. injection H as <-.
    split; [reflexivity | exact Hge].
Qed.

(** X1.  [get_random_time_in_work_hours]: the minute range is chosen among
    seven weights but only five ranges exist.  When the chosen index is below
    5 the call returns a timestamp on the date of [base_date], with a valid
    hour and no microseconds; when it is 5 or 6 the call raises
    [IndexError]. *)
Theorem work_hours_outcome (dr : work_hours_draws) (base_date : datetime)
  (activity_type : string) :
  ((range_draw dr mod 7 < 5)%nat ->
   exists t, get_random_time_in_work_hours dr base_date activity_type = Ok t /\
             date t = date base_date /\ 0 <= hour t <= 23 /\ microsecond t = 0) /\
  ((5 <= range_draw dr mod 7)%nat ->
   get_random_time_in_work_hours dr base_date activity_type = Raise IndexError).
Proof.
  split.
  - intros Hlt.
    destruct (get_random_time_in_work_hours dr base_date activity_type) as [t|e] eqn:E.
    + exists t. split; [reflexivity|].
      exact (work_hours_ok dr base_date activity_type t E).
    + apply work_hours_raise in E. destruct E as [_ Hge]. lia.
  - intros Hge.
    destruct (work_hours_run dr base_date activity_type) as (h & _ & ->).
    rewrite (proj2 (minute_range_cases (range_draw dr mod 7)) Hge). reflexivity.
Qed.

Lemma work_hours_outcome_witness :
  (exists t,
      get_random_time_in_work_hours
        {| hour_draw := 10; range_draw := 1; minute_draw := 7; second_draw := 30 |}
        (mk_datetime (ymd 2026 1 5) 8 0 0) "task_creation" = Ok t /\
      date t = date (mk_datetime (ymd 2026 1 5) 8 0 0) /\
      0 <= hour t <= 23 /\ microsecond t = 0) /\
  get_random_time_in_work_hours
    {| hour_draw := 10; range_draw := 5; minute_draw := 7; second_draw := 30 |}
    (mk_datetime (ymd 2026 1 5) 8 0 0) "task_creation" = Raise IndexError.
Proof.
  split.
  - apply (proj1 (work_hours_outcome
                    {| hour_draw := 10; range_draw := 1; minute_draw := 7; second_draw := 30 |}
                    (mk_datetime (ymd 2026 1 5) 8 0 0) "task_creation")).
    simpl. lia.
  - apply (proj2 (work_hours_outcome
                    {| hour_draw := 10; range_draw := 5; minute_draw := 7; second_draw := 30 |}
                    (mk_datetime (ymd 2026 1 5) 8 0 0) "task_creation")).
    simpl. lia.
Defined.

(** ** Business calendar, continued *)

Section MoreCalendarFacts.

Variable holiday_calendar : Z -> bool.

Local Abbreviation business t := (is_business_day holiday_calendar (date t)).
Local Abbreviation loop := (offset_loop holiday_calendar).
Local Abbreviation skip := (skip_to_business_day holiday_calendar).

Lemma skip_fuel_mono (fuel : nat) :
  forall (extra : nat) (step : timedelta) (c e : datetime),
    skip fuel step c = Some e -> skip (fuel + extra) step c = Some e.
Proof.
  induction fuel as [|fuel IH]; intros extra step c e H; simpl in H.
  - destruct (business c) eqn:B; [|discriminate].
    destruct extra; simpl; rewrite B; exact H.
  - simpl. destruct (business c); [exact H | apply IH; exact H].
Qed.

(** What the skipping loop returns is the first business day met. *)
Lemma skip_first (fuel : nat) :
  forall (s : Z) (c e : datetime),
    skip fuel (timedelta_days s) c = Some e ->
    exists k : nat,
      e = c + timedelta_days (s * Z.of_nat k) /\
      business e = true /\
      forall j : nat, (j < k)%nat ->
        is_business_day holiday_calendar (date c + s * Z.of_nat j) = false.
Proof.
  induction fuel as [|fuel IH]; intros s c e H; simpl in H;
    destruct (business c) eqn:B; try discriminate.
  - injection H as <-. exists 0%nat. repeat split.
    + unfold timedelta_days. lia.
    + exact B.
    + intros j Hj. lia.
  - injection H as <-. exists 0%nat. repeat split.
    + unfold timedelta_days. lia.
    + exact B.
    + intros j Hj. lia.
  - destruct (IH s _ e H) as (k & He & Hb & Hfirst).
    exists (S k). repeat split.
    + rewrite He. unfold timedelta_days. lia.
    + exact Hb.
    + intros j Hj. destruct j as [|j].
      * replace (date c + s * Z.of_nat 0) with (date c) by lia. exact B.
      * specialize (Hfirst j ltac:(lia)). rewrite date_add_days in Hfirst.
        replace (date c + s * Z.of_nat (S j)) with (date c + s + s * Z.of_nat j) by lia.
        exact Hfirst.
Qed.

(** One counted day of the offset loop is one run of the skipping loop. *)
Lemma loop_one_is_skip (fuel : nat) :
  forall (s : Z) (c r : datetime),
    loop (S fuel) s c 1 = Some r <-> skip fuel (timedelta_days s) (c + timedelta_days s) = Some r.
Proof.
  induction fuel as [|fuel IH]; intros s c r.
  - rewrite loop_step by lia. simpl.
    destruct (business (c + timedelta_days s)); simpl; split; intros H;
      try exact H; try discriminate.
  - rewrite loop_step by lia. simpl skip.
    destruct (business (c + timedelta_days s)) eqn:B.
    + rewrite loop_done by lia. reflexivity.
    + apply IH.
Qed.

Lemma loop_add (f1 : nat) :
  forall (f2 : nat) (s : Z) (c e r : datetime) (m n : Z),
    0 <= m -> 0 <= n ->
    loop f1 s c m = Some e -> loop f2 s e n = Some r ->
    loop (f1 + f2) s c (m + n) = Some r.
Proof.
  induction f1 as [|f1 IH]; intros f2 s c e r m n Hm Hn H1 H2.
  - destruct (Z_lt_le_dec 0 m) as [Hpos|Hzero].
    + simpl in H1. apply Z.ltb_lt in Hpos. rewrite Hpos in H1. discriminate.
    + rewrite loop_done in H1 by assumption. injection H1 as <-.
      replace (m + n) with n by lia. exact H2.
  - destruct (Z_lt_le_dec 0 m) as [Hpos|Hzero].
    + change (S f1 + f2)%nat with (S (f1 + f2)).
      rewrite loop_step in H1 by assumption. rewrite loop_step by lia.
      destruct (business (c + timedelta_days s)).
      * replace (m + n - 1) with (m - 1 + n) by lia. eapply IH; try eassumption; lia.
      * eapply IH; eassumption.
    + rewrite loop_done in H1 by assumption. injection H1 as <-.
      replace (m + n) with n by lia.
      rewrite Nat.add_comm. apply loop_fuel_mono. exact H2.
Qed.

(** The days counted by the loop: between the start and the result, the
    start excluded and the result included, lie exactly [r] business days. *)
Lemma loop_counts (fuel : nat) :
  forall (s : Z) (c e : datetime) (r : Z),
    0 <= r -> loop fuel s c r = Some e ->
    exists k : nat,
      e = c + timedelta_days (s * Z.of_nat k) /\
      Z.of_nat (List.length
                  (filter (fun j => is_business_day holiday_calendar (date c + s * Z.of_nat j))
                          (seq 1 k))) = r.
Proof.
  induction fuel as [|fuel IH]; intros s c e r Hr H.
  - destruct (Z_lt_le_dec 0 r) as [Hpos|Hzero].
    + simpl in H. apply Z.ltb_lt in Hpos. rewrite Hpos in H. discriminate.
    + rewrite loop_done in H by assumption. injection H as <-.
      exists 0%nat. split; [unfold timedelta_days; lia | simpl; lia].
  - destruct (Z_lt_le_dec 0 r) as [Hpos|Hzero].
    + rewrite loop_step in H by assumption.
      assert (Hshift : forall k : nat,
                 List.length
                   (filter (fun j => is_business_day holiday_calendar (date c + s * Z.of_nat j))
                           (seq 2 k))
                 = List.length
                     (filter (fun j => is_business_day holiday_calendar
                                         (date (c + timedelta_days s) + s * Z.of_nat j))
                             (seq 1 k))).
      { intros k. rewrite <- seq_shift.
        generalize (seq 1 k). intros l. induction l as [|a l IHl]; [reflexivity|].
        cbn [map filter].
        replace (date (c + timedelta_days s) + s * Z.of_nat a)
          with (date c + s * Z.of_nat (S a)) by (rewrite date_add_days; lia).
        destruct (is_business_day holiday_calendar (date c + s * Z.of_nat (S a)));
          cbn [List.length]; rewrite IHl; reflexivity. }
      destruct (business (c + timedelta_days s)) eqn:B.
      * destruct (IH s _ e (r - 1) ltac:(lia) H) as (k & He & Hcount).
        exists (S k). split; [rewrite He; unfold timedelta_days; lia|].
        cbn [seq filter].
        replace (date c + s * Z.of_nat 1) with (date (c + timedelta_days s))
          by (rewrite date_add_days; lia).
        rewrite B. cbn [List.length]. rewrite Hshift. lia.
      * destruct (IH s _ e r Hr H) as (k & He & Hcount).
        exists (S k). split; [rewrite He; unfold timedelta_days; lia|].
        cbn [seq filter].
        replace (date c + s * Z.of_nat 1) with (date (c + timedelta_days s))
          by (rewrite date_add_days; lia).
        rewrite B. rewrite Hshift. exact Hcount.
    + rewrite loop_done in H by assumption. injection H as <-.
      exists 0%nat. split; [unfold timedelta_days; lia | simpl; lia].
Qed.

(** Going one day against direction [s] undoes one step of a walk in
    direction [s]. *)
Lemma back_one_any (s : Z) (x t : datetime) (j : Z) :
  0 <= j ->
  (exists fuel, loop fuel (- s) x (j + if business x then 0 else 1) = Some t) ->
  exists fuel, loop fuel (- s) (x + timedelta_days s) (j + 1) = Some t.
Proof.
  intros Hj [fuel H]. exists (S fuel).
  rewrite loop_step by lia. rewrite add_sub_days.
  destruct (business x).
  - replace (j + 1 - 1) with (j + 0) by lia. exact H.
  - exact H.
Qed.

Lemma there_and_back (fuel : nat) :
  forall (s : Z) (x e t : datetime) (r j : Z),
    0 <= r -> 0 <= j ->
    loop fuel s x r = Some e ->
    (exists fuel', loop fuel' (- s) x (j + if business x then 0 else 1) = Some t) ->
    exists fuel', loop fuel' (- s) e (j + r + if business e then 0 else 1) = Some t.
Proof.
  induction fuel as [|fuel IH]; intros s x e t r j Hr Hj Hfwd Hback.
  - destruct (Z_lt_le_dec 0 r) as [Hpos|Hneg].
    + simpl in Hfwd. apply Z.ltb_lt in Hpos. rewrite Hpos in Hfwd. discriminate.
    + rewrite loop_done in Hfwd by assumption. injection Hfwd as <-.
      replace (j + r) with j by lia. exact Hback.
  - destruct (Z_lt_le_dec 0 r) as [Hpos|Hneg].
    + rewrite loop_step in Hfwd by assumption.
      pose proof (back_one_any s x t j Hj Hback) as Hnext.
      destruct (business (x + timedelta_days s)) eqn:B.
      * replace (j + r) with ((j + 1) + (r - 1)) by lia.
        apply (IH s (x + timedelta_days s)); try lia; try assumption.
        rewrite B. replace (j + 1 + 0) with (j + 1) by lia. exact Hnext.
      * replace (j + r) with ((j + 0) + r) by lia.
        apply (IH s (x + timedelta_days s)); try lia; try assumption.
        rewrite B. replace (j + 0 + 1) with (j + 1) by lia. exact Hnext.
    + rewrite loop_done in Hfwd by assumption. injection Hfwd as <-.
      replace (j + r) with j by lia. exact Hback.
Qed.

End MoreCalendarFacts.

(** X2.  [get_next_business_day] returns when the calendar has business days
    ahead, and what it returns is the nearest business day strictly after
    the start: a business day a whole number of days later (same time of
    day), with no business day strictly between.  Likewise
    [get_previous_business_day], with business days behind, returns the
    nearest business day strictly before the start.  Neither depends on the
    other. *)
Theorem nearest_business_day (holiday_calendar : Z -> bool) (start : datetime) :
  (business_days_unbounded holiday_calendar 1 ->
   exists fuel nxt, get_next_business_day holiday_calendar fuel start = Some nxt) /\
  (forall fuel nxt,
     get_next_business_day holiday_calendar fuel start = Some nxt ->
     exists k : Z,
       0 < k /\ nxt = start + timedelta_days k /\
       is_business_day holiday_calendar (date start + k) = true /\
       forall j, 0 < j < k -> is_business_day holiday_calendar (date start + j) = false) /\
  (business_days_unbounded holiday_calendar (-1) ->
   exists fuel prv, get_previous_business_day holiday_calendar fuel start = Some prv) /\
  (forall fuel prv,
     get_previous_business_day holiday_calendar fuel start = Some prv ->
     exists k : Z,
       0 < k /\ prv = start - timedelta_days k /\
       is_business_day holiday_calendar (date start - k) = true /\
       forall j, 0 < j < k -> is_business_day holiday_calendar (date start - j) = false).
Proof.
  unfold get_next_business_day, get_previous_business_day.
  change (- timedelta_days 1) with (timedelta_days (-1)).
  replace (start - timedelta_days 1) with (start + timedelta_days (-1))
    by (unfold timedelta_days; lia).
  split; [|split; [|split]].
  - intros Hahead. destruct (Hahead (date start)) as [k Hk].
    apply (skip_total holiday_calendar k 1 (start + timedelta_days 1)).
    rewrite date_add_days.
    replace (date start + 1 + 1 * Z.of_nat k) with (date start + 1 * (1 + Z.of_nat k)) by lia.
    exact Hk.
  - intros fuel nxt Hn. apply skip_first in Hn. destruct Hn as (k & He & Hb & Hfirst).
    exists (1 + Z.of_nat k). split; [lia|]. split; [|split].
    + rewrite He. unfold timedelta_days. lia.
    + rewrite He in Hb. rewrite !date_add_days in Hb.
      replace (date start + (1 + Z.of_nat k)) with (date start + 1 + 1 * Z.of_nat k) by lia.
      exact Hb.
    + intros j Hj. specialize (Hfirst (Z.to_nat (j - 1)) ltac:(lia)).
      rewrite date_add_days in Hfirst. rewrite Z2Nat.id in Hfirst by lia.
      replace (date start + j) with (date start + 1 + 1 * (j - 1)) by lia. exact Hfirst.
  - intros Hbehind. destruct (Hbehind (date start)) as [k Hk].
    apply (skip_total holiday_calendar k (-1) (start + timedelta_days (-1))).
    rewrite date_add_days.
    replace (date start + -1 + -1 * Z.of_nat k) with (date start + -1 * (1 + Z.of_nat k))
      by lia.
    exact Hk.
  - intros fuel prv Hp. apply skip_first in Hp. destruct Hp as (k & He & Hb & Hfirst).
    exists (1 + Z.of_nat k). split; [lia|]. split; [|split].
    + rewrite He. unfold timedelta_days. lia.
    + rewrite He in Hb. rewrite !date_add_days in Hb.
      replace (date start - (1 + Z.of_nat k)) with (date start + -1 + -1 * Z.of_nat k) by lia.
      exact Hb.
    + intros j Hj. specialize (Hfirst (Z.to_nat (j - 1)) ltac:(lia)).
      rewrite date_add_days in Hfirst. rewrite Z2Nat.id in Hfirst by lia.
      replace (date start - j) with (date start + -1 + -1 * (j - 1)) by lia. exact Hfirst.
Qed.

Lemma nearest_business_day_witness :
  let start := mk_datetime (ymd 2026 1 2) 17 30 0 in
  (exists fuel nxt, get_next_business_day new_year_2026 fuel start = Some nxt) /\
  (exists k : Z,
      0 < k /\ start + timedelta_days 3 = start + timedelta_days k /\
      is_business_day new_year_2026 (date start + k) = true /\
      forall j, 0 < j < k -> is_business_day new_year_2026 (date start + j) = false) /\
  (exists fuel prv, get_previous_business_day new_year_2026 fuel start = Some prv) /\
  (exists k : Z,
      0 < k /\ start - timedelta_days 2 = start - timedelta_days k /\
      is_business_day new_year_2026 (date start - k) = true /\
      forall j, 0 < j < k -> is_business_day new_year_2026 (date start - j) = false).
Proof.
  cbv zeta.
  destruct (nearest_business_day new_year_2026 (mk_datetime (ymd 2026 1 2) 17 30 0))
    as (Hnext & Hnearest & Hprevious & Hnearest').
  split; [exact (Hnext new_year_2026_ahead)|].
  split; [apply (Hnearest 5%nat); reflexivity|].
  split; [exact (Hprevious new_year_2026_behind)|].
  apply (Hnearest' 5%nat); reflexivity.
Defined.

(** X3.  an offset of one business day is [get_next_business_day], an offset
    of minus one is [get_previous_business_day] (the offset loop needs one
    more iteration of fuel, for the first step). *)
Theorem offset_one_is_next (holiday_calendar : Z -> bool) (fuel : nat) (d : datetime) :
  get_business_day_offset holiday_calendar (S fuel) d 1
    = get_next_business_day holiday_calendar fuel d /\
  get_business_day_offset holiday_calendar (S fuel) d (-1)
    = get_previous_business_day holiday_calendar fuel d.
Proof.
  assert (Heq : forall s : Z,
             offset_loop holiday_calendar (S fuel) s d 1
             = skip_to_business_day holiday_calendar fuel (timedelta_days s)
                 (d + timedelta_days s)).
  { intros s.
    destruct (offset_loop holiday_calendar (S fuel) s d 1) as [r|] eqn:E1.
    - symmetry. apply loop_one_is_skip. exact E1.
    - destruct (skip_to_business_day holiday_calendar fuel (timedelta_days s)
                  (d + timedelta_days s)) as [r|] eqn:E2; [|reflexivity].
      apply loop_one_is_skip in E2. congruence. }
  split.
  - unfold get_business_day_offset, get_next_business_day.
    change (1 =? 0) with false. change (0 <? 1) with true. cbv iota zeta.
    change (Z.abs 1) with 1. apply Heq.
  - unfold get_business_day_offset, get_previous_business_day.
    change (-1 =? 0) with false. change (0 <? -1) with false. cbv iota zeta.
    change (Z.abs (-1)) with 1. rewrite Heq.
    change (- timedelta_days 1) with (timedelta_days (-1)).
    replace (d - timedelta_days 1) with (d + timedelta_days (-1))
      by (unfold timedelta_days; lia).
    reflexivity.
Qed.

(** X4.  offsets in the same direction add up. *)
Theorem offsets_compose (holiday_calendar : Z -> bool) (f1 f2 : nat)
  (d e r : datetime) (m n : Z) :
  (0 <= m /\ 0 <= n) \/ (m <= 0 /\ n <= 0) ->
  get_business_day_offset holiday_calendar f1 d m = Some e ->
  get_business_day_offset holiday_calendar f2 e n = Some r ->
  get_business_day_offset holiday_calendar (f1 + f2) d (m + n) = Some r.
Proof.
  unfold get_business_day_offset. intros Hsign H1 H2.
  destruct (m =? 0) eqn:Em.
  - apply Z.eqb_eq in Em. subst m. injection H1 as <-. cbn [Z.add].
    destruct (n =? 0) eqn:En; [exact H2|].
    cbv zeta in *. rewrite Nat.add_comm. apply loop_fuel_mono. exact H2.
  - apply Z.eqb_neq in Em.
    destruct (n =? 0) eqn:En.
    + apply Z.eqb_eq in En. subst n. injection H2 as <-. rewrite Z.add_0_r.
      apply Z.eqb_neq in Em. rewrite Em. cbv zeta in *.
      apply loop_fuel_mono. exact H1.
    + apply Z.eqb_neq in En. cbv zeta in *.
      destruct (m + n =? 0) eqn:Emn; [apply Z.eqb_eq in Emn; lia|].
      destruct Hsign as [[Hm Hn]|[Hm Hn]].
      * destruct (0 <? m) eqn:Sm; [|apply Z.ltb_ge in Sm; lia].
        destruct (0 <? n) eqn:Sn; [|apply Z.ltb_ge in Sn; lia].
        destruct (0 <? m + n) eqn:Smn; [|apply Z.ltb_ge in Smn; lia].
        replace (Z.abs (m + n)) with (Z.abs m + Z.abs n) by lia.
        eapply loop_add; try eassumption; lia.
      * destruct (0 <? m) eqn:Sm; [apply Z.ltb_lt in Sm; lia|].
        destruct (0 <? n) eqn:Sn; [apply Z.ltb_lt in Sn; lia|].
        destruct (0 <? m + n) eqn:Smn; [apply Z.ltb_lt in Smn; lia|].
        replace (Z.abs (m + n)) with (Z.abs m + Z.abs n) by lia.
        eapply loop_add; try eassumption; lia.
Qed.

Lemma offsets_compose_witness :
  let d := mk_datetime (ymd 2026 1 2) 17 30 0 in
  get_business_day_offset new_year_2026 (3 + 4) d (1 + 2) = Some (d + timedelta_days 5).
Proof.
  cbv zeta.
  apply (offsets_compose new_year_2026 3 4 (mk_datetime (ymd 2026 1 2) 17 30 0)
           (mk_datetime (ymd 2026 1 2) 17 30 0 + timedelta_days 3));
    [left; lia | reflexivity | reflexivity].
Defined.

(** X5.  the result of an offset of [n] business days keeps the time of day of
    the base, lies [k] calendar days from it in the direction of [n], and
    exactly [|n|] of those [k] days (the base excluded, the result
    included) are business days; so [k >= |n|]. *)
Theorem offset_counts_business_days (holiday_calendar : Z -> bool) (fuel : nat)
  (base_date r : datetime) (n : Z) :
  get_business_day_offset holiday_calendar fuel base_date n = Some r ->
  exists k : nat,
    r = base_date + timedelta_days (Z.sgn n * Z.of_nat k) /\
    Z.of_nat (List.length
                (filter (fun j => is_business_day holiday_calendar
                                    (date base_date + Z.sgn n * Z.of_nat j))
                        (seq 1 k))) = Z.abs n /\
    Z.abs n <= Z.of_nat k /\
    hour r = hour base_date /\
    microsecond r = microsecond base_date.
Proof.
  unfold get_business_day_offset. intros H.
  assert (Hk : exists k : nat,
             r = base_date + timedelta_days (Z.sgn n * Z.of_nat k) /\
             Z.of_nat (List.length
                         (filter (fun j => is_business_day holiday_calendar
                                             (date base_date + Z.sgn n * Z.of_nat j))
                                 (seq 1 k))) = Z.abs n).
  { destruct (n =? 0) eqn:En.
    - apply Z.eqb_eq in En. subst n. injection H as <-. exists 0%nat.
      split; [unfold timedelta_days; simpl; lia | reflexivity].
    - apply Z.eqb_neq in En. cbv zeta in H.
      apply loop_counts in H; [|lia].
      destruct (0 <? n) eqn:Sn.
      + apply Z.ltb_lt in Sn. replace (Z.sgn n) with 1 by lia. exact H.
      + apply Z.ltb_ge in Sn. replace (Z.sgn n) with (-1) by lia. exact H. }
  destruct Hk as (k & Hr & Hcount). exists k. repeat split.
  - exact Hr.
  - exact Hcount.
  - rewrite <- Hcount. pose proof (filter_length_le
      (fun j => is_business_day holiday_calendar (date base_date + Z.sgn n * Z.of_nat j))
      (seq 1 k)) as Hle.
    rewrite length_seq in Hle. lia.
  - rewrite Hr. unfold hour, timedelta_days.
    rewrite Z.mod_add by (unfold us_per_day, us_per_second; lia). reflexivity.
  - rewrite Hr. unfold microsecond, timedelta_days, us_per_day.
    replace (Z.sgn n * Z.of_nat k * (86400 * us_per_second))
      with (Z.sgn n * Z.of_nat k * 86400 * us_per_second) by lia.
    rewrite Z.mod_add by (unfold us_per_second; lia). reflexivity.
Qed.

Lemma offset_counts_business_days_witness :
  let base_date := mk_datetime (ymd 2026 1 2) 17 30 0 in
  let r := base_date + timedelta_days 5 in
  exists k : nat,
    r = base_date + timedelta_days (Z.sgn 3 * Z.of_nat k) /\
    Z.of_nat (List.length
                (filter (fun j => is_business_day new_year_2026
                                    (date base_date + Z.sgn 3 * Z.of_nat j))
                        (seq 1 k))) = Z.abs 3 /\
    Z.abs 3 <= Z.of_nat k /\
    hour r = hour base_date /\
    microsecond r = microsecond base_date.
Proof.
  cbv zeta.
  apply (offset_counts_business_days new_year_2026 10). reflexivity.
Defined.

(** X6.  from a business day, going [n] business days back and then [n]
    ahead returns to the start. *)
Theorem round_trip_backward_first (holiday_calendar : Z -> bool) (fuel : nat)
  (d e : datetime) (n : Z) :
  0 <= n ->
  is_business_day holiday_calendar (date d) = true ->
  get_business_day_offset holiday_calendar fuel d (- n) = Some e ->
  exists fuel', get_business_day_offset holiday_calendar fuel' e n = Some d.
Proof.
  unfold get_business_day_offset. intros Hn Hd H.
  destruct (Z.eq_dec n 0) as [->|Hne].
  - simpl in H. injection H as <-. exists 0%nat. reflexivity.
  - destruct (- n =? 0) eqn:E0; [apply Z.eqb_eq in E0; lia|].
    destruct (n =? 0) eqn:E1; [apply Z.eqb_eq in E1; lia|].
    destruct (0 <? - n) eqn:S0; [apply Z.ltb_lt in S0; lia|].
    destruct (0 <? n) eqn:S1; [|apply Z.ltb_ge in S1; lia].
    cbv zeta in *. replace (Z.abs (- n)) with n in H by lia.
    replace (Z.abs n) with n by lia.
    pose proof (loop_sound holiday_calendar fuel (-1) d n e ltac:(lia) H) as He.
    destruct (there_and_back holiday_calendar fuel (-1) d e d n 0 Hn ltac:(lia) H) as [fuel' Hback].
    + exists 0%nat. rewrite Hd. apply loop_done. lia.
    + rewrite He in Hback. exists fuel'.
      replace (0 + n + 0) with n in Hback by lia. exact Hback.
Qed.

Lemma round_trip_backward_first_witness :
  let d := mk_datetime (ymd 2026 1 5) 10 0 0 in
  exists fuel',
    get_business_day_offset new_year_2026 fuel' (d - timedelta_days 5) 2 = Some d.
Proof.
  cbv zeta.
  apply (round_trip_backward_first new_year_2026 10 (mk_datetime (ymd 2026 1 5) 10 0 0));
    [lia | reflexivity | reflexivity].
Defined.

(** ** Ranges of dates *)

Section RangeFacts.

Variable holiday_calendar : Z -> bool.

Local Abbreviation business t := (is_business_day holiday_calendar (date t)).

(** The list built by the loop of [get_random_business_date]: what it had,
    then the business days among [current_date], [current_date + 1 day], ...
    up to [end_date]. *)
Lemma business_days_loop_spec (fuel : nat) :
  forall (c e : datetime) (acc l : list datetime),
    business_days_loop holiday_calendar fuel c e acc = Some l ->
    forall x, In x l <->
              In x acc \/
              exists j : nat, x = c + timedelta_days (Z.of_nat j) /\ x <= e /\ business x = true.
Proof.
  induction fuel as [|fuel IH]; intros c e acc l H x; simpl in H;
    destruct (c <=? e) eqn:E; try discriminate.
  - injection H as <-. apply Z.leb_gt in E. split; [intros Hin; left; exact Hin|].
    intros [Hin|(j & -> & Hle & _)]; [exact Hin|]. unfold timedelta_days, us_per_day, us_per_second in Hle. lia.
  - apply Z.leb_le in E. rewrite (IH _ _ _ _ H x). split.
    + intros [Hin|(j & -> & Hle & Hb)].
      * destruct (business c) eqn:B; [|left; exact Hin].
        apply in_app_or in Hin. destruct Hin as [Hin|[<-|[]]]; [left; exact Hin|].
        right. exists 0%nat. repeat split; [unfold timedelta_days; lia | exact E | exact B].
      * right. exists (S j). repeat split;
          [unfold timedelta_days, us_per_day, us_per_second; lia | exact Hle | exact Hb].
    + intros [Hin|(j & -> & Hle & Hb)].
      * left. destruct (business c); [apply in_or_app; left|]; exact Hin.
      * destruct j as [|j].
        -- left. replace (c + timedelta_days (Z.of_nat 0)) with c in *
             by (unfold timedelta_days; lia).
           rewrite Hb. apply in_or_app. right. left. reflexivity.
        -- right. exists j. repeat split;
             [unfold timedelta_days, us_per_day, us_per_second; lia | exact Hle | exact Hb].
  - injection H as <-. apply Z.leb_gt in E. split; [intros Hin; left; exact Hin|].
    intros [Hin|(j & -> & Hle & _)]; [exact Hin|]. unfold timedelta_days, us_per_day, us_per_second in Hle. lia.
Qed.

(** The counting loop of [get_simulation_time_range] ends, and counts the
    business days among the [n] dates it visits. *)
Lemma count_business_days_spec (n : nat) :
  forall (c e : datetime) (acc : Z),
    c + timedelta_days (Z.of_nat n) > e ->
    (forall j : nat, (j < n)%nat -> c + timedelta_days (Z.of_nat j) <= e) ->
    forall extra : nat,
      count_business_days holiday_calendar (n + extra) c e acc
      = Some (acc + Z.of_nat (List.length
                                (filter (fun j => is_business_day holiday_calendar
                                                    (date c + Z.of_nat j))
                                        (seq 0 n)))).
Proof.
  induction n as [|n IH]; intros c e acc Hend Hin extra.
  - replace (c + timedelta_days (Z.of_nat 0)) with c in Hend by (unfold timedelta_days; lia).
    assert (E : (c <=? e) = false) by (apply Z.leb_gt; lia).
    destruct extra; simpl; rewrite E; f_equal; lia.
  - assert (E : (c <=? e) = true).
    { apply Z.leb_le. specialize (Hin 0%nat ltac:(lia)).
      unfold timedelta_days in Hin. lia. }
    cbn [Nat.add count_business_days]. rewrite E.
    rewrite IH.
    + f_equal. cbn [seq filter].
      replace (date c + Z.of_nat 0) with (date c) by lia.
      rewrite <- seq_shift.
      assert (Hshift : forall l : list nat,
                 List.length (filter (fun j => is_business_day holiday_calendar
                                                 (date c + Z.of_nat j)) (map S l))
                 = List.length (filter (fun j => is_business_day holiday_calendar
                                                   (date (c + timedelta_days 1) + Z.of_nat j)) l)).
      { induction l as [|a l IHl]; [reflexivity|]. cbn [map filter].
        replace (date (c + timedelta_days 1) + Z.of_nat a) with (date c + Z.of_nat (S a))
          by (rewrite date_add_days; lia).
        destruct (is_business_day holiday_calendar (date c + Z.of_nat (S a)));
          cbn [List.length]; rewrite IHl; reflexivity. }
      destruct (business c); cbn [List.length]; rewrite Hshift; lia.
    + unfold timedelta_days in *. lia.
    + intros j Hj. specialize (Hin (S j) ltac:(lia)). unfold timedelta_days in *. lia.
Qed.

End RangeFacts.

(** X7.  [get_random_business_date] returns a business day that lies a whole
    number of days after the earlier of the two dates.  It lies within the
    range when the range holds a business day; otherwise the call falls back
    to the next business day, which lies after the range. *)
Theorem random_business_date_spec (holiday_calendar : Z -> bool) (fuel choice_draw : nat)
  (start_date end_date r : datetime) :
  get_random_business_date holiday_calendar fuel choice_draw start_date end_date = Some r ->
  is_business_day holiday_calendar (date r) = true /\
  exists k : nat,
    r = Z.min start_date end_date + timedelta_days (Z.of_nat k) /\
    (r <= Z.max start_date end_date \/
     (Z.max start_date end_date < r /\
      forall j : nat,
        Z.min start_date end_date + timedelta_days (Z.of_nat j) <= Z.max start_date end_date ->
        is_business_day holiday_calendar
          (date (Z.min start_date end_date + timedelta_days (Z.of_nat j))) = false)).
Proof.
  unfold get_random_business_date. cbv zeta.
  assert (Hlo : (if end_date <? start_date then end_date else start_date)
                = Z.min start_date end_date).
  { destruct (end_date <? start_date) eqn:E;
      [apply Z.ltb_lt in E | apply Z.ltb_ge in E]; lia. }
  assert (Hhi : (if end_date <? start_date then start_date else end_date)
                = Z.max start_date end_date).
  { destruct (end_date <? start_date) eqn:E;
      [apply Z.ltb_lt in E | apply Z.ltb_ge in E]; lia. }
  rewrite Hlo, Hhi. clear Hlo Hhi.
  set (lo := Z.min start_date end_date). set (hi := Z.max start_date end_date).
  destruct (business_days_loop holiday_calendar fuel lo hi []) as [l|] eqn:El; [|discriminate].
  pose proof (business_days_loop_spec holiday_calendar fuel lo hi [] l El) as Hspec.
  destruct l as [|b l'].
  - intros Hnext.
    assert (Hnone : forall j : nat, lo + timedelta_days (Z.of_nat j) <= hi ->
                is_business_day holiday_calendar (date (lo + timedelta_days (Z.of_nat j))) = false).
    { intros j Hle.
      destruct (is_business_day holiday_calendar (date (lo + timedelta_days (Z.of_nat j)))) eqn:B;
        [|reflexivity].
      exfalso. apply (proj2 (Hspec (lo + timedelta_days (Z.of_nat j)))).
      right. exists j. repeat split; assumption. }
    unfold get_next_business_day in Hnext.
    pose proof (skip_sound holiday_calendar _ _ _ _ Hnext) as Hb.
    apply skip_first in Hnext. destruct Hnext as (k & Hr & _ & _).
    split; [exact Hb|]. exists (S k). split.
    + rewrite Hr. unfold timedelta_days. lia.
    + right. split; [|exact Hnone].
      destruct (Z_lt_le_dec hi r) as [Hlt|Hle]; [exact Hlt|]. exfalso.
      specialize (Hnone (S k)).
      replace (lo + timedelta_days (Z.of_nat (S k))) with r in Hnone
        by (rewrite Hr; unfold timedelta_days; lia).
      rewrite Hnone in Hb by exact Hle. discriminate.
  - intros Hnth. apply nth_error_In in Hnth. apply Hspec in Hnth.
    destruct Hnth as [[]|(j & Hr & Hle & Hb)].
    split; [exact Hb|]. exists j. split; [exact Hr | left; exact Hle].
Qed.

Lemma random_business_date_spec_witness :
  let start_date := mk_datetime (ymd 2026 1 3) 12 0 0 in
  let end_date := mk_datetime (ymd 2026 1 4) 12 0 0 in
  let r := start_date + timedelta_days 2 in
  is_business_day new_year_2026 (date r) = true /\
  exists k : nat,
    r = Z.min start_date end_date + timedelta_days (Z.of_nat k) /\
    (r <= Z.max start_date end_date \/
     (Z.max start_date end_date < r /\
      forall j : nat,
        Z.min start_date end_date + timedelta_days (Z.of_nat j) <= Z.max start_date end_date ->
        is_business_day new_year_2026
          (date (Z.min start_date end_date + timedelta_days (Z.of_nat j))) = false)).
Proof.
  cbv zeta.
  apply (random_business_date_spec new_year_2026 5 0). reflexivity.
Defined.

(** X8.  [get_simulation_time_range] always returns (the counting loop ends).
    The range is ordered, [total_days] is at least 1, [business_days] is the
    number of business days among the [total_days] consecutive dates from the
    start, and [weekend_days] is the number of the others: weekends and
    holidays alike. *)
Theorem simulation_time_range_counts (holiday_calendar : Z -> bool) (now now' : datetime)
  (parsed : option (datetime * datetime)) :
  exists (fuel : nat) (tr : time_range),
    get_simulation_time_range holiday_calendar fuel now now' parsed = Some tr /\
    start_date tr <= end_date tr /\
    1 <= total_days tr /\
    let dates := map (fun j => date (start_date tr) + Z.of_nat j)
                     (seq 0 (Z.to_nat (total_days tr))) in
    business_days tr
      = Z.of_nat (List.length (filter (is_business_day holiday_calendar) dates)) /\
    weekend_days tr
      = Z.of_nat (List.length
                    (filter (fun d => negb (is_business_day holiday_calendar d)) dates)) /\
    business_days tr + weekend_days tr = total_days tr.
Proof.
  unfold get_simulation_time_range. cbv zeta.
  set (dates := match parsed with
                | Some dates => dates
                | None => (now - timedelta_days 180, now')
                end).
  set (s := if snd dates <? fst dates then snd dates else fst dates).
  set (e := if snd dates <? fst dates then fst dates else snd dates).
  assert (Hse : s <= e).
  { unfold s, e. destruct (snd dates <? fst dates) eqn:E;
      [apply Z.ltb_lt in E | apply Z.ltb_ge in E]; lia. }
  clearbody s e. clear dates.
  set (total := td_days (e - s) + 1).
  assert (Hday : 0 < us_per_day) by (unfold us_per_day, us_per_second; lia).
  assert (Htotal : 1 <= total).
  { unfold total, td_days. pose proof (Z.div_pos (e - s) us_per_day ltac:(lia) Hday). lia. }
  pose proof (Z.div_mod (e - s) us_per_day ltac:(lia)) as Hdm.
  pose proof (Z.mod_pos_bound (e - s) us_per_day Hday) as Hmb.
  pose proof (count_business_days_spec holiday_calendar (Z.to_nat total) s e 0) as Hcount.
  exists (Z.to_nat total + 0)%nat. eexists. rewrite Hcount.
  - split; [reflexivity|]. cbn [start_date end_date total_days business_days weekend_days].
    fold total. split; [exact Hse|]. split; [exact Htotal|].
    set (l := seq 0 (Z.to_nat total)).
    assert (Hmapf : forall (p : Z -> bool) (l : list nat),
               List.length (filter p (map (fun j => date s + Z.of_nat j) l))
               = List.length (filter (fun j => p (date s + Z.of_nat j)) l)).
    { intros p l0. induction l0 as [|a l0 IHl]; [reflexivity|]. cbn [map filter].
      destruct (p (date s + Z.of_nat a)); cbn [List.length]; rewrite IHl; reflexivity. }
    assert (Hpart : forall (p : nat -> bool) (l : list nat),
               (List.length (filter p l) + List.length (filter (fun j => negb (p j)) l)
                = List.length l)%nat).
    { intros p l0. induction l0 as [|a l0 IHl]; [reflexivity|]. cbn [filter].
      destruct (p a); cbn [negb List.length]; lia. }
    rewrite !Hmapf.
    specialize (Hpart (fun j => is_business_day holiday_calendar (date s + Z.of_nat j)) l).
    assert (Hlen : List.length l = Z.to_nat total) by (unfold l; apply length_seq).
    repeat split; lia.
  - unfold total, td_days, timedelta_days. rewrite Z2Nat.id by (fold (td_days (e - s)); lia).
    nia.
  - intros j Hj. unfold total, td_days in Hj. unfold timedelta_days.
    assert (Z.of_nat j <= (e - s) / us_per_day) by lia. nia.
Qed.

(** ** Timestamps and lifecycles *)

Lemma hour_replace_hms (t : datetime) (h mi s : Z) :
  0 <= h <= 23 -> 0 <= mi <= 59 -> 0 <= s <= 59 -> hour (replace_hms t h mi s) = h.
Proof.
  intros. unfold replace_hms. apply hour_mk_datetime; try assumption.
  unfold microsecond. apply Z.mod_pos_bound. reflexivity.
Qed.

Lemma microsecond_replace_hms (t : datetime) (h mi s : Z) :
  microsecond (replace_hms t h mi s) = microsecond t.
Proof.
  unfold replace_hms, microsecond, mk_datetime, us_per_day, us_per_hour, us_per_minute.
  replace (date t * (86400 * us_per_second) + h * (3600 * us_per_second)
           + mi * (60 * us_per_second) + s * us_per_second + t mod us_per_second)
    with (t mod us_per_second + (date t * 86400 + h * 3600 + mi * 60 + s) * us_per_second)
    by lia.
  rewrite Z.mod_add by (unfold us_per_second; lia).
  apply Z.mod_mod. unfold us_per_second. lia.
Qed.

(** An hour drawn with 24 weights of positive total. *)
Lemma hour_choice (w : list Q) (raw : nat) :
  List.length w = 24%nat -> qlt 0 (qsum w) = true ->
  exists h, choices (map Z.of_nat (seq 0 24)) w raw = Ok h /\ 0 <= h <= 23.
Proof.
  intros Hlen Hsum.
  destruct (choices_ok (map Z.of_nat (seq 0 24)) w raw Hlen Hsum ltac:(discriminate))
    as (h & Hh & Hnth).
  exists h. split; [exact Hh|].
  apply nth_error_In in Hnth. apply in_map_iff in Hnth. destruct Hnth as (n & <- & Hn).
  apply in_seq in Hn. lia.
Qed.

(** X9.  [generate_realistic_timestamp] returns when the calendar has
    business days ahead.  It raises nothing but [IndexError] (from
    [get_random_time_in_work_hours]).  A returned timestamp has no
    microseconds; it falls on the date of the base, and then between 9:00 and
    20:59 if that is a Saturday or Sunday, or, when the base is a Saturday or
    Sunday, on a later business day. *)
Theorem realistic_timestamp_spec (holiday_calendar : Z -> bool)
  (Hahead : business_days_unbounded holiday_calendar 1)
  (dr : timestamp_draws) (now : datetime) (activity_type department project_type : string)
  (base_date : option datetime) :
  let base := match base_date with Some b => b | None => now end in
  (exists fuel res,
      generate_realistic_timestamp holiday_calendar fuel dr now activity_type department
        project_type base_date = Some res) /\
  (forall fuel res,
      generate_realistic_timestamp holiday_calendar fuel dr now activity_type department
        project_type base_date = Some res ->
      match res with
      | Raise e => e = IndexError
      | Ok t =>
          microsecond t = 0 /\
          ((date t = date base /\ (5 <= weekday (date t) -> 9 <= hour t <= 20)) \/
           (5 <= weekday (date base) /\ date base < date t /\
            is_business_day holiday_calendar (date t) = true))
      end).
Proof.
  intros base. unfold generate_realistic_timestamp. fold base. cbv zeta.
  set (p := if 5 <=? weekday (date base) then _ else _).
  set (keep := qlt (random (weekend_keep_draw dr)) _).
  set (first := if qlt (random (in_hours_draw dr)) p then _ else _).
  assert (Hfirst : match first with
                   | Raise e => e = IndexError
                   | Ok ts => date ts = date base /\ microsecond ts = 0
                   end).
  { unfold first. destruct (qlt (random (in_hours_draw dr)) p).
    - destruct (get_random_time_in_work_hours _ base activity_type) as [ts|e] eqn:E.
      + apply work_hours_ok in E. tauto.
      + apply work_hours_raise in E. tauto.
    - pose proof (randint_range 0 59 (off_minute_draw dr) ltac:(lia)) as Hmin.
      pose proof (randint_range 0 59 (off_second_draw dr) ltac:(lia)) as Hsec.
      assert (Hh : exists h,
                 (if 5 <=? weekday (date base)
                  then choices (map Z.of_nat (seq 0 24)) weekend_hour_weights (off_hour_draw dr)
                  else choices (map Z.of_nat (seq 0 24)) evening_hour_weights (off_hour_draw dr))
                 = Ok h /\ 0 <= h <= 23).
      { destruct (5 <=? weekday (date base)); apply hour_choice; reflexivity. }
      destruct Hh as (h & -> & Hh). cbn [bind]. split.
      + rewrite <- (Z.add_0_r (mk_datetime _ _ _ _)).
        apply date_mk_datetime; first [assumption | unfold us_per_second; lia].
      + apply microsecond_mk_datetime. }
  clearbody first. clear p.
  destruct first as [ts|e].
  - destruct Hfirst as [Hdate Hus].
    destruct (5 <=? weekday (date ts)) eqn:Ew.
    + apply Z.leb_le in Ew. destruct keep.
      * pose proof (randint_range 0 59 (kept_minute_draw dr) ltac:(lia)) as Hmin.
        pose proof (randint_range 0 59 (kept_second_draw dr) ltac:(lia)) as Hsec.
        split; [exists 0%nat; eexists; reflexivity|].
        intros fuel res H. injection H as <-.
        split; [rewrite microsecond_replace_hms; exact Hus|].
        left. split.
        -- rewrite date_replace_hms
             by first [lia | exact (randint_range 0 59 _ ltac:(lia))].
           exact Hdate.
        -- intros _. rewrite hour_replace_hms
             by first [lia | exact (randint_range 0 59 _ ltac:(lia))].
           lia.
      * split.
        -- destruct (Hahead (date ts)) as [k Hk].
           destruct (skip_total holiday_calendar k 1 (ts + timedelta_days 1)) as (fuel & t' & Hskip).
           { rewrite date_add_days.
             replace (date ts + 1 + 1 * Z.of_nat k) with (date ts + 1 * (1 + Z.of_nat k)) by lia.
             exact Hk. }
           exists fuel. unfold get_next_business_day. rewrite Hskip. eexists. reflexivity.
        -- intros fuel res H.
           destruct (get_next_business_day holiday_calendar fuel ts) as [t'|] eqn:En;
             [|discriminate].
           injection H as <-.
           unfold get_next_business_day in En.
           pose proof (skip_sound holiday_calendar _ _ _ _ En) as Hb.
           apply skip_first in En. destruct En as (k & Ht' & _ & _).
           destruct (get_random_time_in_work_hours (moved_time_draws dr) t' activity_type)
             as [t|e] eqn:E.
           ++ apply work_hours_ok in E. destruct E as (Hd & _ & Hm).
              split; [exact Hm|]. right.
              assert (Hdt : date t' = date ts + 1 + Z.of_nat k).
              { rewrite Ht'. rewrite !date_add_days. lia. }
              rewrite Hd. repeat split.
              ** rewrite <- Hdate. exact Ew.
              ** rewrite Hdt, Hdate. lia.
              ** exact Hb.
           ++ apply work_hours_raise in E. tauto.
    + split; [exists 0%nat; eexists; reflexivity|].
      intros fuel res H. injection H as <-.
      split; [exact Hus|]. left. split; [exact Hdate|].
      intros Hw. apply Z.leb_gt in Ew. lia.
  - split; [exists 0%nat; eexists; reflexivity|].
    intros fuel res H. injection H as <-. exact Hfirst.
Qed.

Lemma realistic_timestamp_spec_witness :
  exists fuel res,
    generate_realistic_timestamp new_year_2026 fuel weekend_timestamp_draws 0
      "task_creation" "engineering" "sprint" (Some (mk_datetime (ymd 2026 1 3) 23 15 0))
    = Some res.
Proof.
  exact (proj1 (realistic_timestamp_spec new_year_2026 new_year_2026_ahead
                  weekend_timestamp_draws 0 "task_creation" "engineering" "sprint"
                  (Some (mk_datetime (ymd 2026 1 3) 23 15 0)))).
Defined.

Section Probability.

Local Open Scope Q_scope.

(** The completion probability is what the final clamp leaves: the bounds
    are those of [max(0.1, min(0.95, rate))], whatever the rate. *)
Lemma completion_probability_bounds (department project_type : string)
  (created_at : datetime) (due_date : option datetime) :
  0.1 <= _get_completion_probability department project_type created_at due_date <= 0.95.
Proof.
  unfold _get_completion_probability. cbv zeta.
  set (r1 := match due_date with Some _ => _ | None => _ end). clearbody r1.
  set (r2 := if (weekday (date created_at) =? 4)%Z then _ else _). clearbody r2.
  destruct (qmin_cases 0.95 r2) as [[Hm ->]|[Hm ->]];
    [destruct (qmax_cases 0.1 0.95) as [[Hx ->]|[Hx ->]]
    |destruct (qmax_cases 0.1 r2) as [[Hx ->]|[Hx ->]]]; lra.
Qed.

End Probability.

(** X10.  The completion probability lies between the bounds of its final
    clamp, [[0.10, 0.95]], for every department, project type and pair of
    dates.  So a first draw of 0.95 or more (after reduction to [[0, 1)]) makes
    [generate_task_lifecycle] return the record of a task that is not
    completed, all optional fields [None], and a draw below 0.10 never does.
    The only exception is [IndexError], and only when the minute-range index
    drawn for the completion time is 5 or 6.  The bounds are those of the
    clamp itself and so do not depend on how the products before it are
    rounded. *)
Theorem lifecycle_outcomes (holiday_calendar : Z -> bool) (dr : lifecycle_draws)
  (created : datetime) (due_date : option datetime) (department project_type : string) :
  (0.1 <= _get_completion_probability department project_type created due_date <= 0.95)%Q /\
  ((0.95 <= random (complete_draw dr))%Q ->
   generate_task_lifecycle holiday_calendar dr created due_date department project_type
   = Ok {| created_at := created; started_at := None; completed_at := None;
           cycle_time_days := None; lead_time_days := None |}) /\
  ((random (complete_draw dr) < 0.1)%Q ->
   forall lc,
     generate_task_lifecycle holiday_calendar dr created due_date department project_type
     = Ok lc ->
     completed_at lc <> None /\ started_at lc <> None) /\
  (forall e,
      generate_task_lifecycle holiday_calendar dr created due_date department project_type
      = Raise e ->
      e = IndexError /\ (5 <= range_draw (completion_time_draws dr) mod 7)%nat).
Proof.
  pose proof (completion_probability_bounds department project_type created due_date) as Hp.
  split; [exact Hp|].
  unfold generate_task_lifecycle. cbv zeta.
  set (p := _get_completion_probability department project_type created due_date) in *.
  destruct (qlt_cases (random (complete_draw dr)) p) as [[Hlt ->]|[Hge ->]].
  - split; [intros H; lra|]. split.
    + intros _ lc H.
      destruct (_generate_completion_timestamp holiday_calendar dr created due_date
                  department project_type) as [c|e]; [|discriminate].
      cbn [bind] in H. injection H as <-. cbn. split; discriminate.
    + intros e H.
      destruct (_generate_completion_timestamp holiday_calendar dr created due_date
                  department project_type) as [c|e'] eqn:E; [discriminate|].
      cbn [bind] in H. injection H as <-.
      unfold _generate_completion_timestamp in E. cbv zeta in E.
      match type of E with
      | (if ?b then _ else _) = _ => destruct b
      end; [|discriminate].
      apply work_hours_raise in E. exact E.
  - split; [reflexivity|]. split.
    + intros H. lra.
    + intros e H. discriminate.
Qed.

Lemma lifecycle_outcomes_witness :
  generate_task_lifecycle new_year_2026 never_completed_draws
    (mk_datetime (ymd 2026 1 5) 10 0 0) None "engineering" "sprint"
  = Ok {| created_at := mk_datetime (ymd 2026 1 5) 10 0 0;
          started_at := None; completed_at := None;
          cycle_time_days := None; lead_time_days := None |}.
Proof.
  apply (proj1 (proj2 (lifecycle_outcomes new_year_2026 never_completed_draws
                         (mk_datetime (ymd 2026 1 5) 10 0 0) None "engineering"
                         "sprint"))).
  vm_compute. discriminate.
Defined.

(** ** Custom fields, continued *)

Lemma lookup_pattern_Forall {A : Type} (P : A -> Prop) (d : list (string * A))
  (field_name : string) (fallback : A) :
  Forall (fun kv => P (snd kv)) d -> P fallback -> P (lookup_pattern d field_name fallback).
Proof.
  intros Hd Hf. unfold lookup_pattern.
  destruct (dict_find d field_name) as [p|] eqn:E.
  - clear Hf. induction Hd as [|[k v] rest Hv _ IH]; simpl in E; [discriminate|].
    destruct (String.eqb field_name k); [injection E as <-; exact Hv | exact (IH E)].
  - destruct (find _ d) as [[c p]|] eqn:F; [|exact Hf].
    apply find_some in F. destruct F as [Hin _].
    rewrite Forall_forall in Hd. exact (Hd _ Hin).
Qed.

Lemma contains_refl (s : string) : contains s s = true.
Proof.
  assert (Hp : String.prefix s s = true).
  { induction s as [|c s IH]; simpl; [reflexivity|].
    destruct (Ascii.ascii_dec c c) as [_|Hne]; [exact IH | contradiction]. }
  destruct s; simpl in *; [reflexivity|]. rewrite Hp. reflexivity.
Qed.

Lemma qlt_qmin (x a b : Q) : qlt x (qmin a b) = true <-> (x < a /\ x < b)%Q.
Proof.
  destruct (qmin_cases a b) as [[Hm ->]|[Hm ->]].
  - destruct (qlt_cases x a) as [[H ->]|[H ->]]; split; intros H';
      try reflexivity; try discriminate; lra.
  - destruct (qlt_cases x b) as [[H ->]|[H ->]]; split; intros H';
      try reflexivity; try discriminate; lra.
Qed.

Section FieldCompletion.

Local Open Scope Q_scope.

(** X11.  [_determine_field_completion].  Every field is completed when the
    draw is below 0.45.  A field whose name holds one of the keywords of a
    required field and which occurs in a usage pattern of the project type
    is completed whatever the draw (0.95 * 1.2 is capped at 1); it is the
    only kind that a draw of 0.96 or more completes.  The test
    [field_name in project_patterns] adds nothing to the substring test that
    follows it. *)
Theorem field_completion_thresholds (usage : list (string * list (string * list string)))
  (raw : Q) (fd : field_definition) (department project_type : string) :
  let field_name := lower (name fd) in
  let project_patterns := dict_get (dict_get usage department []) project_type [] in
  let required := existsb (fun important => contains important field_name) required_keywords in
  let relevant := existsb (fun pattern => contains field_name pattern) project_patterns in
  (random raw < 0.45 ->
   _determine_field_completion usage raw fd department project_type = true) /\
  (required = true -> relevant = true ->
   _determine_field_completion usage raw fd department project_type = true) /\
  (0.96 <= random raw ->
   _determine_field_completion usage raw fd department project_type = true ->
   required = true /\ relevant = true) /\
  (existsb (String.eqb field_name) project_patterns = true -> relevant = true).
Proof.
  intros field_name project_patterns required relevant.
  assert (Hmem : existsb (String.eqb field_name) project_patterns = true -> relevant = true).
  { intros H. apply existsb_exists in H. destruct H as (p & Hin & Heq).
    apply String.eqb_eq in Heq. subst p.
    apply existsb_exists. exists field_name. split; [exact Hin | apply contains_refl]. }
  pose proof (random_range raw) as Hr.
  unfold _determine_field_completion. cbv zeta.
  fold field_name. fold project_patterns. fold required. fold relevant.
  assert (Hor : (existsb (String.eqb field_name) project_patterns || relevant)%bool = relevant).
  { destruct (existsb (String.eqb field_name) project_patterns) eqn:E; [|reflexivity].
    rewrite (Hmem eq_refl). reflexivity. }
  rewrite Hor. clear Hor.
  set (important := existsb (fun important => contains important field_name) important_keywords).
  cbn [required_fields important_fields optional_fields field_completion_rates].
  split; [|split; [|split; [|exact Hmem]]].
  - intros Hlt. apply qlt_qmin.
    destruct required, important, relevant; lra.
  - intros -> ->. apply qlt_qmin. lra.
  - intros Hge Hc. apply qlt_qmin in Hc.
    destruct required, important, relevant; first [split; reflexivity | lra].
Qed.

Lemma field_completion_thresholds_witness :
  _determine_field_completion field_usage_patterns (99 # 100)
    {| field_type := "enum"; name := "Priority"; enum_options := None |}
    "engineering" "sprint" = true.
Proof.
  apply (proj1 (proj2 (field_completion_thresholds field_usage_patterns (99 # 100)
                         {| field_type := "enum"; name := "Priority"; enum_options := None |}
                         "engineering" "sprint"))); reflexivity.
Defined.

End FieldCompletion.

Lemma int_range_integers (a b : Z) :
  int_range (inject_Z a) (inject_Z b)
  = Ok (map (fun i => a + Z.of_nat i) (seq 0 (Z.to_nat (b + 1 - a)))).
Proof.
  unfold int_range.
  assert (Hred : forall z : Z, Qred (inject_Z z) = inject_Z z).
  { intros z. unfold Qred, inject_Z.
    pose proof (Z.ggcd_gcd z 1) as Hg. pose proof (Z.ggcd_correct_divisors z 1) as Hd.
    destruct (Z.ggcd z 1) as (g, (aa, bb)). cbn [fst snd] in *.
    rewrite Z.gcd_1_r in Hg. subst g. destruct Hd as [Ha Hb].
    replace aa with z by lia. replace bb with 1%Z by lia. reflexivity. }
  rewrite !Hred. reflexivity.
Qed.

(** X12.  The weighted-list kind of a number field over the integers
    [a..b]: the value is drawn among them when there are as many weights as
    integers and the weights have a positive total; otherwise the call
    raises [ValueError]. *)
Theorem weighted_number_outcome (dr : field_draws) (a b : Z) (weights : list Q) :
  a <= b ->
  (List.length weights = Z.to_nat (b + 1 - a) -> qlt 0 (qsum weights) = true ->
   exists v, generate_number dr (weighted (inject_Z a) (inject_Z b) weights)
             = Ok (inject_Z v) /\ a <= v <= b) /\
  (List.length weights <> Z.to_nat (b + 1 - a) \/ qlt 0 (qsum weights) = false ->
   generate_number dr (weighted (inject_Z a) (inject_Z b) weights) = Raise ValueError).
Proof.
  intros Hab. unfold generate_number, weighted.
  cbn [np_distribution np_min np_max get]. rewrite int_range_integers. cbn [bind].
  set (values := map (fun i => a + Z.of_nat i) (seq 0 (Z.to_nat (b + 1 - a)))).
  assert (Hlen : List.length values = Z.to_nat (b + 1 - a)).
  { unfold values. rewrite length_map, length_seq. reflexivity. }
  split.
  - intros Hw Hsum.
    destruct (choices_ok values weights (choice_draw dr)) as (v & Hv & Hnth).
    + rewrite Hlen. exact Hw.
    + exact Hsum.
    + intros Hnil. rewrite Hnil in Hlen. simpl in Hlen. lia.
    + exists v. rewrite Hv. cbn [bind]. split; [reflexivity|].
      apply nth_error_In in Hnth. unfold values in Hnth.
      apply in_map_iff in Hnth. destruct Hnth as (i & <- & Hi). apply in_seq in Hi. lia.
  - intros H. unfold choices. rewrite Hlen.
    destruct (Nat.eqb (List.length weights) (Z.to_nat (b + 1 - a))) eqn:E.
    + apply Nat.eqb_eq in E. destruct H as [H|H]; [contradiction|].
      rewrite H. reflexivity.
    + reflexivity.
Qed.

Lemma weighted_number_outcome_witness :
  exists v,
    generate_number
      {| choice_draw := 7; uniform_draw := 0; standard_normal_draw := 0;
         lognormal_draw := 0; randint_draw := 0 |}
      (weighted (inject_Z 1) (inject_Z 5) [0.05; 0.15; 0.4; 0.3; 0.1]%Q)
    = Ok (inject_Z v) /\ 1 <= v <= 5.
Proof.
  apply (proj1 (weighted_number_outcome
                  {| choice_draw := 7; uniform_draw := 0; standard_normal_draw := 0;
                     lognormal_draw := 0; randint_draw := 0 |}
                  1 5 [0.05; 0.15; 0.4; 0.3; 0.1]%Q ltac:(lia))); reflexivity.
Defined.

(** X13.  In the pattern table of the source, three of the eight number
    fields of the weighted-list kind have fewer weights than integers in
    their range: for these, and only these, every call raises
    [ValueError]. *)
Theorem weighted_table_entries :
  Forall (fun dept : string * list (string * number_pattern) =>
            Forall (fun entry : string * number_pattern =>
                      forall weights,
                        np_distribution (snd entry) = Some (KindWeights weights) ->
                        (forall dr, generate_number dr (snd entry) = Raise ValueError) <->
                        In (fst entry) ["story_points"; "creative_assets"; "probability"]%string)
                   (snd dept))
         (number_patterns field_value_patterns).
Proof.
  pose (dr0 := {| choice_draw := 0; uniform_draw := 0; standard_normal_draw := 0;
                  lognormal_draw := 0; randint_draw := 0 |}).
  unfold field_value_patterns. cbn [number_patterns].
  repeat (apply Forall_cons || apply Forall_nil);
    cbn [snd fst]; intros weights Hw;
    first [ discriminate Hw
          | split; [intros _; cbn [In]; tauto | intros _ dr; reflexivity]
          | split; [intros H; specialize (H dr0); vm_compute in H; discriminate H
                   | intros H; cbn [In] in H; exfalso;
                     repeat (destruct H as [H|H]; [discriminate H|]); exact H] ].
Qed.



(** ** Comments, continued *)

Lemma qle_cases (a b : Q) : ((a <= b)%Q /\ qle a b = true) \/ ((b < a)%Q /\ qle a b = false).
Proof.
  unfold qle. destruct (Qcompare_spec a b) as [H|H|H].
  - left. split; [rewrite H; apply Qle_refl | reflexivity].
  - left. split; [apply Qlt_le_weak; exact H | reflexivity].
  - right. split; [exact H | reflexivity].
Qed.

Lemma offset_attempts_in_window (cfg : Comments.timing_config) (draws : nat -> Q) (n : nat) :
  (Comments.min cfg <= Comments.mean cfg <= Comments.max cfg)%Q ->
  forall i : nat,
    (Comments.min cfg <= Comments.offset_attempts n cfg draws i <= Comments.max cfg)%Q.
Proof.
  intros Hmean. induction n as [|n IH]; intros i; simpl; [exact Hmean|].
  destruct (qle_cases (Comments.min cfg) (Comments.mean cfg + Comments.std cfg * draws i))
    as [[H1 ->]|[H1 ->]]; [|apply IH].
  destruct (qle_cases (Comments.mean cfg + Comments.std cfg * draws i) (Comments.max cfg))
    as [[H2 ->]|[H2 ->]]; [|apply IH].
  simpl. split; assumption.
Qed.

(** X15.  The offset of a comment lies within the window of its timing
    pattern whenever the mean does, which holds for the three patterns of
    the source: the fallback to the mean never leaves the window. *)
Theorem comment_offset_in_window (cfg : Comments.timing_config) (draws : nat -> Q) :
  ((Comments.min cfg <= Comments.mean cfg <= Comments.max cfg)%Q ->
   (Comments.min cfg <= Comments.offset_hours cfg draws <= Comments.max cfg)%Q) /\
  Forall (fun entry : string * Comments.timing_config =>
            (Comments.min (snd entry) <= Comments.offset_hours (snd entry) draws
             <= Comments.max (snd entry))%Q)
         Comments.comment_timing_patterns.
Proof.
  split.
  - intros H. apply offset_attempts_in_window. exact H.
  - unfold Comments.comment_timing_patterns.
    repeat (apply Forall_cons || apply Forall_nil);
      apply offset_attempts_in_window; cbn; lra.
Qed.

Lemma comment_offset_in_window_witness :
  (Comments.min first_comment
   <= Comments.offset_hours first_comment (fun _ => 100%Q)
   <= Comments.max first_comment)%Q.
Proof.
  apply (proj1 (comment_offset_in_window first_comment (fun _ => 100%Q))).
  vm_compute. split; discriminate.
Defined.

Lemma second_range (t : datetime) : 0 <= Comments.second t <= 59.
Proof.
  unfold Comments.second, us_per_minute, us_per_second.
  pose proof (Z.mod_pos_bound t (60 * 1000000) ltac:(lia)) as Hm.
  split.
  - apply Z.div_pos; lia.
  - assert (t mod (60 * 1000000) / 1000000 < 60); [|lia].
    apply Z.div_lt_upper_bound; lia.
Qed.

Lemma date_replace_hour_minute (t : datetime) (h mi : Z) :
  0 <= h <= 23 -> 0 <= mi <= 59 -> date (Comments.replace_hour_minute t h mi) = date t.
Proof.
  intros. unfold Comments.replace_hour_minute.
  apply date_replace_hms; try assumption. apply second_range.
Qed.

Lemma hour_replace_hour_minute (t : datetime) (h mi : Z) :
  0 <= h <= 23 -> 0 <= mi <= 59 -> hour (Comments.replace_hour_minute t h mi) = h.
Proof.
  intros. unfold Comments.replace_hour_minute.
  apply hour_replace_hms; try assumption. apply second_range.
Qed.

(** A returned comment timestamp is the clamped one, or the clamped one
    moved to business hours on its date. *)
Lemma comment_timestamp_form (dr : Comments.comment_draws) (now : datetime)
  (task_created_at : datetime) (task_completed_at : option datetime)
  (comment_sequence total_comments : Z) (t : datetime) :
  Comments._get_realistic_comment_timestamp dr now task_created_at task_completed_at
    comment_sequence total_comments = Comments.Returned t ->
  let min_timestamp := task_created_at + timedelta_minutes 30 in
  let max_timestamp := match task_completed_at with Some c => c | None => now end in
  exists clamped : datetime,
    clamped <= max_timestamp /\
    (min_timestamp <= max_timestamp -> min_timestamp <= clamped) /\
    date t = date clamped /\
    ((0.85 <= random (Comments.business_hours_draw dr))%Q -> t = clamped) /\
    ((random (Comments.business_hours_draw dr) < 0.85)%Q -> 9 <= hour t <= 18) /\
    (5 <= weekday (date t) -> (0.8 <= random (Comments.weekend_draw dr))%Q).
Proof.
  unfold Comments._get_realistic_comment_timestamp. cbv zeta.
  set (lo := task_created_at + timedelta_minutes 30).
  set (hi := match task_completed_at with Some c => c | None => now end).
  match goal with
  | |- context [if ?r <? lo then lo else ?r] => set (raw := r)
  end.
  match goal with
  | |- context [Comments.replace_hour_minute ?c 9 _] => set (clamped := c)
  end.
  assert (Hhi : clamped <= hi).
  { unfold clamped. destruct (hi <? _) eqn:E; [lia | apply Z.ltb_ge in E; exact E]. }
  assert (Hlo : lo <= hi -> lo <= clamped).
  { intros Hle. unfold clamped. destruct (hi <? _) eqn:E; [exact Hle|].
    destruct (raw <? lo) eqn:E'; [lia | apply Z.ltb_ge in E'; exact E']. }
  clearbody clamped raw.
  pose proof (randint_range 0 59 (Comments.minute_draw dr) ltac:(lia)) as Hmin.
  match goal with
  | |- context [Comments.Returned ?m] => set (moved := m)
  end.
  assert (Hmoved : date moved = date clamped /\
                   ((0.85 <= random (Comments.business_hours_draw dr))%Q -> moved = clamped) /\
                   ((random (Comments.business_hours_draw dr) < 0.85)%Q -> 9 <= hour moved <= 18)).
  { unfold moved.
    destruct (qlt_cases (random (Comments.business_hours_draw dr)) 0.85) as [[Hd ->]|[Hd ->]].
    - destruct (hour clamped <? 9) eqn:E9.
      + rewrite date_replace_hour_minute, hour_replace_hour_minute by (try lia; exact Hmin).
        repeat split; try lia; try lra.
      + destruct (18 <? hour clamped) eqn:E18.
        * rewrite date_replace_hour_minute, hour_replace_hour_minute by (try lia; exact Hmin).
          repeat split; try lia; try lra.
        * apply Z.ltb_ge in E9, E18. repeat split; try lia; try lra.
    - repeat split; try reflexivity; try lra. }
  clearbody moved. destruct Hmoved as (Hdate & Hsame & Hhour).
  destruct (5 <=? weekday (date moved)) eqn:Ew.
  - destruct (qlt_cases (random (Comments.weekend_draw dr)) 0.8) as [[Hd ->]|[Hd ->]];
      [discriminate|].
    intros H. injection H as <-. exists clamped.
    split; [exact Hhi|]. split; [exact Hlo|]. split; [exact Hdate|].
    split; [exact Hsame|]. split; [exact Hhour|]. intros _. exact Hd.
  - intros H. injection H as <-. apply Z.leb_gt in Ew. exists clamped.
    split; [exact Hhi|]. split; [exact Hlo|]. split; [exact Hdate|].
    split; [exact Hsame|]. split; [exact Hhour|]. intros Hw. lia.
Qed.

(** X16.  [_get_realistic_comment_timestamp], when it returns: the comment
    is dated no later than the completion of the task (or the current time)
    and, when that bound is at least 30 minutes after creation, no earlier
    than the date of creation plus 30 minutes.  The timestamp itself is
    within these bounds when the business-hours draw is 0.85 or more;
    otherwise its hour is between 9 and 18 (and the bounds hold for the date
    only).  A timestamp on a Saturday or Sunday is returned only when the
    weekend draw is 0.8 or more: below, the call raises [NameError]. *)
Theorem comment_timestamp_bounds (dr : Comments.comment_draws) (now : datetime)
  (task_created_at : datetime) (task_completed_at : option datetime)
  (comment_sequence total_comments : Z) (t : datetime) :
  Comments._get_realistic_comment_timestamp dr now task_created_at task_completed_at
    comment_sequence total_comments = Comments.Returned t ->
  let min_timestamp := task_created_at + timedelta_minutes 30 in
  let max_timestamp := match task_completed_at with Some c => c | None => now end in
  date t <= date max_timestamp /\
  (min_timestamp <= max_timestamp -> date min_timestamp <= date t) /\
  ((0.85 <= random (Comments.business_hours_draw dr))%Q ->
   t <= max_timestamp /\ (min_timestamp <= max_timestamp -> min_timestamp <= t)) /\
  ((random (Comments.business_hours_draw dr) < 0.85)%Q -> 9 <= hour t <= 18) /\
  (5 <= weekday (date t) -> (0.8 <= random (Comments.weekend_draw dr))%Q).
Proof.
  intros Hret lo hi.
  destruct (comment_timestamp_form dr now task_created_at task_completed_at
              comment_sequence total_comments t Hret)
    as (clamped & Hhi & Hlo & Hdate & Hsame & Hhour & Hweekend).
  fold lo in Hlo. fold hi in Hhi, Hlo.
  split; [|split; [|split; [|split]]].
  - rewrite Hdate. apply date_mono. exact Hhi.
  - intros Hle. rewrite Hdate. apply date_mono. apply Hlo. exact Hle.
  - intros Hdraw. rewrite (Hsame Hdraw). split; [exact Hhi | exact Hlo].
  - exact Hhour.
  - exact Hweekend.
Qed.

Lemma comment_timestamp_bounds_witness :
  let dr := {| Comments.offset_draws := fun _ => (- 4 # 3)%Q;
               Comments.business_hours_draw := 0;
               Comments.minute_draw := 0;
               Comments.weekend_draw := 0 |} in
  let now := mk_datetime (ymd 2026 1 9) 12 0 0 in
  let task_created_at := mk_datetime (ymd 2026 1 5) 19 30 0 in
  let t := mk_datetime (ymd 2026 1 5) 18 0 0 in
  let min_timestamp := task_created_at + timedelta_minutes 30 in
  date t <= date now /\
  (min_timestamp <= now -> date min_timestamp <= date t) /\
  ((0.85 <= random (Comments.business_hours_draw dr))%Q ->
   t <= now /\ (min_timestamp <= now -> min_timestamp <= t)) /\
  ((random (Comments.business_hours_draw dr) < 0.85)%Q -> 9 <= hour t <= 18) /\
  (5 <= weekday (date t) -> (0.8 <= random (Comments.weekend_draw dr))%Q).
Proof.
  cbv zeta.
  apply (comment_timestamp_bounds
           {| Comments.offset_draws := fun _ => (- 4 # 3)%Q;
              Comments.business_hours_draw := 0;
              Comments.minute_draw := 0;
              Comments.weekend_draw := 0 |}
           (mk_datetime (ymd 2026 1 9) 12 0 0)
           (mk_datetime (ymd 2026 1 5) 19 30 0) None 0 3).
  reflexivity.
Defined.

(** X17.  The clamp to [[min_timestamp, max_timestamp]] is undone by the move
    to business hours that follows it: for a task created at 19:00 or later,
    a comment stamped on the day of creation with a business-hours draw
    below 0.85 precedes the creation of the task. *)
Theorem comment_may_precede_creation (dr : Comments.comment_draws) (now : datetime)
  (task_created_at : datetime) (task_completed_at : option datetime)
  (comment_sequence total_comments : Z) (t : datetime) :
  Comments._get_realistic_comment_timestamp dr now task_created_at task_completed_at
    comment_sequence total_comments = Comments.Returned t ->
  (random (Comments.business_hours_draw dr) < 0.85)%Q ->
  19 <= hour task_created_at ->
  date t = date task_created_at ->
  t < task_created_at.
Proof.
  intros Hret Hdraw Hcreated Hdate.
  destruct (comment_timestamp_form dr now task_created_at task_completed_at
              comment_sequence total_comments t Hret) as (_ & _ & _ & _ & _ & Hhour & _).
  specialize (Hhour Hdraw).
  unfold hour, date, us_per_hour, us_per_day, us_per_second in *.
  pose proof (Z.div_mod t (86400 * 1000000) ltac:(lia)) as Ht.
  pose proof (Z.div_mod task_created_at (86400 * 1000000) ltac:(lia)) as Hc.
  pose proof (Z.div_mod (t mod (86400 * 1000000)) (3600 * 1000000) ltac:(lia)) as Ht'.
  pose proof (Z.mod_pos_bound (t mod (86400 * 1000000)) (3600 * 1000000) ltac:(lia)) as Hb.
  pose proof (Z.div_mod (task_created_at mod (86400 * 1000000)) (3600 * 1000000)
                ltac:(lia)) as Hc'.
  pose proof (Z.mod_pos_bound (task_created_at mod (86400 * 1000000)) (3600 * 1000000)
                ltac:(lia)) as Hb'.
  lia.
Qed.

Lemma comment_may_precede_creation_witness :
  mk_datetime (ymd 2026 1 5) 18 0 0 < mk_datetime (ymd 2026 1 5) 19 30 0.
Proof.
  apply (comment_may_precede_creation
           {| Comments.offset_draws := fun _ => (- 4 # 3)%Q;
              Comments.business_hours_draw := 0;
              Comments.minute_draw := 0;
              Comments.weekend_draw := 0 |}
           (mk_datetime (ymd 2026 1 9) 12 0 0)
           (mk_datetime (ymd 2026 1 5) 19 30 0) None 0 3);
    first [reflexivity | vm_compute; discriminate].
Defined.

(** ** Validation, continued *)

Section Divergence.

Local Open Scope R_scope.

Lemma dict_get_map_key (g : string -> R) (l : list string) (b : string) :
  In b l -> dict_get (map (fun k => (k, g k)) l) b 0 = g b.
Proof.
  induction l as [|a l IH]; simpl; [tauto|].
  intros Hin. destruct (String.eqb b a) eqn:E.
  - apply String.eqb_eq in E. subst a. reflexivity.
  - destruct Hin as [->|Hin]; [rewrite String.eqb_refl in E; discriminate | exact (IH Hin)].
Qed.

Lemma fold_left_sum (term : string -> R) (l : list string) :
  forall acc : R,
    fold_left (fun kl_div bucket => kl_div + term bucket) l acc = acc + rsum (map term l).
Proof.
  induction l as [|b l IH]; intros acc; simpl.
  - lra.
  - rewrite IH. lra.
Qed.

Lemma rsum_le (f g : string -> R) (l : list string) :
  (forall b, In b l -> f b <= g b) -> rsum (map f l) <= rsum (map g l).
Proof.
  induction l as [|a l IH]; intros H; simpl.
  - lra.
  - pose proof (H a (or_introl eq_refl)).
    pose proof (IH (fun b Hb => H b (or_intror Hb))). lra.
Qed.

Lemma rsum_minus (f g : string -> R) (l : list string) :
  rsum (map (fun b => f b - g b) l) = rsum (map f l) - rsum (map g l).
Proof. induction l as [|a l IH]; simpl; [lra | rewrite IH; lra]. Qed.

Lemma rsum_div (f : string -> R) (s : R) (l : list string) :
  rsum (map (fun b => f b / s) l) = rsum (map f l) / s.
Proof.
  induction l as [|a l IH]; simpl; [unfold Rdiv; lra | rewrite IH; unfold Rdiv; lra].
Qed.

Lemma rsum_pos (f : string -> R) (l : list string) :
  l <> [] -> (forall b, In b l -> 0 < f b) -> 0 < rsum (map f l).
Proof.
  induction l as [|a l IH]; intros Hne H; [contradiction|]. simpl.
  pose proof (H a (or_introl eq_refl)) as Ha.
  destruct l as [|a' l].
  - simpl. lra.
  - assert (0 < rsum (map f (a' :: l))); [|lra].
    apply IH; [discriminate | intros b Hb; apply H; right; exact Hb].
Qed.

Lemma kl_term_lower (p q : R) : 0 < p -> 0 < q -> p - q <= p * ln (p / q).
Proof.
  intros Hp Hq.
  assert (Hpq : 0 < p / q) by (apply Rdiv_lt_0_compat; assumption).
  pose proof (ln_lower (p / q) Hpq) as H.
  assert (Hinv : / (p / q) = q / p) by (field; split; lra).
  rewrite Hinv in H.
  assert (Hmul : p * (1 - q / p) <= p * ln (p / q)).
  { apply Rmult_le_compat_l; lra. }
  assert (Heq : p * (1 - q / p) = p - q) by (field; lra).
  lra.
Qed.

(** X18.  The divergence that [_calculate_kl_divergence] computes is never
    negative when the two distributions hold no negative value (Gibbs'
    inequality, with the smoothing and the normalisation of the code). *)
Theorem kl_divergence_nonnegative (dist1 dist2 : list (string * R)) :
  Forall (fun kv => 0 <= snd kv) dist1 ->
  Forall (fun kv => 0 <= snd kv) dist2 ->
  0 <= _calculate_kl_divergence dist1 dist2.
Proof.
  intros H1 H2. unfold _calculate_kl_divergence. cbv zeta.
  set (L := all_buckets_of dist1 dist2).
  set (g1 := fun bucket : string => dict_get dist1 bucket 0 + epsilon).
  set (g2 := fun bucket : string => dict_get dist2 bucket 0 + epsilon).
  change (map (fun bucket => (bucket, dict_get dist1 bucket 0 + epsilon)) L)
    with (map (fun bucket => (bucket, g1 bucket)) L).
  change (map (fun bucket => (bucket, dict_get dist2 bucket 0 + epsilon)) L)
    with (map (fun bucket => (bucket, g2 bucket)) L).
  rewrite !map_map. cbn [fst snd].
  set (s1 := rsum (map g1 L)). set (s2 := rsum (map g2 L)).
  assert (Hg1 : forall b, 0 < g1 b).
  { intros b. unfold g1, epsilon.
    pose proof (dict_get_Forall (fun x => 0 <= x) dist1 b 0 H1 ltac:(lra)). lra. }
  assert (Hg2 : forall b, 0 < g2 b).
  { intros b. unfold g2, epsilon.
    pose proof (dict_get_Forall (fun x => 0 <= x) dist2 b 0 H2 ltac:(lra)). lra. }
  rewrite (fold_left_sum
             (fun bucket =>
                dict_get (map (fun x => (x, g1 x / s1)) L) bucket 0
                * ln (dict_get (map (fun x => (x, g1 x / s1)) L) bucket 0
                      / dict_get (map (fun x => (x, g2 x / s2)) L) bucket 0))).
  clearbody L.
  assert (Hcase : L = [] \/ L <> [])
    by (destruct L; [left; reflexivity | right; discriminate]).
  destruct Hcase as [HL|HL]; [subst L; simpl; lra|].
  assert (Hs1 : 0 < s1) by (apply rsum_pos; [exact HL | intros b _; apply Hg1]).
  assert (Hs2 : 0 < s2) by (apply rsum_pos; [exact HL | intros b _; apply Hg2]).
  assert (Hzero : rsum (map (fun b => g1 b / s1 - g2 b / s2) L) = 0).
  { rewrite (rsum_minus (fun b => g1 b / s1) (fun b => g2 b / s2)).
    rewrite !rsum_div. fold s1 s2. field. split; lra. }
  rewrite Rplus_0_l.
  apply Rle_trans with (rsum (map (fun b => g1 b / s1 - g2 b / s2) L));
    [rewrite Hzero; lra|].
  apply rsum_le. intros b Hb. cbv beta.
  rewrite (dict_get_map_key (fun x => g1 x / s1) L b Hb).
  rewrite (dict_get_map_key (fun x => g2 x / s2) L b Hb).
  apply kl_term_lower; apply Rdiv_lt_0_compat; auto.
Qed.

Lemma kl_divergence_nonnegative_witness :
  0 <= _calculate_kl_divergence [("0-1_days"%string, 1)]
         [("0-1_days"%string, 1 / 2); ("2-3_days"%string, 1 / 2)].
Proof.
  apply (kl_divergence_nonnegative [("0-1_days"%string, 1)]
           [("0-1_days"%string, 1 / 2); ("2-3_days"%string, 1 / 2)]);
    repeat constructor; cbn [snd]; lra.
Defined.

End Divergence.

Section FixSuggestions.

Variable assignment day_of_week : list task_row -> result (option status).
Variable schema temporal referential business quality : connection -> status.

Local Abbreviation validate :=
  (validate_database_integrity assignment day_of_week schema temporal referential
     business quality).

Lemma failed_fixes_keys (results : list (string * status)) :
  map fst (map (fun entry : string * status => (fst entry, category_fixes (fst entry)))
             (filter (fun entry => is_failure (snd entry)) results))
  = map fst (filter (fun entry => is_failure (snd entry)) results).
Proof. rewrite map_map. reflexivity. Qed.

(** X19.  [suggest_fixes] on what [validate_database_integrity] returns.  On
    success the only key is "all".  On failure the keys are the failed
    categories, in order; the "general" advice is never given; a failed
    schema validation gets an empty list of fixes, every other failed
    category three. *)
Theorem suggest_fixes_of_report (v : validator) (conn : connection) (r : integrity_report) :
  validate v conn = Ok r ->
  (overall_status r = success -> map fst (suggest_fixes r) = [ "all"%string ]) /\
  (overall_status r <> success ->
   map fst (suggest_fixes r) = failed_categories r /\ failed_categories r <> []) /\
  ~ In "general"%string (map fst (suggest_fixes r)) /\
  (forall category fixes,
      In (category, fixes) (suggest_fixes r) ->
      (category = "schema_validation"%string /\ fixes = []) \/
      (category <> "schema_validation"%string /\ List.length fixes = 3%nat) \/
      (category = "all"%string /\ List.length fixes = 1%nat)).
Proof.
  intros Hr. unfold validate_database_integrity in Hr.
  destruct (_validate_distributions assignment day_of_week v conn) as [d|]; [|discriminate].
  cbn [bind] in Hr.
  remember [ (_, schema conn); _; _; _; _; _ ] as results eqn:Hresults in Hr.
  injection Hr as <-. unfold suggest_fixes. cbn [categories overall_status failed_categories].
  assert (Hnames : forall c s, In (c, s) results ->
             In c [ "schema_validation"; "temporal_consistency"; "referential_integrity";
                    "distribution_validation"; "business_rules"; "data_quality" ]%string).
  { intros c s Hin. rewrite Hresults in Hin. cbn [In] in *.
    repeat (destruct Hin as [Hin|Hin]; [injection Hin as <- _; tauto|]). contradiction. }
  pose proof (failed_fixes_keys results) as Hkeys.
  set (failed := filter (fun entry => is_failure (snd entry)) results) in *.
  assert (Hfailed : forall c s, In (c, s) failed -> In (c, s) results).
  { intros c s Hin. unfold failed in Hin. apply filter_In in Hin. tauto. }
  clearbody failed. clear Hresults.
  destruct failed as [|[c0 s0] failed'] eqn:Ef.
  - cbn [map]. split; [reflexivity|]. split; [intros H; contradiction|]. split.
    + cbn. intros [H|[]]. discriminate H.
    + intros category fixes Hin. cbn [In] in Hin. destruct Hin as [Hin|[]].
      injection Hin as <- <-. right. right. split; reflexivity.
  - rewrite <- Ef in *.
    assert (Hmap : map fst failed <> []) by (rewrite Ef; discriminate).
    destruct (map fst failed) as [|c1 cs] eqn:Em; [contradiction|]. cbn [map] in Hkeys |- *.
    split; [intros H; discriminate H|].
    assert (Hfix : (match
                      map (fun entry : string * status =>
                             (fst entry, category_fixes (fst entry))) failed
                    with
                    | [] => [ ("general"%string,
                               [ "Review data generation pipeline for logical errors";
                                 "Check configuration settings for validation thresholds";
                                 "Validate input data sources for quality issues" ]%string) ]
                    | _ :: _ =>
                        map (fun entry : string * status =>
                               (fst entry, category_fixes (fst entry))) failed
                    end)
                   = map (fun entry : string * status =>
                            (fst entry, category_fixes (fst entry))) failed).
    { rewrite Ef. reflexivity. }
    rewrite Hfix. clear Hfix. split; [|split].
    + intros _. split; [exact Hkeys | discriminate].
    + rewrite Hkeys, <- Em. intros Hin. apply in_map_iff in Hin.
      destruct Hin as ([c s] & Hc & Hin). cbn in Hc. subst c.
      pose proof (Hnames _ _ (Hfailed _ _ Hin)) as Hn. cbn [In] in Hn.
      repeat (destruct Hn as [Hn|Hn]; [discriminate Hn|]). exact Hn.
    + intros category fixes Hin. apply in_map_iff in Hin.
      destruct Hin as ([c s] & Hc & Hin). cbn [fst] in Hc. injection Hc as <- <-.
      pose proof (Hnames _ _ (Hfailed _ _ Hin)) as Hn. cbn [In] in Hn.
      destruct Hn as [<-|Hn]; [left; split; reflexivity|].
      right. left.
      repeat (destruct Hn as [<-|Hn]; [split; [discriminate | reflexivity]|]).
      contradiction.
Qed.

End FixSuggestions.

Lemma suggest_fixes_of_report_witness :
  let r := {| categories :=
                [ ("schema_validation"%string, failure);
                  ("temporal_consistency"%string, success);
                  ("referential_integrity"%string, success);
                  ("distribution_validation"%string, error);
                  ("business_rules"%string, success);
                  ("data_quality"%string, success) ];
              overall_status := failure;
              failed_categories := [ "schema_validation"%string ] |} in
  map fst (suggest_fixes r) = failed_categories r /\ failed_categories r <> [].
Proof.
  cbv zeta.
  apply (proj1 (proj2 (suggest_fixes_of_report passes_rows passes_rows
                         fails passes passes passes passes default_validator Faulty
                         _ eq_refl))).
  discriminate.
Defined.

(** ** Segments *)

Lemma segment_eqb_eq (a b : segment) : segment_eqb a b = true <-> a = b.
Proof.
  destruct a as [a1 a2], b as [b1 b2]. unfold segment_eqb. cbn [fst snd].
  rewrite andb_true_iff, !String.eqb_eq. split.
  - intros [-> ->]. reflexivity.
  - intros H. injection H as -> ->. split; reflexivity.
Qed.

Lemma bucket_key_eqb_eq (a b : segment * string) : bucket_key_eqb a b = true <-> a = b.
Proof.
  destruct a as [a1 a2], b as [b1 b2]. unfold bucket_key_eqb. cbn [fst snd].
  rewrite andb_true_iff, segment_eqb_eq, String.eqb_eq. split.
  - intros [-> ->]. reflexivity.
  - intros H. injection H as -> ->. split; reflexivity.
Qed.

Section Grouping.

Context {K : Type} (eqb : K -> K -> bool).
Hypothesis eqb_eq : forall a b, eqb a b = true <-> a = b.

Lemma distinct_by_In (keys : list K) (k : K) : In k (distinct_by eqb keys) <-> In k keys.
Proof.
  induction keys as [|k0 rest IH]; simpl; [tauto|].
  rewrite filter_In, IH. split.
  - intros [H|[H _]]; [left | right]; exact H.
  - intros [H|H]; [left; exact H|].
    destruct (eqb k0 k) eqn:E.
    + left. apply eqb_eq. exact E.
    + right. split; [exact H | reflexivity].
Qed.

Lemma count_by_positive (keys : list K) (k : K) : In k keys -> (1 <= count_by eqb k keys)%nat.
Proof.
  intros Hin. unfold count_by.
  assert (Hf : In k (filter (eqb k) keys)).
  { apply filter_In. split; [exact Hin | apply eqb_eq; reflexivity]. }
  destruct (filter (eqb k) keys); [contradiction | simpl; lia].
Qed.

Lemma assoc_set_keys {A : Type} (d : list (K * A)) (k : K) (v : A) (k0 : K) :
  In k0 (map fst (assoc_set eqb d k v)) <-> k0 = k \/ In k0 (map fst d).
Proof.
  induction d as [|[k' v'] rest IH]; simpl.
  - split; intros [H|H]; auto.
  - destruct (eqb k k') eqn:E; simpl.
    + apply eqb_eq in E. subst k'. split; [tauto|]. intros [->|H]; tauto.
    + rewrite IH. tauto.
Qed.

Lemma assoc_set_Forall {A : Type} (P : A -> Prop) (d : list (K * A)) (k : K) (v : A) :
  Forall (fun kv => P (snd kv)) d -> P v -> Forall (fun kv => P (snd kv)) (assoc_set eqb d k v).
Proof.
  intros Hd Hv. induction Hd as [|[k' v'] rest Hv' Hrest IH]; simpl.
  - constructor; [exact Hv | constructor].
  - destruct (eqb k k'); constructor; assumption.
Qed.

Lemma assoc_find_Forall {A : Type} (P : A -> Prop) (d : list (K * A)) (k : K) (v : A) :
  Forall (fun kv => P (snd kv)) d -> assoc_find eqb d k = Some v -> P v.
Proof.
  intros Hd. induction Hd as [|[k' v'] rest Hv' _ IH]; simpl; [discriminate|].
  destruct (eqb k k'); [intros H; injection H as <-; exact Hv' | exact IH].
Qed.

Lemma assoc_set_nonempty {A : Type} (d : list (K * A)) (k : K) (v : A) :
  assoc_set eqb d k v <> [].
Proof. destruct d as [|[k' v'] rest]; simpl; [|destruct (eqb k k')]; discriminate. Qed.

End Grouping.

Lemma group_buckets_invariant (data : list (segment * string * nat)) :
  Forall (fun row => (1 <= snd row)%nat) data ->
  forall grouped : list (segment * list (string * nat)),
    Forall (fun entry => counted (snd entry)) grouped ->
    let final :=
      fold_left (fun grouped_data (row : segment * string * nat) =>
                   let key := fst (fst row) in
                   let bucket := snd (fst row) in
                   let count := snd row in
                   let bucket_counts :=
                     match assoc_find segment_eqb grouped_data key with
                     | Some bc => bc
                     | None => []
                     end in
                   assoc_set segment_eqb grouped_data key
                     (assoc_set String.eqb bucket_counts bucket count))
                data grouped in
    Forall (fun entry => counted (snd entry)) final /\
    forall key, In key (map fst final) <->
                In key (map fst grouped) \/ In key (map (fun row => fst (fst row)) data).
Proof.
  intros Hdata. induction Hdata as [|[[key bucket] count] data Hcount _ IH];
    intros grouped Hg; cbn [fold_left].
  - split; [exact Hg|]. intros key. cbn. tauto.
  - cbn [fst snd] in *.
    set (bucket_counts := match assoc_find segment_eqb grouped key with
                          | Some bc => bc
                          | None => []
                          end).
    assert (Hbc : Forall (fun bc => (1 <= snd bc)%nat) bucket_counts).
    { unfold bucket_counts. destruct (assoc_find segment_eqb grouped key) as [bc|] eqn:E.
      - exact (proj2 (assoc_find_Forall segment_eqb counted grouped key bc Hg E)).
      - constructor. }
    assert (Hnew : Forall (fun entry => counted (snd entry))
                     (assoc_set segment_eqb grouped key
                        (assoc_set String.eqb bucket_counts bucket count))).
    { apply assoc_set_Forall; [exact Hg|]. split.
      - apply assoc_set_nonempty.
      - apply (assoc_set_Forall String.eqb (fun n => (1 <= n)%nat)); assumption. }
    destruct (IH _ Hnew) as [Hfinal Hkeys]. split; [exact Hfinal|].
    intros key'. rewrite Hkeys. rewrite (assoc_set_keys segment_eqb segment_eqb_eq).
    cbn [map In fst]. split; intros H; intuition (subst; auto).
Qed.

Lemma sum_counts_positive (bucket_counts : list (string * nat)) :
  counted bucket_counts -> (1 <= fold_right Nat.add 0 (map snd bucket_counts))%nat.
Proof.
  intros [Hne Hall]. destruct bucket_counts as [|[b n] rest]; [contradiction|].
  inversion Hall as [|x l Hn _]; subst. cbn in *. lia.
Qed.

(** X20.  [_validate_due_date_distributions] on the rows of the due-date
    query: every segment that has a task with a due date is evaluated and
    reported, however few its tasks are. *)
Theorem due_date_segments_all_evaluated (v : validator) (rows : list task_row)
  (r : task_row) (days : Q) :
  In r rows -> row_due_in_days r = Some days ->
  exists res,
    In res (due_date_details (_validate_due_date_distributions v (due_date_query rows))) /\
    ddr_department res = row_department r /\
    ddr_project_type res = row_project_type r /\
    (1 <= ddr_sample_size res)%nat.
Proof.
  intros Hin Hdue.
  unfold _validate_due_date_distributions. cbn [due_date_details].
  set (data := due_date_query rows).
  assert (Hdata : Forall (fun row => (1 <= snd row)%nat) data /\
                  In (segment_of r) (map (fun row => fst (fst row)) data)).
  { unfold data, due_date_query. cbv zeta.
    set (keyed := flat_map _ rows).
    assert (Hk : In (segment_of r, due_date_bucket days) keyed).
    { unfold keyed. apply in_flat_map. exists r. split; [exact Hin|].
      rewrite Hdue. left. reflexivity. }
    split.
    - apply Forall_forall. intros row Hrow. apply in_map_iff in Hrow.
      destruct Hrow as (k & <- & Hk'). cbn [snd].
      apply (count_by_positive bucket_key_eqb bucket_key_eqb_eq).
      apply (distinct_by_In bucket_key_eqb bucket_key_eqb_eq). exact Hk'.
    - rewrite map_map. cbn [fst]. apply in_map_iff.
      exists (segment_of r, due_date_bucket days). split; [reflexivity|].
      apply (distinct_by_In bucket_key_eqb bucket_key_eqb_eq). exact Hk. }
  destruct Hdata as [Hcounts Hkey].
  destruct (group_buckets_invariant data Hcounts [] (Forall_nil _)) as [Hall Hkeys].
  fold (group_buckets data) in Hall, Hkeys.
  assert (Hentry : In (segment_of r) (map fst (group_buckets data))).
  { apply Hkeys. right. exact Hkey. }
  apply in_map_iff in Hentry. destruct Hentry as ([key bc] & Hk & Hentry).
  cbn [fst] in Hk. subst key.
  rewrite Forall_forall in Hall. pose proof (Hall _ Hentry) as Hbc. cbn [snd] in Hbc.
  assert (Hsome : exists res,
             validate_segment v (segment_of r) bc = Some res /\
             ddr_department res = row_department r /\
             ddr_project_type res = row_project_type r /\
             (1 <= ddr_sample_size res)%nat).
  { unfold validate_segment. cbv zeta.
    destruct (contains "sprint" (lower (snd (segment_of r)))); cbn [dict_get String.eqb];
      eexists; (split; [reflexivity|]); cbn [ddr_department ddr_project_type ddr_sample_size];
      repeat split; apply sum_counts_positive; exact Hbc. }
  destruct Hsome as (res & Hres & Hprops). exists res. split; [|exact Hprops].
  apply in_flat_map. exists (segment_of r, bc). split; [exact Hentry|].
  cbn [fst snd]. rewrite Hres. left. reflexivity.
Qed.

Lemma due_date_segments_all_evaluated_witness :
  exists res,
    In res (due_date_details
              (_validate_due_date_distributions default_validator
                 (due_date_query [lone_row]))) /\
    ddr_department res = row_department lone_row /\
    ddr_project_type res = row_project_type lone_row /\
    (1 <= ddr_sample_size res)%nat.
Proof.
  apply (due_date_segments_all_evaluated default_validator [lone_row] lone_row (1 # 2));
    [left; reflexivity | reflexivity].
Defined.

Lemma filter_map_length {A B : Type} (f : A -> B) (p : B -> bool) (l : list A) :
  List.length (filter p (map f l)) = List.length (filter (fun a => p (f a)) l).
Proof.
  induction l as [|a l IH]; [reflexivity|]. cbn [map filter].
  destruct (p (f a)); cbn [List.length]; rewrite IH; reflexivity.
Qed.

(** X21.  The completion-rate report over the rows of the completion-rate
    query.  Each detail is a segment of at least 10 tasks, its sample size is
    the number of tasks of the segment and its rate lies in [[0, 1]]; its
    status is [success] exactly when the rate is within the thresholds of
    the project type.  Every segment of at least 10 tasks has a detail, and
    the report fails exactly when a detail does. *)
Theorem completion_report_spec (v : validator) (rows : list task_row) :
  let report := _validate_completion_rates v (completion_rates_query rows) in
  (forall res, In res (completion_details report) ->
     crr_sample_size res
       = count_by segment_eqb (crr_department res, crr_project_type res)
           (map segment_of rows) /\
     (10 <= crr_sample_size res)%nat /\
     (0 <= crr_completion_rate res <= 1)%Q /\
     (crr_min_acceptable res, crr_max_acceptable res)
       = dict_get (completion_rate_thresholds v) (crr_project_type res)
           (default_completion_rate_threshold v) /\
     (crr_status res = success <->
      (crr_min_acceptable res <= crr_completion_rate res <= crr_max_acceptable res)%Q)) /\
  (forall r, In r rows ->
     (10 <= count_by segment_eqb (segment_of r) (map segment_of rows))%nat ->
     exists res, In res (completion_details report) /\
                 crr_department res = row_department r /\
                 crr_project_type res = row_project_type r) /\
  (completion_status report = failure <->
   exists res, In res (completion_details report) /\ crr_status res = failure).
Proof.
  intros report. unfold report, _validate_completion_rates.
  cbn [completion_details completion_status].
  set (results := map _ (completion_rates_query rows)).
  split; [|split].
  - intros res Hin. unfold results in Hin. apply in_map_iff in Hin.
    destruct Hin as (row & <- & Hrow).
    cbn [crr_sample_size crr_department crr_project_type crr_completion_rate
         crr_min_acceptable crr_max_acceptable crr_status].
    unfold completion_rates_query in Hrow. apply filter_In in Hrow.
    destruct Hrow as [Hrow Hten]. apply Nat.leb_le in Hten.
    apply in_map_iff in Hrow. destruct Hrow as (key & <- & Hkey).
    cbn [cr_total_tasks cr_department cr_project_type cr_completion_rate] in *.
    set (group := filter (fun r => segment_eqb key (segment_of r)) rows) in *.
    assert (Hcompleted : (List.length (filter row_completed group) <= List.length group)%nat)
      by apply filter_length_le.
    split; [|split; [|split; [|split]]].
    + unfold count_by. rewrite filter_map_length. destruct key. reflexivity.
    + exact Hten.
    + set (c := List.length (filter row_completed group)) in *.
      set (n := List.length group) in *.
      assert (Hn : (0 < inject_Z (Z.of_nat n))%Q).
      { rewrite <- (Zlt_Qlt 0). lia. }
      assert (Hc : (0 <= inject_Z (Z.of_nat c))%Q).
      { rewrite <- (Zle_Qle 0). lia. }
      assert (Hcn : (inject_Z (Z.of_nat c) <= inject_Z (Z.of_nat n))%Q).
      { rewrite <- Zle_Qle. lia. }
      split.
      * apply Qle_shift_div_l; [exact Hn | lra].
      * apply Qle_shift_div_r; [exact Hn | lra].
    + destruct (dict_get _ _ _). reflexivity.
    + match goal with
      | |- context [qlt ?rate ?lo || qlt ?hi ?rate] =>
          destruct (qlt_cases rate lo) as [[H1 ->]|[H1 ->]];
          destruct (qlt_cases hi rate) as [[H2 ->]|[H2 ->]]; cbn [orb]
      end; split; intros H; try discriminate H; try reflexivity; try lra; split; lra.
  - intros r Hin Hten.
    eexists. split; [|split].
    + unfold results. apply in_map_iff. eexists. split; [reflexivity|].
      unfold completion_rates_query. apply filter_In. split.
      * apply in_map_iff. exists (segment_of r). split; [reflexivity|].
        apply (distinct_by_In segment_eqb segment_eqb_eq). apply in_map. exact Hin.
      * cbn [cr_total_tasks]. apply Nat.leb_le.
        unfold count_by in Hten. rewrite filter_map_length in Hten. exact Hten.
    + reflexivity.
    + reflexivity.
  - set (failed := filter (fun r => is_failure (crr_status r)) results).
    assert (Hf : forall res, In res failed <-> In res results /\ crr_status res = failure).
    { intros res. unfold failed. rewrite filter_In.
      destruct (crr_status res); cbn; split; intros [H1 H2]; split;
        try assumption; try reflexivity; discriminate. }
    destruct failed as [|res0 rest] eqn:E.
    + cbn. split; [intros H; discriminate H|].
      intros (res & Hres). apply Hf in Hres. contradiction.
    + cbn. split; [|reflexivity]. intros _. exists res0. apply Hf. left. reflexivity.
Qed.

(** ** Times of day of a lifecycle *)

(** X22.  The times of day that [generate_task_lifecycle] gives: a start on
    a business day is between 9:00 and 17:59; a completion on a day that is
    not a business day is between 9:00 and 20:59; a completion on a business
    day has no microseconds (its time of day is drawn afresh). *)
Theorem lifecycle_times_of_day (holiday_calendar : Z -> bool) (dr : lifecycle_draws)
  (created : datetime) (due_date : option datetime) (department project_type : string)
  (lc : lifecycle) (s c : datetime) :
  generate_task_lifecycle holiday_calendar dr created due_date department project_type
  = Ok lc ->
  started_at lc = Some s -> completed_at lc = Some c ->
  (is_business_day holiday_calendar (date s) = true -> 9 <= hour s <= 17) /\
  (is_business_day holiday_calendar (date c) = false -> 9 <= hour c <= 20) /\
  (is_business_day holiday_calendar (date c) = true -> microsecond c = 0).
Proof.
  unfold generate_task_lifecycle. cbv zeta.
  destruct (qlt _ _); [|intros H; injection H as <-; discriminate].
  destruct (_generate_completion_timestamp holiday_calendar dr created due_date
              department project_type) as [c'|e] eqn:Ec; [|discriminate].
  cbn [bind]. intros H Hs Hc. injection H as <-.
  cbn [started_at completed_at] in Hs, Hc. injection Hc as <-.
  split.
  - clear Ec. injection Hs as <-.
    unfold _generate_started_timestamp. cbv zeta.
    match goal with
    | |- context [replace_hms ?t _ _ _] => set (start := t)
    end.
    destruct (is_business_day holiday_calendar (date start)) eqn:B.
    + intros _. rewrite hour_replace_hms;
        first [unfold work_start_hour, work_end_hour; lia
              | exact (randint_range 0 59 _ ltac:(lia))].
    + intros H. rewrite B in H. discriminate H.
  - clear Hs. unfold _generate_completion_timestamp in Ec. cbv zeta in Ec.
    match type of Ec with
    | context [replace_hms ?t _ _ _] => set (completion := t) in Ec
    end.
    destruct (is_business_day holiday_calendar (date completion)) eqn:B.
    + apply work_hours_ok in Ec. destruct Ec as (Hd & _ & Hus).
      rewrite Hd, B. split; [intros H; discriminate H | intros _; exact Hus].
    + injection Ec as <-.
      rewrite date_replace_hms, hour_replace_hms
        by first [lia | exact (randint_range 0 59 _ ltac:(lia))].
      rewrite B. split; [intros _; lia | intros H; discriminate H].
Qed.

Lemma lifecycle_times_of_day_witness :
  let s := at_time (ymd 2026 1 2) 10 12 5 in
  let c := at_time (ymd 2026 1 2) 14 20 30 in
  (is_business_day new_year_2026 (date s) = true -> 9 <= hour s <= 17) /\
  (is_business_day new_year_2026 (date c) = false -> 9 <= hour c <= 20) /\
  (is_business_day new_year_2026 (date c) = true -> microsecond c = 0).
Proof.
  cbv zeta.
  apply (lifecycle_times_of_day new_year_2026 afternoon_draws
           (at_time (ymd 2026 1 2) 9 30 0) (Some (at_time (ymd 2026 1 15) 17 0 0))
           "engineering" "sprint"
           {| created_at := at_time (ymd 2026 1 2) 9 30 0;
              started_at := Some (at_time (ymd 2026 1 2) 10 12 5);
              completed_at := Some (at_time (ymd 2026 1 2) 14 20 30);
              cycle_time_days := Some (14905000000 # 86400000000)%Q;
              lead_time_days := Some (17430000000 # 86400000000)%Q |});
    [vm_compute; reflexivity | reflexivity | reflexivity].
Defined.

(** ** Due dates of tasks *)

(** The distribution of every project type: as many probabilities as
    buckets, of positive total; each bucket is the one without a due date
    or has both of its bounds. *)
Lemma due_date_distribution_shape (project_type : string) :
  let distribution := Tasks._get_due_date_distribution project_type in
  distribution <> [] /\
  qlt 0 (qsum (map snd distribution)) = true /\
  Forall (fun entry : option Z * option Z * Q =>
            fst entry = (None, None) \/
            exists lo hi, fst entry = (Some lo, Some hi) /\ 0 <= lo <= hi)
         distribution.
Proof.
  unfold Tasks._get_due_date_distribution.
  apply (dict_get_Forall
           (fun distribution : list (option Z * option Z * Q) =>
              distribution <> [] /\
              qlt 0 (qsum (map snd distribution)) = true /\
              Forall (fun entry : option Z * option Z * Q =>
                        fst entry = (None, None) \/
                        exists lo hi, fst entry = (Some lo, Some hi) /\ 0 <= lo <= hi)
                     distribution)).
  - unfold Tasks.due_date_distributions.
    repeat (apply Forall_cons || apply Forall_nil); cbn [snd];
      (split; [discriminate | split; [reflexivity|]]);
      repeat (apply Forall_cons || apply Forall_nil);
      first [ left; reflexivity
            | right; eexists; eexists; split; [reflexivity | lia] ].
  - cbn [dict_get Tasks.due_date_distributions String.eqb Ascii.eqb Bool.eqb].
    split; [discriminate | split; [reflexivity|]].
    repeat (apply Forall_cons || apply Forall_nil);
      first [ left; reflexivity
            | right; eexists; eexists; split; [reflexivity | lia] ].
Qed.

(** X23.  [_generate_realistic_due_date] returns for every project type,
    section and draw, and raises nothing.  A due date that it returns is at
    most 180 days after the current date, and not before the creation of
    the task when the task was created at most 30 days after the current
    date.  The holiday calendar and the business-day draw have no effect on
    the result: the call [get_business_day_offset(due_date, 0)] returns its
    argument. *)
Theorem due_date_bounds (holiday_calendar : Z -> bool) (fuel : nat)
  (dr : Tasks.due_date_draws) (project_type : string) (created_date : datetime)
  (section_name : string) (current_date : datetime) :
  exists res,
    Tasks._generate_realistic_due_date holiday_calendar fuel dr project_type created_date
      section_name current_date = Some (Ok res) /\
    (forall due_date, res = Some due_date ->
       due_date <= current_date + timedelta_days 180 /\
       (created_date <= current_date + timedelta_days 30 -> created_date <= due_date)) /\
    (forall (holiday_calendar' : Z -> bool) (fuel' : nat) (draw : Q),
       Tasks._generate_realistic_due_date holiday_calendar' fuel'
         {| Tasks.bucket_draw := Tasks.bucket_draw dr;
            Tasks.days_draw := Tasks.days_draw dr;
            Tasks.business_day_draw := draw;
            Tasks.horizon_draw := Tasks.horizon_draw dr;
            Tasks.overdue_draw := Tasks.overdue_draw dr;
            Tasks.overdue_days_draw := Tasks.overdue_days_draw dr |}
         project_type created_date section_name current_date = Some (Ok res)).
Proof.
  pose proof (due_date_distribution_shape project_type) as Hshape. cbv zeta in Hshape.
  destruct Hshape as (Hne & Hsum & Hall).
  unfold Tasks._generate_realistic_due_date. cbv zeta.
  cbn [Tasks.bucket_draw Tasks.days_draw Tasks.business_day_draw Tasks.horizon_draw
       Tasks.overdue_draw Tasks.overdue_days_draw].
  set (distribution := Tasks._get_due_date_distribution project_type) in *.
  destruct (choices_ok (seq 0 (List.length (map fst distribution))) (map snd distribution)
              (Tasks.bucket_draw dr)) as (idx & Hidx & Hnth).
  { rewrite length_seq, !length_map. reflexivity. }
  { exact Hsum. }
  { destruct distribution; [contradiction | discriminate]. }
  rewrite Hidx. cbn [bind].
  apply nth_error_In in Hnth. apply in_seq in Hnth.
  unfold index.
  destruct (nth_error (map fst distribution) idx) as [b|] eqn:Eb;
    [|apply nth_error_None in Eb; lia].
  apply nth_error_In in Eb. apply in_map_iff in Eb. destruct Eb as (entry & <- & Hentry).
  rewrite Forall_forall in Hall. destruct (Hall entry Hentry) as [Hopen|(lo & hi & Hb & Hlo)].
  - rewrite Hopen. exists None. split; [reflexivity|]. split; [|reflexivity].
    intros due_date H. discriminate H.
  - rewrite Hb.
    set (u := dict_get Tasks.section_urgency section_name 1.0%Q).
    set (min_days := Z.max 0 (Z.max 0 (Tasks.int (inject_Z lo * u)))).
    set (max_days := Z.max (min_days + 1) (Z.max 0 (Tasks.int (inject_Z hi * u)))).
    pose proof (randint_range min_days max_days (Tasks.days_draw dr) ltac:(lia)) as Hdays.
    set (days_offset := randint min_days max_days (Tasks.days_draw dr)) in *.
    assert (Hoffset : 0 <= days_offset) by lia.
    clearbody days_offset. clear Hdays.
    assert (Hmoved : forall (h : Z -> bool) (f : nat) (q : Q),
               (if qlt (random q) 0.85
                then get_business_day_offset h f
                       (created_date + timedelta_days days_offset) 0
                else Some (created_date + timedelta_days days_offset))
               = Some (created_date + timedelta_days days_offset)).
    { intros h f q. destruct (qlt (random q) 0.85); reflexivity. }
    rewrite !Hmoved.
    match goal with
    | |- exists res, Some (Ok (Some ?e)) = _ /\ _ => set (final := e)
    end.
    assert (Hfinal : final <= current_date + timedelta_days 180 /\
                     (created_date <= current_date + timedelta_days 30 ->
                      created_date <= final)); [unfold final|].
    2:{ exists (Some final). split; [reflexivity|].
        split; [|intros h' f' q; rewrite Hmoved; reflexivity].
        intros due_date H. injection H as <-. exact Hfinal. }
    pose proof (randint_range 30 180 (Tasks.horizon_draw dr) ltac:(lia)) as Hh.
    pose proof (randint_range 1 30 (Tasks.overdue_days_draw dr) ltac:(lia)) as Ho.
    set (k := randint 30 180 (Tasks.horizon_draw dr)) in *.
    set (j := randint 1 30 (Tasks.overdue_days_draw dr)) in *.
    clearbody k j.
    set (due0 := created_date + timedelta_days days_offset).
    assert (H0 : created_date <= due0) by (unfold due0, timedelta_days, us_per_day, us_per_second; lia).
    clearbody due0.
    set (due1 := if current_date + timedelta_days 180 <? due0
                 then current_date + timedelta_days k else due0).
    assert (H1 : due1 <= current_date + timedelta_days 180 /\
                 (created_date <= current_date + timedelta_days 30 -> created_date <= due1)).
    { unfold due1. destruct (current_date + timedelta_days 180 <? due0) eqn:E.
      - unfold timedelta_days, us_per_day, us_per_second in *. lia.
      - apply Z.ltb_ge in E. split; [exact E | intros _; exact H0]. }
    clearbody due1. destruct H1 as [H1 H1'].
    destruct (qlt (random (Tasks.overdue_draw dr)) _); cbn [andb]; [|split; assumption].
    destruct (due1 <? current_date) eqn:Elate; [|split; assumption].
    destruct (30 <? td_days (current_date - due1)) eqn:Efar; [|split; assumption].
    apply Z.ltb_lt in Efar. unfold td_days in Efar.
    assert (Hfar : 31 * us_per_day <= current_date - due1).
    { assert (Hd : 0 < us_per_day) by (unfold us_per_day, us_per_second; lia).
      pose proof (Z.div_mod (current_date - due1) us_per_day ltac:(lia)) as Hdm.
      pose proof (Z.mod_pos_bound (current_date - due1) us_per_day Hd) as Hmb.
      nia. }
    unfold timedelta_days, us_per_day, us_per_second in *. split; [lia|].
    intros Hc. specialize (H1' Hc). lia.
Qed.

(** ** Fields whose value is chosen from a list *)

Lemma choice_ok {A : Type} (l : list A) (raw : nat) :
  l <> [] -> exists a, choice l raw = Ok a /\ In a l.
Proof.
  intros Hne. unfold choice.
  destruct (nth_error l (raw mod List.length l)) as [a|] eqn:E.
  - exists a. split; [reflexivity | eapply nth_error_In; exact E].
  - apply nth_error_None in E.
    assert (List.length l <> 0)%nat by (destruct l; [contradiction | discriminate]).
    pose proof (Nat.mod_upper_bound raw (List.length l) H). lia.
Qed.

(** X24.  Enum, boolean and text fields with the pattern table of the
    source.  An enum field without options of its own gets one of the
    options that the resolution gives; with options of its own it gets one
    of them, and [IndexError] when their list is empty.  A boolean field
    always gets a value, and a text field gets one of the texts of its
    department, or one of the three default texts. *)
Theorem listed_field_values (dr : field_draws) (fd : field_definition)
  (department project_type : string) (task_created_at : datetime) :
  let run := _generate_field_value field_value_patterns dr fd department project_type
               task_created_at in
  (field_type fd = "enum"%string ->
   match enum_options fd with
   | None =>
       exists v, run = Ok (VString v) /\
                 In v (lookup_pattern (dict_get (enum_patterns field_value_patterns)
                                         department [])
                         (lower (name fd)) generic_enum)
   | Some [] => run = Raise IndexError
   | Some parsed => exists v, run = Ok (VString v) /\ In v parsed
   end) /\
  (field_type fd = "boolean"%string -> exists b, run = Ok (VBool b)) /\
  (field_type fd = "text"%string ->
   exists v, run = Ok (VString v) /\
             In v (match dict_get (text_patterns field_value_patterns) department [] with
                   | [] => generic_text
                   | dept_patterns => dept_patterns
                   end)).
Proof.
  intros run. unfold run, _generate_field_value, _get_field_value_distribution.
  split; [|split]; intros Hty; rewrite Hty; cbn [String.eqb Ascii.eqb Bool.eqb]; cbv zeta.
  - set (options := lookup_pattern _ (lower (name fd)) generic_enum).
    assert (Hne : options <> []).
    { unfold options.
      apply (lookup_pattern_Forall (fun l : list string => l <> [])); [|discriminate].
      apply (dict_get_Forall
               (fun d : list (string * list string) =>
                  Forall (fun kv => snd kv <> []) d)); [|constructor].
      unfold field_value_patterns. cbn [enum_patterns].
      repeat (apply Forall_cons || apply Forall_nil); discriminate. }
    clearbody options. destruct options as [|o options']; [contradiction|].
    destruct (enum_options fd) as [[|p parsed]|].
    + unfold choice. destruct (choice_draw dr mod List.length (@nil string))%nat; reflexivity.
    + destruct (choice_ok (p :: parsed) (choice_draw dr) ltac:(discriminate))
        as (v & Hv & Hin).
      exists v. rewrite Hv. split; [reflexivity | exact Hin].
    + destruct (choice_ok (o :: options') (choice_draw dr) Hne) as (v & Hv & Hin).
      exists v. rewrite Hv. split; [reflexivity | exact Hin].
  - set (weights := lookup_pattern _ (lower (name fd)) generic_boolean).
    assert (Hw : List.length weights = 2%nat /\ qlt 0 (qsum weights) = true).
    { unfold weights.
      apply (lookup_pattern_Forall
               (fun l : list Q => List.length l = 2%nat /\ qlt 0 (qsum l) = true));
        [|split; reflexivity].
      apply (dict_get_Forall
               (fun d : list (string * list Q) =>
                  Forall (fun kv => List.length (snd kv) = 2%nat
                                    /\ qlt 0 (qsum (snd kv)) = true) d)); [|constructor].
      unfold field_value_patterns. cbn [boolean_patterns].
      repeat (apply Forall_cons || apply Forall_nil); split; reflexivity. }
    destruct Hw as [Hlen Hsum].
    clearbody weights. destruct weights as [|w weights']; [discriminate Hlen|].
    rewrite Hlen. cbn [Nat.eqb].
    destruct (choices_ok [true; false] (w :: weights') (choice_draw dr) Hlen Hsum
                ltac:(discriminate)) as (b & Hb & _).
    exists b. rewrite Hb. reflexivity.
  - destruct (dict_get (text_patterns field_value_patterns) department []) as [|t texts] eqn:Et.
    + unfold generic_text.
      destruct (choice_ok ["value1"; "value2"; "value3"]%string (choice_draw dr)
                  ltac:(discriminate)) as (v & Hv & Hin).
      exists v. rewrite Hv. split; [reflexivity | exact Hin].
    + destruct (choice_ok (t :: texts) (choice_draw dr) ltac:(discriminate))
        as (v & Hv & Hin).
      exists v. rewrite Hv. split; [reflexivity | exact Hin].
Qed.
